(** * fileReorg: the Smart File Organizer, embedded and verified

    A shallow embedding of [src/fileReorg.py] (class [SmartFileOrganizer]):
    the classifier [get_file_type], the namer [generate_smart_filename]
    with the content-analysis collaborator [analyze_content_with_ai], the
    conflict-suffix loops, and the two passes [organize_files_in_folder]
    and [reanalyze_organized_files].

    Conventions of the embedding.
    - A Python [str] is a [string]; a character is read as the code point
      of the same number (Latin-1), so [\w], [str.lower] and [str.strip]
      are given on code points 0..255 exactly as CPython defines them.
    - The scanned folder is an association list in iteration order
      ([Path.iterdir]); a move appends the entry to its new directory.
    - Code that mutates [self], the stats dictionary or the filesystem is
      written in a state monad whose state survives a raised exception,
      as Python object mutation does. *)

From Stdlib Require Import String Ascii List Bool Arith Lia NArith Permutation.
From Stdlib Require Import DecimalString DecimalNat Decimal FinFun.
Import ListNotations.
Local Open Scope string_scope.
Local Open Scope list_scope.

(* ================================================================= *)
(** ** Python strings *)

Module Py.

(** Code point of a character. *)
Definition ord (c : ascii) : N := N_of_ascii c.

Definition in_range (lo hi : N) (c : ascii) : bool :=
  (N.leb lo (ord c) && N.leb (ord c) hi)%bool.

Definition is_upper_az (c : ascii) : bool := in_range 65 90 c.
Definition is_lower_az (c : ascii) : bool := in_range 97 122 c.
Definition is_digit09 (c : ascii) : bool := in_range 48 57 c.

(** The class [[A-Za-z]] of the word pattern. *)
Definition is_az_letter (c : ascii) : bool := is_upper_az c || is_lower_az c.

(** The class [[A-Za-z0-9_-]] of the sanitisation invariant. *)
Definition is_safe_char (c : ascii) : bool :=
  is_az_letter c || is_digit09 c || N.eqb (ord c) 95 || N.eqb (ord c) 45.

(** Code points below 256 that are alphanumeric for CPython
    ([str.isalnum]) without being ASCII: the ordinal indicators, the
    superscript digits, the micro sign, the vulgar fractions and the
    Latin-1 letters. *)
Definition is_latin1_alnum (c : ascii) : bool :=
  let n := ord c in
  N.eqb n 170 || N.eqb n 178 || N.eqb n 179 || N.eqb n 181 || N.eqb n 185
  || N.eqb n 186 || in_range 188 190 c || in_range 192 214 c
  || in_range 216 246 c || in_range 248 255 c.

(** [\w] of the [re] module on a [str] pattern: alphanumeric or underscore. *)
Definition is_word (c : ascii) : bool :=
  is_az_letter c || is_digit09 c || N.eqb (ord c) 95 || is_latin1_alnum c.

(** [str.isspace] on code points below 256. *)
Definition is_space (c : ascii) : bool :=
  in_range 9 13 c || in_range 28 32 c || N.eqb (ord c) 133 || N.eqb (ord c) 160.

Definition is_ascii (c : ascii) : bool := N.ltb (ord c) 128.

(** [str.lower] of one character. *)
Definition lower_char (c : ascii) : ascii :=
  if is_upper_az c || (in_range 192 222 c && negb (N.eqb (ord c) 215))
  then ascii_of_N (ord c + 32) else c.

Fixpoint smap (f : ascii -> ascii) (s : string) : string :=
  match s with
  | EmptyString => EmptyString
  | String c r => String (f c) (smap f r)
  end.

Fixpoint sforall (p : ascii -> bool) (s : string) : bool :=
  match s with
  | EmptyString => true
  | String c r => p c && sforall p r
  end.

Fixpoint sexists (p : ascii -> bool) (s : string) : bool :=
  match s with
  | EmptyString => false
  | String c r => p c || sexists p r
  end.

(** [s.lower()] *)
Definition lower (s : string) : string := smap lower_char s.

(** [s[:n]] *)
Fixpoint take (n : nat) (s : string) : string :=
  match n, s with
  | S k, String c r => String c (take k r)
  | _, _ => EmptyString
  end.

(** [s[n:]] *)
Fixpoint drop (n : nat) (s : string) : string :=
  match n, s with
  | S k, String _ r => drop k r
  | _, _ => s
  end.

(** [s.startswith(p)] *)
Definition startswith (p s : string) : bool := String.prefix p s.

(** [sub in s] *)
Fixpoint contains (sub s : string) : bool :=
  String.prefix sub s ||
  match s with
  | EmptyString => false
  | String _ r => contains sub r
  end.

(** [s.replace(sub, "")] for a non-empty [sub]: every occurrence, found
    left to right and not overlapping, is removed.  [skip] counts the
    characters of the occurrence being removed that are still ahead. *)
Fixpoint remove_from (sub : string) (skip : nat) (s : string) : string :=
  match s with
  | EmptyString => EmptyString
  | String c r =>
      match skip with
      | S k => remove_from sub k r
      | O => if String.prefix sub s
             then remove_from sub (String.length sub - 1) r
             else String c (remove_from sub 0 r)
      end
  end.

Definition remove_all (sub s : string) : string := remove_from sub 0 s.

(** [s.replace(a, "")] and [s.replace(a, b)] for single characters. *)
Fixpoint remove_char (a : ascii) (s : string) : string :=
  match s with
  | EmptyString => EmptyString
  | String c r => if Ascii.eqb c a then remove_char a r
                  else String c (remove_char a r)
  end.

Definition replace_char (a b : ascii) (s : string) : string :=
  smap (fun c => if Ascii.eqb c a then b else c) s.

(** [s.strip()] *)
Fixpoint lstrip (s : string) : string :=
  match s with
  | EmptyString => EmptyString
  | String c r => if is_space c then lstrip r else s
  end.

Fixpoint rstrip (s : string) : string :=
  match s with
  | EmptyString => EmptyString
  | String c r =>
      match rstrip r with
      | EmptyString => if is_space c then EmptyString else String c EmptyString
      | r' => String c r'
      end
  end.

Definition strip (s : string) : string := rstrip (lstrip s).

(** [sep.join(l)] *)
Fixpoint join (sep : string) (l : list string) : string :=
  match l with
  | [] => ""
  | [w] => w
  | w :: r => w ++ sep ++ join sep r
  end.

(** [str(n)] of a non-negative integer. *)
Definition str_of_nat (n : nat) : string :=
  NilEmpty.string_of_uint (Nat.to_uint n).

(** Truthiness of a [str]. *)
Definition truthy (s : string) : bool :=
  match s with EmptyString => false | _ => true end.

(** [x in l] for a list of strings. *)
Definition mem (x : string) (l : list string) : bool :=
  existsb (String.eqb x) l.

(** [re.sub(r'[^\w\-_]', '_', s)] *)
Definition re_sub_unsafe (s : string) : string :=
  smap (fun c => if is_word c || N.eqb (ord c) 45 || N.eqb (ord c) 95
                 then c else "_"%char) s.

(** [re.findall(r'\b[A-Za-z]{4,}\b', s)].  A match starts where a word
    character follows a non-word character (or the start), must consume
    ASCII letters only and must end where a non-word character (or the
    end) follows; so the matches are exactly the maximal runs of word
    characters that are made of at least four ASCII letters.  The scan
    keeps the run read so far in [run] (reversed) and whether it is
    still letters only in [ok]. *)
Fixpoint scan_words (s : string) (run : list ascii) (ok : bool) : list string :=
  let close (rest : list string) :=
    if ok && Nat.leb 4 (List.length run) then string_of_list_ascii (List.rev run) :: rest
    else rest in
  match s with
  | EmptyString => close []
  | String c r =>
      if is_word c then scan_words r (c :: run) (ok && is_az_letter c)
      else close (scan_words r [] true)
  end.

Definition findall_words (s : string) : list string := scan_words s [] true.

End Py.

(* ================================================================= *)
(** ** pathlib *)

Module PurePath.

(** Position of the last dot ([name.rfind('.')]), if any. *)
Fixpoint rfind_dot (s : string) : option nat :=
  match s with
  | EmptyString => None
  | String c r =>
      match rfind_dot r with
      | Some i => Some (S i)
      | None => if Ascii.eqb c "."%char then Some 0 else None
      end
  end.

(** [Path.suffix]: the part from the last dot, unless that dot is the
    first or the last character ([0 < i < len(name) - 1]). *)
Definition suffix (name : string) : string :=
  match rfind_dot name with
  | Some i => if Nat.ltb 0 i && Nat.ltb i (String.length name - 1)
              then Py.drop i name else ""
  | None => ""
  end.

(** [Path.stem]: the name without its suffix. *)
Definition stem (name : string) : string :=
  match rfind_dot name with
  | Some i => if Nat.ltb 0 i && Nat.ltb i (String.length name - 1)
              then Py.take i name else name
  | None => name
  end.

End PurePath.

(* ================================================================= *)
(** ** The organizer's tables *)

(** [self.file_categories], in insertion order. *)
Definition file_categories : list (string * list string) :=
  [ ("Images", [".jpg"; ".jpeg"; ".png"; ".gif"; ".bmp"; ".tiff"; ".svg"; ".webp"; ".ico"]);
    ("Documents", [".pdf"; ".doc"; ".docx"; ".txt"; ".rtf"; ".odt"; ".pages"]);
    ("Spreadsheets", [".xls"; ".xlsx"; ".csv"; ".numbers"; ".ods"]);
    ("Presentations", [".ppt"; ".pptx"; ".key"; ".odp"]);
    ("Audio", [".mp3"; ".wav"; ".aac"; ".flac"; ".ogg"; ".m4a"]);
    ("Video", [".mp4"; ".avi"; ".mov"; ".mkv"; ".wmv"; ".flv"; ".webm"; ".m4v"]);
    ("Archives", [".zip"; ".rar"; ".7z"; ".tar"; ".gz"; ".dmg"; ".pkg"]);
    ("Code", [".py"; ".js"; ".html"; ".css"; ".java"; ".cpp"; ".c"; ".php"; ".rb"; ".go"; ".swift"]);
    ("Data", [".json"; ".xml"; ".yaml"; ".yml"; ".sql"; ".db"; ".sqlite"]) ].

(** [self.system_files] *)
Definition system_files : list string :=
  [".DS_Store"; ".localized"; "Thumbs.db"; ".Trashes"; ".fseventsd"].

(** The prefix of the category folders. *)
Definition organized_prefix : string := "Organized_".

(** [f"Organized_{category}"] *)
Definition organized_name (category : string) : string :=
  organized_prefix ++ category.

(* ================================================================= *)
(** ** Files, the scanned folder, and the organizer's state *)

(** What the organizer can observe of a regular file (or of a symbolic
    link to one).  The fields stand for the answers of the operating
    system and of the optional libraries. *)
Record file := mkFile {
  f_symlink : bool;             (* [Path.is_symlink()] *)
  f_stat_ok : bool;             (* [Path.stat()] succeeds *)
  f_mime : option string;       (* [magic.from_file] or [mimetypes.guess_type] *)
  f_exif_date : option string;  (* EXIF [DateTime], when Pillow reads one *)
  f_text : option string;       (* decoded text (PDF text for a PDF), when readable *)
  f_movable : bool              (* [shutil.move] of it succeeds *)
}.

(** An entry of a category folder: a regular file, or something that
    exists without being one (a sub-directory). *)
Inductive entry :=
| File (f : file)
| SubDir.

(** An entry of the scanned folder itself. *)
Inductive rentry :=
| RFile (f : file)
| RDir (es : list (string * entry)).

Definition dir := list (string * entry).
Definition rootdir := list (string * rentry).

(** A path below the scanned folder, as its components. *)
Definition path := list string.

(** One element of [change_type]: the category change or the rename. *)
Inductive change :=
| ChCategory (current_category new_category : string)
| ChName (current_name new_filename : string).

(** One line of [actions_log.jsonl] (the timestamp is left out). *)
Record log_entry := mkLog {
  la_reanalysis : bool;            (* ['action': 'reanalysis'] present *)
  la_original_path : path;
  la_new_path : path;
  la_original_name : string;
  la_new_name : string;
  la_original_category : string;   (* equals [la_category] for the organize pass *)
  la_category : string;
  la_change_type : list change;
  la_mime_type : string
}.

(** The lines the organizer sends to its logger, by purpose. *)
Inductive event :=
| LogSkipping (name : string)
| LogProcessing (name mime category : string)
| LogMoved (name : string) (dest : path)
| LogError (name : string)
| LogCreatedVerified (folder : string)
| LogReanalyzing (name : string)
| LogDryRun (name : string) (changes : list change)
| LogUpdated (changes : list change)
| LogNoChanges (name : string)
| LogAiInvalidKey (name : string)
| LogAiQuota (name : string)
| LogAiModel (name : string)
| LogAiFailed (name : string)
| LogWarning (what : string).

(** The reply of the content-analysis service to one request: the text
    of the first choice, or an exception with its message. *)
Inductive ai_response :=
| AiReply (content : string)
| AiRaise (msg : string).

(** The service: what it answers to its [n]-th request, which carries
    the stem, the suffix and the first 500 characters of the preview. *)
Definition collaborator := nat -> string -> string -> string -> ai_response.

(** [reanalysis_stats] *)
Record stats := mkStats {
  files_processed : nat;
  files_renamed : nat;
  files_moved : nat;
  ai_improvements : nat
}.

Definition zero_stats : stats := mkStats 0 0 0 0.

(** Everything a pass reads and mutates. *)
Record world := mkWorld {
  w_root : rootdir;                  (* entries of the scanned folder *)
  w_actions : list log_entry;        (* [actions_log.jsonl], oldest first *)
  w_log_writable : bool;             (* opening the action log for append succeeds *)
  w_events : list event;             (* logger output, oldest first *)
  w_ai_client : option collaborator; (* [self.ai_client] *)
  w_ai_calls : nat;                  (* requests sent to the service so far *)
  w_stats : stats                    (* [reanalysis_stats] of the running pass *)
}.

Definition set_root (r : rootdir) (w : world) : world :=
  mkWorld r (w_actions w) (w_log_writable w) (w_events w)
          (w_ai_client w) (w_ai_calls w) (w_stats w).

Definition set_actions (a : list log_entry) (w : world) : world :=
  mkWorld (w_root w) a (w_log_writable w) (w_events w)
          (w_ai_client w) (w_ai_calls w) (w_stats w).

Definition add_event (e : event) (w : world) : world :=
  mkWorld (w_root w) (w_actions w) (w_log_writable w) (w_events w ++ [e])
          (w_ai_client w) (w_ai_calls w) (w_stats w).

Definition set_ai_client (c : option collaborator) (w : world) : world :=
  mkWorld (w_root w) (w_actions w) (w_log_writable w) (w_events w)
          c (w_ai_calls w) (w_stats w).

Definition count_ai_call (w : world) : world :=
  mkWorld (w_root w) (w_actions w) (w_log_writable w) (w_events w)
          (w_ai_client w) (S (w_ai_calls w)) (w_stats w).

Definition set_stats (s : stats) (w : world) : world :=
  mkWorld (w_root w) (w_actions w) (w_log_writable w) (w_events w)
          (w_ai_client w) (w_ai_calls w) s.

(* ================================================================= *)
(** ** Exceptions and the state monad *)

Inductive exn :=
| FileNotFoundError
| FileExistsError
| PermissionError
| OSError
| LoopBound.

Inductive result (A : Type) :=
| Ok (a : A)
| Raised (e : exn).
Arguments Ok {A} a.
Arguments Raised {A} e.

(** A computation may mutate the world and then return or raise; the
    mutation done before a raise stays. *)
Definition M (A : Type) : Type := world -> world * result A.

Definition ret {A} (a : A) : M A := fun w => (w, Ok a).

Definition bind {A B} (m : M A) (k : A -> M B) : M B :=
  fun w => match m w with
           | (w', Ok a) => k a w'
           | (w', Raised e) => (w', Raised e)
           end.

Definition raise {A} (e : exn) : M A := fun w => (w, Raised e).

(** [try: m  except Exception as e: h(e)] *)
Definition try_except {A} (m : M A) (h : exn -> M A) : M A :=
  fun w => match m w with
           | (w', Ok a) => (w', Ok a)
           | (w', Raised e) => h e w'
           end.

Definition get : M world := fun w => (w, Ok w).
Definition modify (f : world -> world) : M unit := fun w => (f w, Ok tt).
Definition log (e : event) : M unit := modify (add_event e).

Declare Scope monad_scope.
Delimit Scope monad_scope with monad.
Notation "x <- m ;; k" := (bind m (fun x => k))
  (at level 61, m at next level, right associativity) : monad_scope.
Notation "m ;; k" := (bind m (fun _ => k))
  (at level 61, right associativity) : monad_scope.
Local Open Scope monad_scope.

(** [for x in l: body(x)] *)
Fixpoint for_each {A} (l : list A) (body : A -> M unit) : M unit :=
  match l with
  | [] => ret tt
  | x :: r => body x ;; for_each r body
  end.

(** The final world and the outcome of a computation. *)
Definition exec {A} (m : M A) (w : world) : world := fst (m w).
Definition outcome {A} (m : M A) (w : world) : result A := snd (m w).

(* ================================================================= *)
(** ** Reading the scanned folder *)

Fixpoint assoc {A} (k : string) (l : list (string * A)) : option A :=
  match l with
  | [] => None
  | (k', v) :: r => if String.eqb k k' then Some v else assoc k r
  end.

Definition remove_key {A} (k : string) (l : list (string * A)) : list (string * A) :=
  filter (fun kv => negb (String.eqb k (fst kv))) l.

Definition is_some {A} (o : option A) : bool :=
  match o with Some _ => true | None => false end.

Definition lookup_dir (r : rootdir) (d : string) : option dir :=
  match assoc d r with
  | Some (RDir es) => Some es
  | _ => None
  end.

(** [Path.exists()] of a path below the scanned folder. *)
Definition path_exists (r : rootdir) (p : path) : bool :=
  match p with
  | [n] => is_some (assoc n r)
  | [d; n] => match lookup_dir r d with
              | Some es => is_some (assoc n es)
              | None => false
              end
  | _ => false
  end.

(** The regular file at a path, if there is one ([Path.is_file()]). *)
Definition file_at (r : rootdir) (p : path) : option file :=
  match p with
  | [n] => match assoc n r with
           | Some (RFile f) => Some f
           | _ => None
           end
  | [d; n] => match lookup_dir r d with
              | Some es => match assoc n es with
                           | Some (File f) => Some f
                           | _ => None
                           end
              | None => None
              end
  | _ => None
  end.

(** [Path.name] *)
Definition path_name (p : path) : string := last p "".

Definition path_eqb (p q : path) : bool :=
  if list_eq_dec string_dec p q then true else false.

(** [[f for f in folder_path.iterdir()
      if f.is_file() and not f.name.startswith('Organized_')]] *)
Definition root_files (r : rootdir) : list string :=
  flat_map (fun kv => match snd kv with
                      | RFile _ => if Py.startswith organized_prefix (fst kv)
                                   then [] else [fst kv]
                      | RDir _ => []
                      end) r.

(** [[f for f in folder_path.iterdir()
      if f.is_dir() and f.name.startswith('Organized_')]] *)
Definition organized_folders (r : rootdir) : list string :=
  flat_map (fun kv => match snd kv with
                      | RDir _ => if Py.startswith organized_prefix (fst kv)
                                  then [fst kv] else []
                      | RFile _ => []
                      end) r.

(** [[f for f in org_folder.iterdir() if f.is_file()]] *)
Definition dir_files (es : dir) : list string :=
  flat_map (fun kv => match snd kv with
                      | File _ => [fst kv]
                      | SubDir => []
                      end) es.

(* ================================================================= *)
(** ** Changing the scanned folder *)

(** Apply [f] to the directory named [d]. *)
Definition update_dir (d : string) (f : dir -> dir) (r : rootdir) : rootdir :=
  map (fun kv => match snd kv with
                 | RDir es => if String.eqb d (fst kv) then (fst kv, RDir (f es)) else kv
                 | RFile _ => kv
                 end) r.

(** [folder.mkdir(exist_ok=True)] for a direct child of the scanned
    folder: nothing happens when the directory is there, a regular file
    of that name makes it raise.  The scanned folder is taken to be
    writable: the other errors of [mkdir] are not modelled. *)
Definition mkdir_exist_ok (name : string) : M unit :=
  w <- get ;;
  match assoc name (w_root w) with
  | Some (RDir _) => ret tt
  | Some (RFile _) => raise FileExistsError
  | None => modify (set_root (w_root w ++ [(name, RDir [])]))
  end.

(** Take the entry at [p] out of the folder. *)
Definition unlink (p : path) (r : rootdir) : rootdir :=
  match p with
  | [n] => remove_key n r
  | [d; n] => update_dir d (remove_key n) r
  | _ => r
  end.

(** Put [f] at [d/n], replacing a regular file that is there; an
    existing sub-directory of that name keeps its place (the file goes
    inside it, out of sight of the passes). *)
Definition place (d n : string) (f : file) (r : rootdir) : rootdir :=
  update_dir d (fun es => match assoc n es with
                          | Some SubDir => es
                          | _ => remove_key n es ++ [(n, File f)]
                          end) r.

(** [shutil.move(str(src), str(dst))] for a destination [d/n] in a
    category folder.  It raises when the source is gone or cannot be
    moved, and when the destination's parent is missing, which is also
    the case of a name that holds a path separator.  A move that fails
    is taken to fail as a whole: that [shutil.move], when it cannot
    rename, copies the file and may then fail to remove the source is
    not modelled, and the properties that say where the files are after
    a live pass are stated for files that can be moved. *)
Definition shutil_move (src : path) (d n : string) : M unit :=
  w <- get ;;
  match file_at (w_root w) src with
  | None => raise FileNotFoundError
  | Some f =>
      if negb (f_movable f) then raise PermissionError
      else if Py.contains "/" n then raise FileNotFoundError
      else if negb (is_some (lookup_dir (w_root w) d)) then raise FileNotFoundError
      else modify (set_root (place d n f (unlink src (w_root w))))
  end.

(** [save_action_log]: append one line to [actions_log.jsonl]. *)
Definition save_action_log (a : log_entry) : M unit :=
  w <- get ;;
  if w_log_writable w
  then modify (set_actions (w_actions w ++ [a]))
  else raise PermissionError.

(* ================================================================= *)
(** ** The organizer's methods *)

(** [is_system_file] *)
Definition is_system_file (r : rootdir) (p : path) : bool :=
  Py.mem (path_name p) system_files
  || Py.startswith "." (path_name p)
  || match file_at r p with
     | Some f => f_symlink f
     | None => false
     end.

(** [mime_type or "Unknown"] *)
Definition or_unknown (mime : option string) : string :=
  match mime with
  | Some m => if Py.truthy m then m else "Unknown"
  | None => "Unknown"
  end.

(** The loop over [self.file_categories.items()]: the first category
    whose list holds [ext]. *)
Fixpoint first_category (table : list (string * list string)) (ext : string)
  : option string :=
  match table with
  | [] => None
  | (category, extensions) :: rest =>
      if Py.mem ext extensions then Some category
      else first_category rest ext
  end.

(** [get_file_type], from what [is_file()], [suffix] and the MIME
    detection answer. *)
Definition file_type (is_file : bool) (suffix : string) (mime : option string)
  : string * string :=
  if negb is_file then ("Unknown", "Other")
  else
    let ext := Py.lower suffix in
    match first_category file_categories ext with
    | Some category => (or_unknown mime, category)
    | None => (or_unknown mime, "Other")
    end.

Definition get_file_type (p : path) : M (string * string) :=
  w <- get ;;
  match file_at (w_root w) p with
  | Some f => ret (file_type true (PurePath.suffix (path_name p)) (f_mime f))
  | None => ret (file_type false (PurePath.suffix (path_name p)) None)
  end.

(** The keys of the metadata dictionary that the organizer reads. *)
Record metadata := mkMeta {
  md_original_name : string;
  md_extension : string;
  md_photo_date : option string
}.

(** The dictionary built by [extract_metadata] once [stat()] has
    answered: the EXIF date is looked for in JPEG and TIFF files only. *)
Definition metadata_of (name : string) (f : file) : metadata :=
  let ext := Py.lower (PurePath.suffix name) in
  mkMeta name ext
         (if Py.mem ext [".jpg"; ".jpeg"; ".tiff"] then f_exif_date f else None).

(** [extract_metadata]: [stat()] may raise. *)
Definition extract_metadata (p : path) : M metadata :=
  w <- get ;;
  match file_at (w_root w) p with
  | None => raise FileNotFoundError
  | Some f =>
      if negb (f_stat_ok f) then raise PermissionError
      else ret (metadata_of (path_name p) f)
  end.

(** What [read_file_content] returns for a file of that name: the first
    1000 characters of a text-like file or of a PDF's text, and the
    empty string on any failure. *)
Definition content_of (name : string) (f : option file) : string :=
  let ext := Py.lower (PurePath.suffix name) in
  let text := match f with
              | Some f => match f_text f with
                          | Some t => Py.take 1000 t
                          | None => ""
                          end
              | None => ""
              end in
  if Py.mem ext [".txt"; ".md"; ".py"; ".js"; ".html"; ".css"; ".json"; ".xml"; ".csv"]
  then text
  else if String.eqb ext ".pdf" then text
  else "".

(** [read_file_content] *)
Definition read_file_content (p : path) : M string :=
  w <- get ;;
  ret (content_of (path_name p) (file_at (w_root w) p)).

(** How the [except] branch of [analyze_content_with_ai] reads the
    lowered message of the exception. *)
Inductive ai_error := InvalidKey | Quota | Model | OtherError.

Definition classify_ai_error (msg : string) : ai_error :=
  let error_msg := Py.lower msg in
  if Py.contains "invalid_api_key" error_msg || Py.contains "401" error_msg
  then InvalidKey
  else if Py.contains "insufficient_quota" error_msg || Py.contains "429" error_msg
  then Quota
  else if Py.contains "model" error_msg then Model
  else OtherError.

(** [analyze_content_with_ai] *)
Definition analyze_content_with_ai (p : path) (content_preview : string) : M string :=
  w <- get ;;
  match w_ai_client w with
  | None => ret ""
  | Some client =>
      modify count_ai_call ;;
      match client (w_ai_calls w) (PurePath.stem (path_name p))
                   (PurePath.suffix (path_name p)) (Py.take 500 content_preview) with
      | AiReply content => ret (Py.re_sub_unsafe (Py.strip content))
      | AiRaise msg =>
          match classify_ai_error msg with
          | InvalidKey =>
              log (LogAiInvalidKey (path_name p)) ;;
              modify (set_ai_client None)
          | Quota => log (LogAiQuota (path_name p))
          | Model => log (LogAiModel (path_name p))
          | OtherError => log (LogAiFailed (path_name p))
          end ;;
          ret ""
      end
  end.

(** [generate_smart_filename] below its AI attempt: the photo date, the
    words of a document, and the cleaned original name. *)
Definition name_without_ai (name : string) (md : metadata) (content : string) : string :=
  let base_name := PurePath.stem name in
  let ext := Py.lower (PurePath.suffix name) in
  match md_photo_date md with
  | Some d => "photo_" ++ Py.replace_char " " "_" (Py.remove_char ":" d)
  | None =>
      let words := Py.findall_words (Py.take 200 content) in
      if Py.truthy content
         && Py.mem ext [".txt"; ".md"; ".pdf"; ".doc"; ".docx"]
         && Nat.leb 2 (List.length words)
      then Py.lower (Py.join "_" (firstn 3 words))
      else if Py.mem ext [".py"; ".js"; ".html"; ".css"; ".java"; ".cpp"]
      then Py.re_sub_unsafe base_name
      else Py.re_sub_unsafe base_name
  end.

(** [generate_smart_filename] *)
Definition generate_smart_filename (p : path) (md : metadata) (content : string)
  : M string :=
  w <- get ;;
  if Py.truthy content && is_some (w_ai_client w)
  then
    ai_suggestion <- analyze_content_with_ai p content ;;
    if Py.truthy ai_suggestion && Nat.ltb 3 (String.length ai_suggestion)
    then ret ai_suggestion
    else ret (name_without_ai (path_name p) md content)
  else ret (name_without_ai (path_name p) md content).

(** The conflict loops of both passes:
    [counter = 1; while busy(dest_path): new_filename = f"{new_name}_{counter}{suffix}"; counter += 1].
    A [while] loop has no bound of its own; [fuel] bounds the number of
    tests and [None] means that it ran out. *)
Fixpoint conflict_loop (fuel : nat) (busy : string -> bool)
         (new_name suffix new_filename : string) (counter : nat) : option string :=
  match fuel with
  | O => None
  | S fuel' =>
      if busy new_filename
      then conflict_loop fuel' busy new_name suffix
             (new_name ++ "_" ++ Py.str_of_nat counter ++ suffix) (S counter)
      else Some new_filename
  end.

(** Tests that always suffice in a directory: one more than its entries. *)
Definition loop_bound (r : rootdir) (d : string) : nat :=
  match lookup_dir r d with
  | Some es => S (List.length es)
  | None => 1
  end.

(** The test of the organize pass: [dest_path.exists()]. *)
Definition busy_organize (r : rootdir) (dest_folder : string) (n : string) : bool :=
  path_exists r [dest_folder; n].

(** The test of the reconcile pass:
    [new_dest_path.exists() and new_dest_path != file_path]. *)
Definition busy_reanalyze (r : rootdir) (dest_folder : string) (file_path : path)
           (n : string) : bool :=
  path_exists r [dest_folder; n] && negb (path_eqb [dest_folder; n] file_path).

(** [create_organized_folders] *)
Definition create_organized_folders : M unit :=
  for_each (map fst file_categories)
    (fun category =>
       mkdir_exist_ok (organized_name category) ;;
       log (LogCreatedVerified (organized_name category))) ;;
  mkdir_exist_ok (organized_name "Other").

(* ================================================================= *)
(** ** The organize pass *)

(** The body of the [try] of [organize_files_in_folder] for one file of
    the scanned folder. *)
Definition organize_file (file_name : string) : M unit :=
  let file_path := [file_name] in
  w <- get ;;
  if is_system_file (w_root w) file_path
  then log (LogSkipping file_name)
  else
    tc <- get_file_type file_path ;;
    let mime_type := fst tc in
    let category := snd tc in
    log (LogProcessing file_name mime_type category) ;;
    md <- extract_metadata file_path ;;
    content <- read_file_content file_path ;;
    new_name <- generate_smart_filename file_path md content ;;
    let suffix := PurePath.suffix file_name in
    let dest_folder := organized_name category in
    w1 <- get ;;
    match conflict_loop (loop_bound (w_root w1) dest_folder)
            (busy_organize (w_root w1) dest_folder)
            new_name suffix (new_name ++ suffix) 1 with
    | None => raise LoopBound
    | Some new_filename =>
        shutil_move file_path dest_folder new_filename ;;
        log (LogMoved file_name [dest_folder; new_filename]) ;;
        save_action_log
          (mkLog false file_path [dest_folder; new_filename] file_name
                 new_filename category category [] mime_type)
    end.

(** The [for file_path in files] loop with its [try]/[except]. *)
Definition organize_loop (files : list string) : M unit :=
  for_each files
    (fun file_name =>
       try_except (organize_file file_name)
                  (fun _ => log (LogError file_name))).

(** [organize_files_in_folder]; [folder_exists] is [folder_path.exists()]. *)
Definition organize_files_in_folder (folder_exists : bool) : M unit :=
  if negb folder_exists then log (LogWarning "Folder does not exist")
  else
    create_organized_folders ;;
    w <- get ;;
    organize_loop (root_files (w_root w)).

(* ================================================================= *)
(** ** The reconcile pass *)

Definition count_processed (s : stats) : stats :=
  mkStats (S (files_processed s)) (files_renamed s) (files_moved s) (ai_improvements s).
Definition count_renamed (s : stats) : stats :=
  mkStats (files_processed s) (S (files_renamed s)) (files_moved s) (ai_improvements s).
Definition count_moved (s : stats) : stats :=
  mkStats (files_processed s) (files_renamed s) (S (files_moved s)) (ai_improvements s).
Definition count_ai_improvement (s : stats) : stats :=
  mkStats (files_processed s) (files_renamed s) (files_moved s) (S (ai_improvements s)).

(** [reanalysis_stats[key] += 1] *)
Definition bump (f : stats -> stats) : M unit :=
  modify (fun w => set_stats (f (w_stats w)) w).

(** [if c: m] *)
Definition when (c : bool) (m : M unit) : M unit := if c then m else ret tt.

(** The body of the [try] of [reanalyze_organized_files] for one file
    of the category folder [org_folder]. *)
Definition reanalyze_file (dry_run : bool) (org_folder current_category : string)
           (file_name : string) : M unit :=
  let file_path := [org_folder; file_name] in
  bump count_processed ;;
  w <- get ;;
  if is_system_file (w_root w) file_path then ret tt
  else
    log (LogReanalyzing file_name) ;;
    tc <- get_file_type file_path ;;
    let mime_type := fst tc in
    let new_category := snd tc in
    md <- extract_metadata file_path ;;
    content <- read_file_content file_path ;;
    new_name <- generate_smart_filename file_path md content ;;
    let suffix := PurePath.suffix file_name in
    let needs_category_move := negb (String.eqb new_category current_category) in
    let needs_rename := negb (String.eqb (new_name ++ suffix) file_name) in
    if needs_category_move || needs_rename
    then
      when needs_category_move (mkdir_exist_ok (organized_name new_category)) ;;
      let new_dest_folder :=
        if needs_category_move then organized_name new_category else org_folder in
      w1 <- get ;;
      match conflict_loop (loop_bound (w_root w1) new_dest_folder)
              (busy_reanalyze (w_root w1) new_dest_folder file_path)
              new_name suffix (new_name ++ suffix) 1 with
      | None => raise LoopBound
      | Some new_filename =>
          let new_dest_path := [new_dest_folder; new_filename] in
          let change_type :=
            (if needs_category_move
             then [ChCategory current_category new_category] else [])
            ++ (if needs_rename then [ChName file_name new_filename] else []) in
          when needs_category_move (bump count_moved) ;;
          when needs_rename (bump count_renamed) ;;
          (if dry_run then log (LogDryRun file_name change_type)
           else
             when (negb (path_eqb new_dest_path file_path))
               (shutil_move file_path new_dest_folder new_filename ;;
                log (LogUpdated change_type) ;;
                save_action_log
                  (mkLog true file_path new_dest_path file_name new_filename
                         current_category new_category change_type mime_type))) ;;
          when (needs_rename
                && Nat.ltb (String.length (PurePath.stem file_name) + 5)
                           (String.length new_name))
               (bump count_ai_improvement)
      end
    else when (negb dry_run) (log (LogNoChanges file_name)).

(** The [for file_path in files] loop with its [try]/[except]. *)
Definition reanalyze_loop (dry_run : bool) (org_folder current_category : string)
           (files : list string) : M unit :=
  for_each files
    (fun file_name =>
       try_except (reanalyze_file dry_run org_folder current_category file_name)
                  (fun _ => log (LogError file_name))).

(** One turn of the [for org_folder in organized_folders] loop.  A
    folder that is there is taken to be readable: [iterdir()] only
    fails here for a folder that is gone. *)
Definition reanalyze_folder (dry_run : bool) (org_folder : string) : M unit :=
  let current_category := Py.remove_all organized_prefix org_folder in
  w <- get ;;
  match lookup_dir (w_root w) org_folder with
  | None => raise FileNotFoundError
  | Some es => reanalyze_loop dry_run org_folder current_category (dir_files es)
  end.

(** [reanalyze_organized_files]; [None] is the bare [return]. *)
Definition reanalyze_organized_files (folder_exists dry_run : bool)
  : M (option stats) :=
  if negb folder_exists
  then log (LogWarning "Folder does not exist") ;; ret None
  else
    w <- get ;;
    match organized_folders (w_root w) with
    | [] => ret None
    | folders =>
        modify (set_stats zero_stats) ;;
        for_each folders (reanalyze_folder dry_run) ;;
        w' <- get ;;
        ret (Some (w_stats w'))
    end.

(* ================================================================= *)
(** ** Vocabulary of the properties *)

(** The pattern [^[A-Za-z0-9_-]+$]: not empty, and only ASCII letters,
    digits, hyphen and underscore. *)
Definition matches_safe (s : string) : bool :=
  Py.truthy s && Py.sforall Py.is_safe_char s.

(** What [re.sub(r'[^\w\-_]', '_', s)] lets through. *)
Definition is_kept_char (c : ascii) : bool :=
  Py.is_word c || N.eqb (Py.ord c) 45 || N.eqb (Py.ord c) 95.

(** The [k]-th name tried by a conflict loop. *)
Definition candidate (new_name suffix : string) (k : nat) : string :=
  match k with
  | O => new_name ++ suffix
  | S _ => new_name ++ "_" ++ Py.str_of_nat k ++ suffix
  end.

(** The names of the category folders: one per category, and [Other]. *)
Definition category_names : list string := map fst file_categories ++ ["Other"].
Definition category_folders : list string := map organized_name category_names.

(** The folders of [names] that the scanned folder [r] lacks, as new
    empty directories. *)
Definition missing_dirs (names : list string) (r : rootdir) : rootdir :=
  map (fun n => (n, RDir []))
      (filter (fun n => negb (is_some (assoc n r))) names).

(** Every regular file below the scanned folder, with its path, in
    iteration order. *)
Definition all_files (r : rootdir) : list (path * file) :=
  flat_map (fun kv =>
              match snd kv with
              | RFile f => [([fst kv], f)]
              | RDir es =>
                  flat_map (fun e => match snd e with
                                     | File f => [([fst kv; fst e], f)]
                                     | SubDir => []
                                     end) es
              end) r.

(** The files an organize loop began to handle, read off the logger:
    each turn logs either the skip or the start of the processing. *)
Definition visits (evs : list event) : list string :=
  flat_map (fun e => match e with
                     | LogSkipping n => [n]
                     | LogProcessing n _ _ => [n]
                     | _ => []
                     end) evs.

(** A file of the category folder [org_folder] for which the reconcile
    pass, without the collaborator, finds nothing to change: it is
    skipped, or its [stat()] raises, or it already has its category and
    its name. *)
Definition settled_file (r : rootdir) (org_folder file_name : string) : bool :=
  let file_path := [org_folder; file_name] in
  is_system_file r file_path
  || match file_at r file_path with
     | None => true
     | Some f =>
         negb (f_stat_ok f)
         || (String.eqb (snd (file_type true (PurePath.suffix file_name) (f_mime f)))
                        (Py.remove_all organized_prefix org_folder)
             && String.eqb (name_without_ai file_name (metadata_of file_name f)
                                            (content_of file_name (Some f))
                            ++ PurePath.suffix file_name)
                           file_name)
     end.

(** A scanned folder all of whose category folders hold settled files only. *)
Definition settled (r : rootdir) : Prop :=
  forall org_folder es file_name,
    In org_folder (organized_folders r) ->
    lookup_dir r org_folder = Some es ->
    In file_name (dir_files es) ->
    settled_file r org_folder file_name = true.

(** A computation keeps a property of the world, however it ends. *)
Definition preserves {A} (P : world -> Prop) (m : M A) : Prop :=
  forall w, P w -> P (exec m w).

(** The collaborator is switched off and has received [n] requests. *)
Definition ai_off (n : nat) (w : world) : Prop :=
  w_ai_client w = None /\ w_ai_calls w = n.


(** The reconcile pass has found nothing to do so far: the scanned
    folder is [r], the action log is [A], the collaborator is off and no
    rename, move or improvement has been counted. *)
Definition quiet (r : rootdir) (A : list log_entry) (w : world) : Prop :=
  w_root w = r /\ w_actions w = A /\ w_ai_client w = None
  /\ files_renamed (w_stats w) = 0 /\ files_moved (w_stats w) = 0
  /\ ai_improvements (w_stats w) = 0.

(** Sample files and worlds for the examples. *)
Definition text_file (t : string) : file :=
  mkFile false true (Some "text/plain") None (Some t) true.

Definition locked_file (t : string) : file :=
  mkFile false true (Some "text/plain") None (Some t) false.

Definition photo_file (date : string) : file :=
  mkFile false true (Some "image/jpeg") (Some date) None true.

Definition fresh_world (r : rootdir) : world :=
  mkWorld r [] true [] None 0 zero_stats.

(* ================================================================= *)
(** ** The API key format checks *)

(** [api_key.strip().replace('\n', '').replace('\r', '').replace('\t', '')] *)
Definition clean_api_key (api_key : string) : string :=
  Py.remove_char "009"
    (Py.remove_char "013" (Py.remove_char "010" (Py.strip api_key))).

(** The length window of a cleaned key, by its type: a project key
    starts with [sk-proj-], any other key is a legacy key. *)
Definition key_length_window (cleaned_key : string) : nat * nat :=
  if Py.startswith "sk-proj-" cleaned_key then (150, 200) else (45, 60).

(** [validate_and_clean_api_key]; the lines it sends to the logger are
    left out, and [None] stands for a key that is refused. *)
Definition validate_and_clean_api_key (api_key : string) : option string :=
  if negb (Py.truthy api_key) then None
  else
    let cleaned_key := clean_api_key api_key in
    if negb (existsb (fun prefix => Py.startswith prefix cleaned_key)
                     ["sk-"; "sk-proj-"])
    then None
    else
      let min_length := fst (key_length_window cleaned_key) in
      let max_length := snd (key_length_window cleaned_key) in
      if Nat.ltb (String.length cleaned_key) min_length
         || Nat.ltb max_length (String.length cleaned_key)
      then None
      else if Py.contains " " cleaned_key
              || Py.contains (String "009" EmptyString) cleaned_key
      then None
      else Some cleaned_key.

(** The message of [validate_openai_key] of [api_key_test.py], by kind. *)
Inductive key_verdict :=
| NoKeyProvided
| WrongPrefix
| UnusualLength (project : bool) (len : nat)
| ContainsSpaces
| ValidFormat (project : bool) (len : nat).

(** [validate_openai_key] of [api_key_test.py] *)
Definition validate_openai_key (api_key : string) : bool * key_verdict :=
  if negb (Py.truthy api_key) then (false, NoKeyProvided)
  else
    let cleaned_key := clean_api_key api_key in
    let check (project : bool) (min_len max_len : nat) :=
      if Nat.ltb (String.length cleaned_key) min_len
         || Nat.ltb max_len (String.length cleaned_key)
      then (false, UnusualLength project (String.length cleaned_key))
      else if Py.contains " " cleaned_key
              || Py.contains (String "009" EmptyString) cleaned_key
      then (false, ContainsSpaces)
      else (true, ValidFormat project (String.length cleaned_key)) in
    if Py.startswith "sk-proj-" cleaned_key then check true 150 200
    else if Py.startswith "sk-" cleaned_key then check false 45 60
    else (false, WrongPrefix).

(** The counters of a reconcile pass are in order: an improvement is
    only counted with a rename, and no counter exceeds the number of
    files processed. *)
Definition stats_ordered (s : stats) : Prop :=
  ai_improvements s <= files_renamed s
  /\ files_renamed s <= files_processed s
  /\ files_moved s <= files_processed s.

(** One turn more: the file is counted, and may be counted as renamed,
    as moved, and as improved. *)
Definition stats_after_turn (renamed moved improved : bool) (s : stats) : stats :=
  mkStats (S (files_processed s))
          (files_renamed s + if renamed then 1 else 0)
          (files_moved s + if moved then 1 else 0)
          (ai_improvements s + if improved then 1 else 0).

(** A line that the organize pass adds to the action log: a file of the
    scanned folder itself, put into the folder of its category. *)
Definition organize_line (a : log_entry) : Prop :=
  la_reanalysis a = false
  /\ la_original_path a = [la_original_name a]
  /\ la_new_path a = [organized_name (la_category a); la_new_name a]
  /\ In (la_category a) category_names.

(** A line that the reconcile pass adds to the action log: a file of a
    category folder, gone to another path, with the changes that sent
    it there. *)
Definition reanalysis_line (a : log_entry) : Prop :=
  la_reanalysis a = true
  /\ la_change_type a <> []
  /\ la_original_path a <> la_new_path a
  /\ (exists org_folder, la_original_path a = [org_folder; la_original_name a])
  /\ (exists dest_folder, la_new_path a = [dest_folder; la_new_name a]).

(** Every folder of [D] is a directory of the scanned folder. *)
Definition dirs_stay (D : list string) (w : world) : Prop :=
  forall d, In d D -> is_some (lookup_dir (w_root w) d) = true.

(** The regular files of a category folder, without their names. *)
Definition dir_contents (es : dir) : list file :=
  flat_map (fun e => match snd e with
                     | File f => [f]
                     | SubDir => []
                     end) es.

(** The regular files below the scanned folder, without their paths. *)
Definition contents (r : rootdir) : list file :=
  flat_map (fun kv => match snd kv with
                      | RFile f => [f]
                      | RDir es => dir_contents es
                      end) r.

(** A folder as a file system holds it: no two entries of the scanned
    folder share a name, and no two entries of one of its directories. *)
Definition well_formed (r : rootdir) : Prop :=
  NoDup (map fst r)
  /\ forall d es, In (d, RDir es) r -> NoDup (map fst es).

(** The scanned folder is well formed and holds the files [C], in some
    order. *)
Definition conserved (C : list file) (w : world) : Prop :=
  well_formed (w_root w) /\ Permutation (contents (w_root w)) C.

(** A computation sends at most [k] requests to the collaborator. *)
Definition calls_within {A} (k : nat) (m : M A) : Prop :=
  forall w, w_ai_calls (exec m w) <= w_ai_calls w + k.

(** A computation sends at most as many requests to the collaborator as
    it adds to [files_processed]. *)
Definition balanced {A} (m : M A) : Prop :=
  forall w,
    w_ai_calls (exec m w) + files_processed (w_stats w)
    <= w_ai_calls w + files_processed (w_stats (exec m w)).

(* ----------------------------------------------------------------- *)
(** ** The constructor and the command line *)

(** Truthiness of an optional [str]. *)
Definition truthy_key (k : option string) : bool :=
  match k with
  | Some s => Py.truthy s
  | None => false
  end.

(** The body of the two [if cleaned_key: try: ... except: ...] blocks of
    [__init__]: the client stays when the key is accepted and building
    the client and the request of [test_openai_connection], which raises
    again what the request raised, go through; [connects] says whether
    they do.  The result is the key of the client that stays. *)
Definition client_from (connects : string -> bool) (key : string) : option string :=
  match validate_and_clean_api_key key with
  | Some cleaned_key => if connects cleaned_key then Some cleaned_key else None
  | None => None
  end.

(** [self.ai_client] after [__init__]: [has_openai] is [HAS_OPENAI] and
    [env_key] is [os.getenv('OPENAI_API_KEY')]. *)
Definition init_ai_client (has_openai : bool) (connects : string -> bool)
           (openai_api_key env_key : option string) : option string :=
  if has_openai && truthy_key openai_api_key
  then match openai_api_key with
       | Some key => client_from connects key
       | None => None
       end
  else if has_openai
  then if truthy_key env_key
       then match env_key with
            | Some key => client_from connects key
            | None => None
            end
       else None
  else None.

(** The keys of [self.target_folders], in their order. *)
Definition target_names : list string := ["Desktop"; "Downloads"; "Documents"].

(** What [parser.parse_args()] returns. *)
Record args := mkArgs {
  a_reanalyze : bool;
  a_dry_run : bool;
  a_api_key : option string;
  a_no_ai : bool;
  a_test_api_key : bool;
  a_folders : option (list string)
}.

(** How [main] ends: what it has built and which run it has started,
    with the key of the organizer's client and the folders left in
    [target_folders]. *)
Inductive action :=
| NoKeyToTest
| TestedKey (client : option string)
| DryRunRefused
| Cancelled
| RunOrganize (client : option string) (folders : list string)
| RunReanalysis (dry_run : bool) (client : option string) (folders : list string).

(** [input(...).strip().lower() != 'yes'] *)
Definition declined (confirm_answer : string) : bool :=
  negb (String.eqb (Py.lower (Py.strip confirm_answer)) "yes").

(** [main]; [key_answer] and [confirm_answer] are what is typed at the
    prompt for a key and at the prompt for a confirmation, if [main]
    gets there.  What it prints is left out. *)
Definition main (has_openai : bool) (connects : string -> bool) (a : args)
           (env_key : option string) (key_answer confirm_answer : string) : action :=
  if a_test_api_key a
  then
    let test_key :=
      if truthy_key (a_api_key a) then a_api_key a
      else if truthy_key env_key then env_key
      else Some (Py.strip key_answer) in
    if negb (truthy_key test_key) then NoKeyToTest
    else TestedKey (init_ai_client has_openai connects test_key env_key)
  else
    let openai_key :=
      if negb (truthy_key (a_api_key a)) && negb (a_no_ai a)
      then if truthy_key env_key then env_key else Some (Py.strip key_answer)
      else if a_no_ai a then None
      else a_api_key a in
    if a_dry_run a && negb (a_reanalyze a) then DryRunRefused
    else
      let client := init_ai_client has_openai connects openai_key env_key in
      let folders :=
        match a_folders a with
        | Some (_ :: _ as names) => filter (fun name => Py.mem name names) target_names
        | _ => target_names
        end in
      if a_reanalyze a
      then
        if negb (a_dry_run a) && declined confirm_answer then Cancelled
        else RunReanalysis (a_dry_run a) client folders
      else
        if declined confirm_answer then Cancelled
        else RunOrganize client folders.

(** The runs that can move or rename files. *)
Definition changes_files (act : action) : bool :=
  match act with
  | RunOrganize _ _ => true
  | RunReanalysis dry_run _ _ => negb dry_run
  | _ => false
  end.

(** The client and the folders of a run that [main] has started. *)
Definition started (act : action) : option (option string * list string) :=
  match act with
  | RunOrganize client folders => Some (client, folders)
  | RunReanalysis _ client folders => Some (client, folders)
  | _ => None
  end.

(* ----------------------------------------------------------------- *)
(** ** The runs over the target folders *)

(** [self.target_folders] with what is on the disk: the name of each
    folder and, when the folder exists, its entries. *)
Definition targets := list (string * option rootdir).

Definition folder_root (t : option rootdir) : rootdir :=
  match t with
  | Some r => r
  | None => []
  end.

(** A pass on one target folder: for the time of the pass the folder is
    the scanned folder of the world.  The result is the folder after
    the pass, the world and the outcome. *)
Definition in_folder {A} (t : option rootdir) (pass : bool -> M A) (w : world)
  : option rootdir * world * result A :=
  let wr := pass (is_some t) (set_root (folder_root t) w) in
  (match t with
   | Some _ => Some (w_root (fst wr))
   | None => None
   end, fst wr, snd wr).

(** [run]: the organize pass on each target folder, each in its own
    [try]. *)
Fixpoint run (ts : targets) (w : world) : targets * world :=
  match ts with
  | [] => ([], w)
  | (folder_name, t) :: rest =>
      let '(t', w1, res) := in_folder t organize_files_in_folder w in
      let w2 := match res with
                | Ok _ => w1
                | Raised _ => add_event (LogError folder_name) w1
                end in
      let '(rest', w3) := run rest w2 in
      ((folder_name, t') :: rest', w3)
  end.

(** [total_stats[key] += folder_stats[key]] for the four keys. *)
Definition add_stats (total_stats folder_stats : stats) : stats :=
  mkStats (files_processed total_stats + files_processed folder_stats)
          (files_renamed total_stats + files_renamed folder_stats)
          (files_moved total_stats + files_moved folder_stats)
          (ai_improvements total_stats + ai_improvements folder_stats).

(** The loop of [run_reanalysis]: the reconcile pass on each target
    folder, each in its own [try]; a dictionary of statistics is truthy. *)
Fixpoint run_reanalysis_loop (dry_run : bool) (ts : targets) (total_stats : stats)
         (w : world) : targets * stats * world :=
  match ts with
  | [] => ([], total_stats, w)
  | (folder_name, t) :: rest =>
      let '(t', w1, res) :=
        in_folder t (fun folder_exists =>
                       reanalyze_organized_files folder_exists dry_run) w in
      let total_stats' := match res with
                          | Ok (Some folder_stats) => add_stats total_stats folder_stats
                          | _ => total_stats
                          end in
      let w2 := match res with
                | Ok _ => w1
                | Raised _ => add_event (LogError folder_name) w1
                end in
      let '(rest', total, w3) := run_reanalysis_loop dry_run rest total_stats' w2 in
      ((folder_name, t') :: rest', total, w3)
  end.

(** [run_reanalysis] *)
Definition run_reanalysis (dry_run : bool) (ts : targets) (w : world)
  : targets * stats * world :=
  let w0 := if is_some (w_ai_client w) then w
            else add_event (LogWarning "AI client not available") w in
  run_reanalysis_loop dry_run ts zero_stats w0.

(** A target folder is missing, or it is well formed and [shutil.move]
    can move all its files. *)
Definition target_ok (t : option rootdir) : Prop :=
  match t with
  | Some r => well_formed r
              /\ forall f, In f (contents r) -> f_movable f = true
  | None => True
  end.

(** A target folder after a run holds the files it held before. *)
Definition same_files (t t' : option rootdir) : Prop :=
  match t, t' with
  | Some r, Some r' => well_formed r' /\ Permutation (contents r') (contents r)
  | None, None => True
  | _, _ => False
  end.

(** A target folder after a run has every file where it was. *)
Definition untouched (t t' : option rootdir) : Prop :=
  option_map all_files t' = option_map all_files t.

(** Whether the reconcile pass, without the collaborator, finds nothing
    to change for the file [f] that is named [file_name] in the
    category folder [org_folder]: [settled_file] for a file that is
    there. *)
Definition settled_at (org_folder file_name : string) (f : file) : bool :=
  Py.mem file_name system_files
  || Py.startswith "." file_name
  || f_symlink f
  || negb (f_stat_ok f)
  || (String.eqb (snd (file_type true (PurePath.suffix file_name) (f_mime f)))
                 (Py.remove_all organized_prefix org_folder)
      && String.eqb (name_without_ai file_name (metadata_of file_name f)
                                     (content_of file_name (Some f))
                     ++ PurePath.suffix file_name)
                    file_name).

(** Where the reconcile pass, without the collaborator, wants that
    file: [new_dest_folder / (new_name + suffix)], before the conflict
    loop. *)
Definition destination (org_folder file_name : string) (f : file) : path :=
  let new_category :=
    snd (file_type true (PurePath.suffix file_name) (f_mime f)) in
  let new_name :=
    name_without_ai file_name (metadata_of file_name f)
                    (content_of file_name (Some f)) in
  [ if negb (String.eqb new_category (Py.remove_all organized_prefix org_folder))
    then organized_name new_category else org_folder;
    (new_name ++ PurePath.suffix file_name)%string ].

(** No two files compete for a name: the place where the pass wants a
    file that is not settled is free, and no two such files are wanted
    at the same place. *)
Definition uncontested (r : rootdir) : Prop :=
  (forall d x f,
      Py.startswith organized_prefix d = true ->
      file_at r [d; x] = Some f ->
      settled_at d x f = false ->
      path_exists r (destination d x f) = false)
  /\ (forall d x f d' x' f',
         Py.startswith organized_prefix d = true ->
         Py.startswith organized_prefix d' = true ->
         file_at r [d; x] = Some f ->
         file_at r [d'; x'] = Some f' ->
         settled_at d x f = false ->
         settled_at d' x' f' = false ->
         destination d x f = destination d' x' f' ->
         d = d' /\ x = x').

(** Every file of a category folder is settled, but for those that are
    [pending]. *)
Definition settled_but (pending : string -> string -> Prop) (r : rootdir) : Prop :=
  forall d x f,
    Py.startswith organized_prefix d = true ->
    file_at r [d; x] = Some f ->
    settled_at d x f = true \/ pending d x.

(** The logger holds no error. *)
Definition no_error (w : world) : Prop :=
  forall name, ~ In (LogError name) (w_events w).

(** The entry at [d/x] below the scanned folder, if there is one. *)
Definition entry_at (r : rootdir) (d x : string) : option entry :=
  match lookup_dir r d with
  | Some es => assoc x es
  | None => None
  end.

(** The logger holds [E0] and what was logged since. *)
Definition events_from (E0 : list event) (w : world) : Prop :=
  exists added, w_events w = E0 ++ added.

(* ================================================================= *)
(** * Properties *)

(* ----------------------------------------------------------------- *)
(** ** Strings *)

Lemma append_length (a b : string) :
  String.length (a ++ b)%string = String.length a + String.length b.
Proof. induction a as [|c a IH]; simpl; [reflexivity | now rewrite IH]. Qed.

Lemma append_cancel_l (s a b : string) : (s ++ a = s ++ b)%string -> a = b.
Proof.
  induction s as [|c s IH]; simpl; intros H; [exact H|].
  injection H as H. now apply IH.
Qed.

Lemma append_cancel_r (s a b : string) : (a ++ s = b ++ s)%string -> a = b.
Proof.
  revert b. induction a as [|c a IH]; intros [|c' b] H; simpl in H.
  - reflexivity.
  - apply (f_equal String.length) in H. simpl in H.
    rewrite append_length in H. lia.
  - apply (f_equal String.length) in H. simpl in H.
    rewrite append_length in H. lia.
  - injection H as Hc H. subst c'. f_equal. now apply IH.
Qed.

Lemma str_of_nat_inj (a b : nat) : Py.str_of_nat a = Py.str_of_nat b -> a = b.
Proof.
  unfold Py.str_of_nat. intros H.
  apply DecimalNat.Unsigned.to_uint_inj.
  apply (f_equal NilEmpty.uint_of_string) in H.
  rewrite !NilEmpty.usu in H. now injection H.
Qed.

Lemma mem_In (x : string) (l : list string) : Py.mem x l = true <-> In x l.
Proof.
  unfold Py.mem. rewrite existsb_exists. split.
  - intros [y [Hy He]]. apply String.eqb_eq in He. now subst.
  - intros H. exists x. split; [exact H | apply String.eqb_refl].
Qed.

Lemma mem_not_In (x : string) (l : list string) : Py.mem x l = false <-> ~ In x l.
Proof.
  rewrite <- mem_In. destruct (Py.mem x l); split; congruence.
Qed.

(* ----------------------------------------------------------------- *)
(** ** The classifier *)

Lemma first_category_none (table : list (string * list string)) (ext : string) :
  (forall category extensions,
      In (category, extensions) table -> ~ In ext extensions) ->
  first_category table ext = None.
Proof.
  induction table as [|[c exts] rest IH]; intros H; simpl; [reflexivity|].
  assert (Hm : Py.mem ext exts = false).
  { apply mem_not_In. apply (H c exts). now left. }
  rewrite Hm. apply IH. intros c' e' Hin. apply (H c' e'). now right.
Qed.

(** No extension is listed under two categories, so the first category
    that lists an extension is the only one. *)
Lemma first_category_listed (category : string) (extensions : list string)
      (ext : string) :
  In (category, extensions) file_categories -> In ext extensions ->
  first_category file_categories ext = Some category.
Proof.
  unfold file_categories. intros Hc He.
  repeat (destruct Hc as [Hc|Hc];
          [ injection Hc as <- <-;
            repeat (destruct He as [<-|He]; [reflexivity|]); destruct He | ]).
  destruct Hc.
Qed.

Lemma or_unknown_present (m : string) : m <> "" -> or_unknown (Some m) = m.
Proof. destruct m; simpl; congruence. Qed.

(** C5. For a regular file whose lowered suffix is listed in the
    category table, [get_file_type] answers the category that lists it;
    for a suffix listed nowhere it answers [Other]; the label is the MIME
    hint when there is a non-empty one and ["Unknown"] otherwise; and the
    method always returns a pair, leaving the world as it was. *)
Theorem get_file_type_table (suffix : string) (mime : option string) :
  (forall category extensions,
      In (category, extensions) file_categories ->
      In (Py.lower suffix) extensions ->
      file_type true suffix mime = (or_unknown mime, category))
  /\ ((forall category extensions,
          In (category, extensions) file_categories ->
          ~ In (Py.lower suffix) extensions) ->
      file_type true suffix mime = (or_unknown mime, "Other"))
  /\ or_unknown None = "Unknown"
  /\ (forall m, m <> "" -> or_unknown (Some m) = m)
  /\ (forall p w, exists label category,
         get_file_type p w = (w, Ok (label, category))).
Proof.
  repeat split.
  - intros c exts Hc He. unfold file_type. simpl negb. cbv iota.
    now rewrite (first_category_listed c exts _ Hc He).
  - intros H. unfold file_type. simpl negb. cbv iota.
    now rewrite (first_category_none _ _ H).
  - apply or_unknown_present.
  - intros p w. unfold get_file_type, bind, get, ret.
    destruct (file_at (w_root w) p) as [f|].
    + exists (fst (file_type true (PurePath.suffix (path_name p)) (f_mime f))),
             (snd (file_type true (PurePath.suffix (path_name p)) (f_mime f))).
      now rewrite <- surjective_pairing.
    + exists "Unknown", "Other". reflexivity.
Qed.

Lemma get_file_type_table_witness :
  file_type true ".PY" (Some "text/x-python") = ("text/x-python", "Code")
  /\ file_type true ".xyz" None = ("Unknown", "Other").
Proof.
  destruct (get_file_type_table ".PY" (Some "text/x-python")) as [H1 _].
  destruct (get_file_type_table ".xyz" None) as [_ [H2 _]].
  split.
  - apply (H1 "Code" [".py"; ".js"; ".html"; ".css"; ".java"; ".cpp"; ".c";
                       ".php"; ".rb"; ".go"; ".swift"]).
    + unfold file_categories. simpl. tauto.
    + simpl. tauto.
  - apply H2. intros c exts Hc He. apply mem_not_In in He; [exact He|].
    unfold file_categories in Hc. simpl in Hc.
    repeat (destruct Hc as [Hc|Hc]; [injection Hc as <- <-; reflexivity|]).
    destruct Hc.
Defined.

(* ----------------------------------------------------------------- *)
(** ** The conflict loops *)

Lemma candidate_inj (new_name suffix : string) (j k : nat) :
  candidate new_name suffix j = candidate new_name suffix k -> j = k.
Proof.
  destruct j as [|j], k as [|k]; unfold candidate; intros H.
  - reflexivity.
  - apply append_cancel_l in H.
    apply (f_equal String.length) in H. simpl in H.
    rewrite append_length in H. lia.
  - apply append_cancel_l in H.
    apply (f_equal String.length) in H. simpl in H.
    rewrite append_length in H. lia.
  - apply append_cancel_l in H. simpl in H. injection H as H.
    apply append_cancel_r in H. now apply str_of_nat_inj.
Qed.

(** A loop that runs out of fuel found every name it tried busy. *)
Lemma conflict_loop_none (busy : string -> bool) (new_name suffix : string) :
  forall fuel i,
    conflict_loop fuel busy new_name suffix (candidate new_name suffix i) (S i) = None ->
    forall j, i <= j < i + fuel -> busy (candidate new_name suffix j) = true.
Proof.
  induction fuel as [|fuel IH]; intros i H j Hj; [lia|].
  simpl in H.
  destruct (busy (candidate new_name suffix i)) eqn:Hb; [|discriminate].
  destruct (Nat.eq_dec j i) as [->|Hne]; [exact Hb|].
  apply (IH (S i)); [exact H | lia].
Qed.

(** A loop that stops returns the first name that is not busy. *)
Lemma conflict_loop_some (busy : string -> bool) (new_name suffix : string) :
  forall fuel i new_filename,
    conflict_loop fuel busy new_name suffix (candidate new_name suffix i) (S i)
    = Some new_filename ->
    busy new_filename = false
    /\ exists k, new_filename = candidate new_name suffix k /\ i <= k
                 /\ forall j, i <= j < k -> busy (candidate new_name suffix j) = true.
Proof.
  induction fuel as [|fuel IH]; intros i nf H; [discriminate|].
  simpl in H.
  destruct (busy (candidate new_name suffix i)) eqn:Hb.
  - destruct (IH (S i) nf H) as [Hf [k [Hk [Hle Hall]]]].
    split; [exact Hf|]. exists k. repeat split; [exact Hk | lia |].
    intros j Hj. destruct (Nat.eq_dec j i) as [->|Hne]; [exact Hb|].
    apply Hall. lia.
  - injection H as <-. split; [exact Hb|].
    exists i. repeat split; [lia|]. intros j Hj. lia.
Qed.

(** Once the loop stops, more fuel does not change what it returns. *)
Lemma conflict_loop_more_fuel (busy : string -> bool) (new_name suffix : string) :
  forall fuel fuel' new_filename counter result,
    fuel <= fuel' ->
    conflict_loop fuel busy new_name suffix new_filename counter = Some result ->
    conflict_loop fuel' busy new_name suffix new_filename counter = Some result.
Proof.
  induction fuel as [|fuel IH]; intros fuel' nf c res Hle H; [discriminate|].
  destruct fuel' as [|fuel']; [lia|]. simpl in *.
  destruct (busy nf); [|exact H]. apply IH; [lia | exact H].
Qed.

(** With more tests than there are names that can be busy, the loop stops. *)
Lemma conflict_loop_stops (busy : string -> bool) (names : list string)
      (new_name suffix : string) (fuel : nat) :
  (forall n, busy n = true -> In n names) ->
  List.length names < fuel ->
  exists new_filename,
    conflict_loop fuel busy new_name suffix (new_name ++ suffix) 1 = Some new_filename.
Proof.
  intros Hbusy Hlen.
  destruct (conflict_loop fuel busy new_name suffix (new_name ++ suffix) 1)
    as [nf|] eqn:H; [now exists nf|].
  exfalso.
  pose proof (conflict_loop_none busy new_name suffix fuel 0 H) as Hall.
  assert (Hincl : incl (map (candidate new_name suffix) (seq 0 fuel)) names).
  { intros n Hn. apply in_map_iff in Hn. destruct Hn as [j [<- Hj]].
    apply in_seq in Hj. apply Hbusy. apply Hall. lia. }
  assert (Hnd : NoDup (map (candidate new_name suffix) (seq 0 fuel))).
  { apply Injective_map_NoDup; [|apply seq_NoDup].
    intros a b. apply candidate_inj. }
  pose proof (NoDup_incl_length Hnd Hincl) as Hl.
  rewrite length_map, length_seq in Hl. lia.
Qed.

Lemma assoc_In {A} (k : string) (l : list (string * A)) :
  is_some (assoc k l) = true -> In k (map fst l).
Proof.
  induction l as [|[k' v] l IH]; simpl; [discriminate|].
  destruct (String.eqb_spec k k') as [->|Hne]; [now left|].
  intros H. right. now apply IH.
Qed.

Lemma path_exists_dir (r : rootdir) (d n : string) :
  path_exists r [d; n] = true ->
  exists es, lookup_dir r d = Some es /\ In n (map fst es).
Proof.
  unfold path_exists. destruct (lookup_dir r d) as [es|]; [|discriminate].
  intros H. exists es. split; [reflexivity | now apply assoc_In].
Qed.

(** The bound used by the passes is enough for any test that is only
    true of names that exist in the destination folder. *)
Lemma conflict_loop_bound (r : rootdir) (d : string) (busy : string -> bool)
      (new_name suffix : string) :
  (forall n, busy n = true -> path_exists r [d; n] = true) ->
  exists new_filename,
    conflict_loop (loop_bound r d) busy new_name suffix (new_name ++ suffix) 1
    = Some new_filename.
Proof.
  intros Hbusy. unfold loop_bound.
  destruct (lookup_dir r d) as [es|] eqn:Hd.
  - apply (conflict_loop_stops busy (map fst es)); [|rewrite length_map; lia].
    intros n Hn. destruct (path_exists_dir r d n (Hbusy n Hn)) as [es' [He Hin]].
    rewrite Hd in He. now injection He as <-.
  - apply (conflict_loop_stops busy []); [|simpl; lia].
    intros n Hn. destruct (path_exists_dir r d n (Hbusy n Hn)) as [es' [He _]].
    rewrite Hd in He. discriminate.
Qed.

Lemma path_eqb_eq (p q : path) : path_eqb p q = true <-> p = q.
Proof.
  unfold path_eqb. destruct (list_eq_dec string_dec p q); split; congruence.
Qed.

(** C6. Whatever the scanned folder holds, the conflict loop of the
    organize pass stops and returns a name under which nothing exists in
    the destination folder; the loop of the reconcile pass stops and
    returns a name under which nothing exists, or the file's own path. *)
Theorem conflict_loop_returns_free_path
        (r : rootdir) (dest_folder new_name suffix : string) (file_path : path) :
  (exists new_filename,
      conflict_loop (loop_bound r dest_folder) (busy_organize r dest_folder)
                    new_name suffix (new_name ++ suffix) 1 = Some new_filename
      /\ path_exists r [dest_folder; new_filename] = false)
  /\ (exists new_filename,
         conflict_loop (loop_bound r dest_folder)
                       (busy_reanalyze r dest_folder file_path)
                       new_name suffix (new_name ++ suffix) 1 = Some new_filename
         /\ (path_exists r [dest_folder; new_filename] = false
             \/ [dest_folder; new_filename] = file_path)).
Proof.
  split.
  - destruct (conflict_loop_bound r dest_folder (busy_organize r dest_folder)
                new_name suffix) as [nf H]; [now unfold busy_organize|].
    exists nf. split; [exact H|].
    apply (conflict_loop_some _ _ _ _ 0) in H. now destruct H as [H _].
  - destruct (conflict_loop_bound r dest_folder
                (busy_reanalyze r dest_folder file_path) new_name suffix)
      as [nf H].
    { unfold busy_reanalyze. intros n Hn.
      now apply andb_true_iff in Hn as [Hn _]. }
    exists nf. split; [exact H|].
    apply (conflict_loop_some _ _ _ _ 0) in H. destruct H as [H _].
    unfold busy_reanalyze in H. apply andb_false_iff in H as [H|H].
    + now left.
    + right. apply negb_false_iff in H. now apply path_eqb_eq.
Qed.

(* ----------------------------------------------------------------- *)
(** ** Properties kept by a computation *)

Section Preserves.

Variable P : world -> Prop.

Lemma preserves_ret {A} (a : A) : preserves P (ret a).
Proof. intros w H. exact H. Qed.

Lemma preserves_raise {A} (e : exn) : preserves P (@raise A e).
Proof. intros w H. exact H. Qed.

Lemma preserves_get : preserves P get.
Proof. intros w H. exact H. Qed.

Lemma preserves_bind {A B} (m : M A) (k : A -> M B) :
  preserves P m -> (forall a, preserves P (k a)) -> preserves P (bind m k).
Proof.
  intros Hm Hk w H. specialize (Hm w H). unfold exec, bind in *.
  destruct (m w) as [w' [a|e]]; simpl in *; [now apply Hk | exact Hm].
Qed.

(** After [get], the rest may use that the value read has the property. *)
Lemma preserves_get_bind {B} (k : world -> M B) :
  (forall w0, P w0 -> preserves P (k w0)) -> preserves P (bind get k).
Proof. intros Hk w H. unfold exec, bind, get. now apply Hk. Qed.

Lemma preserves_try_except {A} (m : M A) (h : exn -> M A) :
  preserves P m -> (forall e, preserves P (h e)) -> preserves P (try_except m h).
Proof.
  intros Hm Hh w H. specialize (Hm w H). unfold exec, try_except in *.
  destruct (m w) as [w' [a|e]]; simpl in *; [exact Hm | now apply Hh].
Qed.

Lemma preserves_for_each {A} (l : list A) (body : A -> M unit) :
  (forall x, In x l -> preserves P (body x)) -> preserves P (for_each l body).
Proof.
  induction l as [|x l IH]; intros Hb; simpl.
  - apply preserves_ret.
  - apply preserves_bind; [apply Hb; now left|].
    intros _. apply IH. intros y Hy. apply Hb. now right.
Qed.

Lemma preserves_modify (f : world -> world) :
  (forall w, P w -> P (f w)) -> preserves P (modify f).
Proof. intros Hf w H. now apply Hf. Qed.

Lemma preserves_when (c : bool) (m : M unit) :
  preserves P m -> preserves P (when c m).
Proof. intros Hm. destruct c; [exact Hm | apply preserves_ret]. Qed.

End Preserves.

(** The methods that only read the world. *)
Lemma get_file_type_reads (p : path) (w : world) : exec (get_file_type p) w = w.
Proof.
  unfold exec, get_file_type, bind, get, ret.
  now destruct (file_at (w_root w) p).
Qed.

Lemma extract_metadata_reads (p : path) (w : world) : exec (extract_metadata p) w = w.
Proof.
  unfold exec, extract_metadata, bind, get, ret, raise.
  destruct (file_at (w_root w) p) as [f|]; [|reflexivity].
  now destruct (f_stat_ok f).
Qed.

Lemma read_file_content_reads (p : path) (w : world) :
  read_file_content p w = (w, Ok (content_of (path_name p) (file_at (w_root w) p))).
Proof. reflexivity. Qed.

Lemma preserves_reads {A} (P : world -> Prop) (m : M A) :
  (forall w, exec m w = w) -> preserves P m.
Proof. intros Hm w H. now rewrite Hm. Qed.

(** Breaks a goal [preserves P m] along the structure of [m], leaving
    the mutations of the world and the calls of other methods. *)
Ltac preserves_step :=
  lazymatch goal with
  | |- preserves _ (bind get _) => apply preserves_get_bind; intros ? ?
  | |- preserves _ (bind _ _) => apply preserves_bind; [|intros ?]
  | |- preserves _ (ret _) => apply preserves_ret
  | |- preserves _ (raise _) => apply preserves_raise
  | |- preserves _ get => apply preserves_get
  | |- preserves _ (try_except _ _) => apply preserves_try_except; [|intros ?]
  | |- preserves _ (for_each _ _) => apply preserves_for_each; intros ? ?
  | |- preserves _ (when false _) => apply preserves_ret
  | |- preserves ?P (when true ?m) => change (preserves P m)
  | |- preserves _ (when _ _) => apply preserves_when
  | |- preserves _ (get_file_type _) =>
      apply preserves_reads, get_file_type_reads
  | |- preserves _ (extract_metadata _) =>
      apply preserves_reads, extract_metadata_reads
  | |- preserves _ (read_file_content _) =>
      apply preserves_reads; reflexivity
  | |- preserves ?P (if true then ?a else _) => change (preserves P a)
  | |- preserves ?P (if false then _ else ?b) => change (preserves P b)
  | |- preserves _ (if ?c then _ else _) => destruct c
  | |- preserves _ (match ?x with _ => _ end) => destruct x
  | |- preserves _ (let _ := _ in _) => cbv zeta
  end.

Ltac preserves_tac := repeat preserves_step.

(* ----------------------------------------------------------------- *)
(** ** The collaborator's circuit breaker *)

(** The mutations that do not touch the collaborator. *)
Ltac ai_off_modify :=
  apply preserves_modify; let H := fresh in intros ? H; exact H.

Lemma analyze_content_with_ai_off (p : path) (content_preview : string) (w : world) :
  w_ai_client w = None ->
  analyze_content_with_ai p content_preview w = (w, Ok "").
Proof.
  intros H. unfold analyze_content_with_ai, bind, get. now rewrite H.
Qed.

Lemma ai_off_analyze (n : nat) (p : path) (c : string) :
  preserves (ai_off n) (analyze_content_with_ai p c).
Proof.
  intros w H. unfold exec. now rewrite analyze_content_with_ai_off; [|apply H].
Qed.

Lemma ai_off_generate (n : nat) (p : path) (md : metadata) (c : string) :
  preserves (ai_off n) (generate_smart_filename p md c).
Proof.
  unfold generate_smart_filename. preserves_tac. apply ai_off_analyze.
Qed.

Lemma ai_off_mkdir (n : nat) (name : string) :
  preserves (ai_off n) (mkdir_exist_ok name).
Proof. unfold mkdir_exist_ok. preserves_tac. ai_off_modify. Qed.

Lemma ai_off_move (n : nat) (src : path) (d name : string) :
  preserves (ai_off n) (shutil_move src d name).
Proof. unfold shutil_move. preserves_tac. ai_off_modify. Qed.

Lemma ai_off_save (n : nat) (a : log_entry) :
  preserves (ai_off n) (save_action_log a).
Proof. unfold save_action_log. preserves_tac. ai_off_modify. Qed.

Lemma ai_off_log (n : nat) (e : event) : preserves (ai_off n) (log e).
Proof. unfold log. ai_off_modify. Qed.

Lemma ai_off_bump (n : nat) (f : stats -> stats) : preserves (ai_off n) (bump f).
Proof. unfold bump. ai_off_modify. Qed.

Ltac ai_off_tac :=
  repeat first
    [ apply ai_off_generate | apply ai_off_mkdir | apply ai_off_move
    | apply ai_off_save | apply ai_off_log | apply ai_off_bump
    | preserves_step ].


Lemma ai_off_reanalyze (n : nat) (folder_exists dry_run : bool) :
  preserves (ai_off n) (reanalyze_organized_files folder_exists dry_run).
Proof.
  unfold reanalyze_organized_files, reanalyze_folder, reanalyze_loop,
    reanalyze_file.
  ai_off_tac; ai_off_modify.
Qed.





(* ----------------------------------------------------------------- *)
(** ** Running a [try] body step by step *)

Lemma exec_try_get {A} (k : world -> M A) (h : exn -> M A) (w : world) :
  try_except (bind get k) h w = try_except (k w) h w.
Proof. reflexivity. Qed.

Lemma exec_try_bind {A B} (m : M A) (k : A -> M B) (h : exn -> M B)
      (w w1 : world) (a : A) :
  m w = (w1, Ok a) ->
  try_except (bind m k) h w = try_except (k a) h w1.
Proof. intros H. unfold try_except, bind. now rewrite H. Qed.

Lemma exec_bind {A B} (m : M A) (k : A -> M B) (w w1 : world) (a : A) :
  m w = (w1, Ok a) -> bind m k w = k a w1.
Proof. intros H. unfold bind. now rewrite H. Qed.

Lemma get_file_type_run (p : path) (w : world) :
  get_file_type p w
  = (w, Ok (match file_at (w_root w) p with
            | Some f => file_type true (PurePath.suffix (path_name p)) (f_mime f)
            | None => file_type false (PurePath.suffix (path_name p)) None
            end)).
Proof.
  unfold get_file_type, bind, get, ret. now destruct (file_at (w_root w) p).
Qed.

(** How each method continues, as rewriting rules for a symbolic run. *)
Lemma bind_get {B} (k : world -> M B) (w : world) : bind get k w = k w w.
Proof. reflexivity. Qed.
Lemma bind_ret {A B} (a : A) (k : A -> M B) (w : world) : bind (ret a) k w = k a w.
Proof. reflexivity. Qed.
Lemma bind_modify {B} (f : world -> world) (k : unit -> M B) (w : world) :
  bind (modify f) k w = k tt (f w).
Proof. reflexivity. Qed.
Lemma bind_log {B} (e : event) (k : unit -> M B) (w : world) :
  bind (log e) k w = k tt (add_event e w).
Proof. reflexivity. Qed.
Lemma bind_bump {B} (f : stats -> stats) (k : unit -> M B) (w : world) :
  bind (bump f) k w = k tt (set_stats (f (w_stats w)) w).
Proof. reflexivity. Qed.
Lemma bind_raise {A B} (e : exn) (k : A -> M B) (w : world) :
  bind (raise e) k w = (w, Raised e).
Proof. reflexivity. Qed.
Lemma bind_get_file_type {B} (p : path) (k : string * string -> M B) (w : world) :
  bind (get_file_type p) k w
  = k (match file_at (w_root w) p with
       | Some f => file_type true (PurePath.suffix (path_name p)) (f_mime f)
       | None => file_type false (PurePath.suffix (path_name p)) None
       end) w.
Proof. apply exec_bind, get_file_type_run. Qed.
Lemma bind_read_file_content {B} (p : path) (k : string -> M B) (w : world) :
  bind (read_file_content p) k w
  = k (content_of (path_name p) (file_at (w_root w) p)) w.
Proof. reflexivity. Qed.

Lemma bind_extract_metadata {B} (p : path) (k : metadata -> M B) (w : world) :
  bind (extract_metadata p) k w
  = match file_at (w_root w) p with
    | None => (w, Raised FileNotFoundError)
    | Some f => if f_stat_ok f then k (metadata_of (path_name p) f) w
                else (w, Raised PermissionError)
    end.
Proof.
  unfold extract_metadata, bind, get, raise, ret.
  destruct (file_at (w_root w) p) as [f|]; [|reflexivity].
  now destruct (f_stat_ok f).
Qed.

Lemma bind_mkdir_exist_ok {B} (name : string) (k : unit -> M B) (w : world) :
  bind (mkdir_exist_ok name) k w
  = match assoc name (w_root w) with
    | Some (RDir _) => k tt w
    | Some (RFile _) => (w, Raised FileExistsError)
    | None => k tt (set_root (w_root w ++ [(name, RDir [])]) w)
    end.
Proof.
  unfold mkdir_exist_ok, bind, get, raise, ret, modify.
  now destruct (assoc name (w_root w)) as [[f|es]|].
Qed.

Lemma bind_when {B} (c : bool) (m : M unit) (k : unit -> M B) (w : world) :
  bind (when c m) k w = if c then bind m k w else k tt w.
Proof. now destruct c. Qed.

(** A mutation that leaves alone what [P] looks at. *)
Ltac frame_modify :=
  apply preserves_modify; let H := fresh in intros ? H; exact H.

(** Breaks a goal [preserves P m] for a pass or one of its parts down
    to the mutations, and closes those that [P] does not look at; [tac]
    is tried first, for the methods that need a lemma of their own. *)
Ltac frame_with tac :=
  repeat first
    [ tac
    | preserves_step
    | progress unfold generate_smart_filename, analyze_content_with_ai,
        mkdir_exist_ok, shutil_move, save_action_log, bump, log
    | frame_modify ].

Ltac frame_tac := frame_with fail.

(* ----------------------------------------------------------------- *)
(** ** Errors stay inside the file loops *)

Lemma try_except_log_ok (m : M unit) (e : event) (w : world) :
  outcome (try_except m (fun _ => log e)) w = Ok tt.
Proof.
  unfold outcome, try_except. destruct (m w) as [w' [[]|x]]; reflexivity.
Qed.

Lemma for_each_ok {A} (l : list A) (body : A -> M unit) :
  (forall x w, outcome (body x) w = Ok tt) ->
  forall w, outcome (for_each l body) w = Ok tt.
Proof.
  intros Hb. induction l as [|x l IH]; intros w; [reflexivity|].
  simpl. unfold outcome, bind in *. specialize (Hb x w).
  destruct (body x w) as [w' [[]|e]]; simpl in Hb; [apply IH | discriminate].
Qed.

Lemma for_each_exec {A} (x : A) (l : list A) (body : A -> M unit) (w : world) :
  outcome (body x) w = Ok tt ->
  exec (for_each (x :: l) body) w = exec (for_each l body) (exec (body x) w).
Proof.
  unfold outcome, exec. simpl. unfold bind.
  destruct (body x w) as [w' [[]|e]]; simpl; [reflexivity | discriminate].
Qed.

Lemma visits_app (a b : list event) : visits (a ++ b) = visits a ++ visits b.
Proof. unfold visits. apply flat_map_app. Qed.

(** Logging anything but the start of a turn leaves the visits alone. *)
Lemma visits_log (V : list string) (e : event) :
  visits [e] = [] -> preserves (fun w => visits (w_events w) = V) (log e).
Proof.
  intros He. apply preserves_modify. intros w H. simpl.
  now rewrite visits_app, He, app_nil_r.
Qed.

Ltac visits_tac :=
  repeat first
    [ preserves_step
    | apply visits_log; reflexivity
    | progress unfold generate_smart_filename, analyze_content_with_ai,
        mkdir_exist_ok, shutil_move, save_action_log
    | frame_modify ].

(** One turn of the organize loop logs the start of exactly that file. *)
Lemma organize_turn_visits (file_name : string) (w : world) :
  visits (w_events (exec (try_except (organize_file file_name)
                                     (fun _ => log (LogError file_name))) w))
  = visits (w_events w) ++ [file_name].
Proof.
  unfold exec, organize_file. rewrite exec_try_get.
  destruct (is_system_file (w_root w) [file_name]).
  - cbn. now rewrite visits_app.
  - rewrite (exec_try_bind _ _ _ _ _ _ (get_file_type_run _ w)).
    rewrite (exec_try_bind _ _ _ _ (add_event _ w) tt eq_refl).
    match goal with
    | |- visits (w_events (fst (?m ?w1))) = ?V =>
        refine ((_ : preserves (fun w' => visits (w_events w') = V) m) w1 _)
    end; [| cbn; now rewrite visits_app ].
    visits_tac.
Qed.

(** One turn of the reconcile loop counts its file once, whatever
    happens to it. *)
Lemma reanalyze_turn_counts (dry_run : bool) (org_folder current_category : string)
      (file_name : string) (w : world) :
  files_processed
    (w_stats (exec (try_except
                      (reanalyze_file dry_run org_folder current_category file_name)
                      (fun _ => log (LogError file_name))) w))
  = S (files_processed (w_stats w)).
Proof.
  unfold exec, reanalyze_file.
  rewrite (exec_try_bind _ _ _ _ (set_stats (count_processed (w_stats w)) w) tt eq_refl).
  match goal with
  | |- files_processed (w_stats (fst (?m ?w1))) = ?k =>
      refine ((_ : preserves (fun w' => files_processed (w_stats w') = k) m) w1 _)
  end; [| reflexivity ].
  frame_tac.
Qed.

Lemma organize_loop_ok (files : list string) (w : world) :
  outcome (organize_loop files) w = Ok tt.
Proof.
  unfold organize_loop. apply for_each_ok. intros x w'. apply try_except_log_ok.
Qed.

Lemma reanalyze_loop_ok (dry_run : bool) (org_folder current_category : string)
      (files : list string) (w : world) :
  outcome (reanalyze_loop dry_run org_folder current_category files) w = Ok tt.
Proof.
  unfold reanalyze_loop. apply for_each_ok. intros x w'. apply try_except_log_ok.
Qed.

Lemma organize_loop_visits (files : list string) :
  forall w, visits (w_events (exec (organize_loop files) w))
            = visits (w_events w) ++ files.
Proof.
  unfold organize_loop.
  induction files as [|x files IH]; intros w.
  - cbn. now rewrite app_nil_r.
  - rewrite for_each_exec by apply try_except_log_ok.
    rewrite IH, organize_turn_visits, <- app_assoc. reflexivity.
Qed.

Lemma reanalyze_loop_counts (dry_run : bool) (org_folder current_category : string)
      (files : list string) :
  forall w, files_processed
              (w_stats (exec (reanalyze_loop dry_run org_folder current_category files) w))
            = files_processed (w_stats w) + List.length files.
Proof.
  unfold reanalyze_loop.
  induction files as [|x files IH]; intros w.
  - cbn. lia.
  - rewrite for_each_exec by apply try_except_log_ok.
    rewrite IH, reanalyze_turn_counts. simpl. lia.
Qed.

Lemma try_except_raised (m : M unit) (e : event) (x : exn) (w : world) :
  outcome m w = Raised x ->
  exec (try_except m (fun _ => log e)) w = add_event e (exec m w).
Proof.
  unfold outcome, exec, try_except. destruct (m w) as [w' [[]|y]]; simpl;
    [discriminate | reflexivity].
Qed.

(** C8. In both passes the file loop never raises; when the processing
    of a file raises, the error is logged and the loop goes on with the
    rest of the listing from the world that the failed file left; the
    organize loop starts on every file of the listing in order and the
    reconcile loop counts every file of the listing. *)
Theorem file_errors_stay_in_the_loop
        (file_name : string) (rest : list string) (w : world) :
  (outcome (organize_loop (file_name :: rest)) w = Ok tt
   /\ visits (w_events (exec (organize_loop (file_name :: rest)) w))
      = visits (w_events w) ++ file_name :: rest
   /\ (forall e,
          outcome (organize_file file_name) w = Raised e ->
          exec (organize_loop (file_name :: rest)) w
          = exec (organize_loop rest)
                 (add_event (LogError file_name) (exec (organize_file file_name) w))))
  /\ (forall dry_run org_folder current_category,
         outcome (reanalyze_loop dry_run org_folder current_category
                                 (file_name :: rest)) w = Ok tt
         /\ files_processed
              (w_stats (exec (reanalyze_loop dry_run org_folder current_category
                                             (file_name :: rest)) w))
            = files_processed (w_stats w) + List.length (file_name :: rest)
         /\ (forall e,
                outcome (reanalyze_file dry_run org_folder current_category file_name) w
                = Raised e ->
                exec (reanalyze_loop dry_run org_folder current_category
                                     (file_name :: rest)) w
                = exec (reanalyze_loop dry_run org_folder current_category rest)
                       (add_event (LogError file_name)
                          (exec (reanalyze_file dry_run org_folder current_category
                                                file_name) w)))).
Proof.
  split; [split; [|split] | intros dry d cc; split; [|split]].
  - apply organize_loop_ok.
  - apply organize_loop_visits.
  - intros e He. unfold organize_loop.
    rewrite for_each_exec by apply try_except_log_ok.
    now rewrite (try_except_raised _ _ e).
  - apply reanalyze_loop_ok.
  - apply reanalyze_loop_counts.
  - intros e He. unfold reanalyze_loop.
    rewrite for_each_exec by apply try_except_log_ok.
    now rewrite (try_except_raised _ _ e).
Qed.

Lemma file_errors_stay_in_the_loop_witness :
  let w := fresh_world
             [ ("Organized_Documents", RDir []);
               ("a.txt", RFile (locked_file "first"));
               ("b.txt", RFile (text_file "second")) ] in
  outcome (organize_file "a.txt") w = Raised PermissionError
  /\ exec (organize_loop ["a.txt"; "b.txt"]) w
     = exec (organize_loop ["b.txt"])
            (add_event (LogError "a.txt") (exec (organize_file "a.txt") w))
  /\ w_root (exec (organize_loop ["a.txt"; "b.txt"]) w)
     = [ ("Organized_Documents", RDir [("b.txt", File (text_file "second"))]);
         ("a.txt", RFile (locked_file "first")) ].
Proof.
  intros w.
  destruct (file_errors_stay_in_the_loop "a.txt" ["b.txt"] w) as [[_ [_ H]] _].
  split; [reflexivity|]. split; [|reflexivity].
  apply (H PermissionError). reflexivity.
Defined.

(* ----------------------------------------------------------------- *)
(** ** What [files_processed] counts *)

(** C4 as stated fails: in the reconcile pass a hidden file is skipped
    and yet counted. *)
Lemma skipped_file_is_counted :
  let w := fresh_world
             [("Organized_Documents", RDir [(".DS_Store", File (text_file "x"))])] in
  is_system_file (w_root w) ["Organized_Documents"; ".DS_Store"] = true
  /\ outcome (reanalyze_organized_files true false) w
     = Ok (Some (mkStats 1 0 0 0)).
Proof. split; reflexivity. Qed.

(** C4, amended. Each turn of the reconcile loop adds exactly one to
    [files_processed], whether the file is skipped, handled or raises;
    for a skipped file this count is all that the turn does. *)
Theorem files_processed_counts_every_listed_file
        (dry_run : bool) (org_folder current_category file_name : string)
        (w : world) :
  let turn := try_except
                (reanalyze_file dry_run org_folder current_category file_name)
                (fun _ => log (LogError file_name)) in
  files_processed (w_stats (exec turn w)) = S (files_processed (w_stats w))
  /\ (is_system_file (w_root w) [org_folder; file_name] = true ->
      exec turn w = set_stats (count_processed (w_stats w)) w).
Proof.
  split; [apply reanalyze_turn_counts|].
  intros Hs. unfold exec, reanalyze_file.
  rewrite (exec_try_bind _ _ _ _ (set_stats (count_processed (w_stats w)) w) tt eq_refl).
  rewrite exec_try_get. cbn [w_root set_stats]. now rewrite Hs.
Qed.

Lemma files_processed_counts_every_listed_file_witness :
  let w := fresh_world
             [("Organized_Documents", RDir [(".DS_Store", File (text_file "x"))])] in
  exec (try_except
          (reanalyze_file false "Organized_Documents" "Documents" ".DS_Store")
          (fun _ => log (LogError ".DS_Store"))) w
  = set_stats (mkStats 1 0 0 0) w.
Proof.
  intros w.
  apply (files_processed_counts_every_listed_file
           false "Organized_Documents" "Documents" ".DS_Store" w).
  reflexivity.
Defined.

(* ----------------------------------------------------------------- *)
(** ** The category folders *)

(** C9 as stated fails: the organize pass on an empty folder creates
    every category folder, although no file is there to need one. *)
Lemma empty_folder_gets_every_category_folder :
  let w := fresh_world [] in
  root_files (w_root w) = []
  /\ w_root (exec (organize_files_in_folder true) w)
     = map (fun n => (n, RDir [])) category_folders.
Proof. split; reflexivity. Qed.

Lemma assoc_app_none {A} (k : string) (l l' : list (string * A)) :
  assoc k l = None -> assoc k (l ++ l') = assoc k l'.
Proof.
  induction l as [|[k' v] l IH]; simpl; [reflexivity|].
  destruct (String.eqb k k'); [discriminate | exact IH].
Qed.

Lemma assoc_app_some {A} (k : string) (l l' : list (string * A)) (v : A) :
  assoc k l = Some v -> assoc k (l ++ l') = Some v.
Proof.
  induction l as [|[k' v'] l IH]; simpl; [discriminate|].
  destruct (String.eqb k k'); [trivial | exact IH].
Qed.

Lemma mkdir_exist_ok_existing (name : string) (es : dir) (w : world) :
  lookup_dir (w_root w) name = Some es -> mkdir_exist_ok name w = (w, Ok tt).
Proof.
  unfold lookup_dir, mkdir_exist_ok, bind, get.
  destruct (assoc name (w_root w)) as [[f|es']|]; try discriminate. reflexivity.
Qed.

Lemma mkdir_exist_ok_root (name : string) (w : world) :
  (forall f, assoc name (w_root w) <> Some (RFile f)) ->
  mkdir_exist_ok name w
  = (set_root (w_root w ++ missing_dirs [name] (w_root w)) w, Ok tt)
  \/ (mkdir_exist_ok name w = (w, Ok tt) /\ missing_dirs [name] (w_root w) = []).
Proof.
  intros Hf. unfold mkdir_exist_ok, missing_dirs, bind, get. simpl.
  destruct (assoc name (w_root w)) as [[f|es]|] eqn:Ha.
  - now destruct (Hf f).
  - right. now split.
  - left. reflexivity.
Qed.

Lemma missing_dirs_cons (n : string) (names : list string) (r : rootdir) :
  missing_dirs (n :: names) r = missing_dirs [n] r ++ missing_dirs names r.
Proof.
  unfold missing_dirs. simpl.
  destruct (negb (is_some (assoc n r))); reflexivity.
Qed.

Lemma assoc_missing_other (k n : string) (r : rootdir) :
  k <> n -> assoc k (r ++ missing_dirs [n] r) = assoc k r.
Proof.
  intros Hne. unfold missing_dirs. simpl.
  destruct (negb (is_some (assoc n r))); simpl; [|now rewrite app_nil_r].
  destruct (assoc k r) as [v|] eqn:Hk.
  - now apply assoc_app_some.
  - rewrite (assoc_app_none _ _ _ Hk). simpl.
    destruct (String.eqb_spec k n); [contradiction | reflexivity].
Qed.

Lemma missing_dirs_after (n : string) (names : list string) (r : rootdir) :
  ~ In n names ->
  missing_dirs names (r ++ missing_dirs [n] r) = missing_dirs names r.
Proof.
  intros Hn. unfold missing_dirs at 1 3. f_equal.
  apply filter_ext_in. intros k Hk.
  rewrite assoc_missing_other; [reflexivity|]. intros ->. contradiction.
Qed.

(** Making a list of distinct folders, none of which is a regular file,
    adds the missing ones at the end of the scanned folder and changes
    nothing else of it. *)
Lemma mkdir_each_root (names : list string) (after : string -> M unit) :
  (forall n w, exists w', after n w = (w', Ok tt) /\ w_root w' = w_root w) ->
  NoDup names ->
  forall w,
    (forall n f, In n names -> assoc n (w_root w) <> Some (RFile f)) ->
    outcome (for_each names (fun n => mkdir_exist_ok n ;; after n)) w = Ok tt
    /\ w_root (exec (for_each names (fun n => mkdir_exist_ok n ;; after n)) w)
       = w_root w ++ missing_dirs names (w_root w).
Proof.
  intros Hafter. induction names as [|n names IH]; intros Hnd w Hf.
  - split; [reflexivity|]. cbn. now rewrite app_nil_r.
  - inversion Hnd as [|? ? Hn Hnd']; subst.
    assert (Hstep : exists w1,
               (mkdir_exist_ok n ;; after n) w = (w1, Ok tt)
               /\ w_root w1 = w_root w ++ missing_dirs [n] (w_root w)).
    { destruct (mkdir_exist_ok_root n w) as [H|[H Hm]].
      - intros f. apply Hf. now left.
      - destruct (Hafter n (set_root (w_root w ++ missing_dirs [n] (w_root w)) w))
          as [w1 [Ha Hr]].
        exists w1. split; [now rewrite (exec_bind _ _ _ _ _ H) | exact Hr].
      - destruct (Hafter n w) as [w1 [Ha Hr]].
        exists w1. split; [now rewrite (exec_bind _ _ _ _ _ H)|].
        now rewrite Hr, Hm, app_nil_r. }
    destruct Hstep as [w1 [Hs Hr]].
    destruct (IH Hnd' w1) as [Ho Hroot].
    { intros k f Hk. rewrite Hr, assoc_missing_other.
      - apply Hf. now right.
      - intros ->. contradiction. }
    unfold outcome, exec in *. simpl for_each.
    rewrite (exec_bind _ _ _ _ _ Hs). split; [exact Ho|].
    rewrite Hroot, Hr, missing_dirs_after by exact Hn.
    now rewrite (missing_dirs_cons n names), app_assoc.
Qed.

Lemma category_folders_NoDup : NoDup category_folders.
Proof.
  unfold category_folders, category_names, file_categories. simpl.
  repeat (constructor; [simpl; intros H;
                        repeat (destruct H as [H|H]; [discriminate|]); exact H|]).
  constructor.
Qed.

Lemma assoc_notin {A} (k : string) (l : list (string * A)) :
  ~ In k (map fst l) -> assoc k l = None.
Proof.
  induction l as [|[k' v] l IH]; simpl; intros H; [reflexivity|].
  destruct (String.eqb_spec k k') as [->|Hne]; [tauto|].
  apply IH. tauto.
Qed.

Lemma assoc_missing_notin (k : string) (names : list string) (r : rootdir) :
  ~ In k names -> assoc k (r ++ missing_dirs names r) = assoc k r.
Proof.
  intros Hk. destruct (assoc k r) as [v|] eqn:Ha.
  - now apply assoc_app_some.
  - rewrite (assoc_app_none _ _ _ Ha). apply assoc_notin.
    unfold missing_dirs. rewrite map_map. simpl. rewrite map_id.
    intros Hin. apply filter_In in Hin. tauto.
Qed.

Lemma missing_dirs_app (names names' : list string) (r : rootdir) :
  missing_dirs (names ++ names') r = missing_dirs names r ++ missing_dirs names' r.
Proof. unfold missing_dirs. now rewrite filter_app, map_app. Qed.

Lemma create_organized_folders_root (w : world) :
  (forall n f, In n category_folders -> assoc n (w_root w) <> Some (RFile f)) ->
  outcome create_organized_folders w = Ok tt
  /\ w_root (exec create_organized_folders w)
     = w_root w ++ missing_dirs category_folders (w_root w).
Proof.
  intros Hf.
  pose (names := map organized_name (map fst file_categories)).
  pose (other := organized_name "Other").
  assert (Hcf : category_folders = names ++ [other]).
  { unfold category_folders, category_names. now rewrite map_app. }
  assert (Hnd : NoDup names /\ ~ In other names).
  { pose proof category_folders_NoDup as H. rewrite Hcf in H.
    split; [now apply NoDup_app_remove_r in H|].
    apply NoDup_remove_2 in H. now rewrite app_nil_r in H. }
  destruct Hnd as [Hnd Hother].
  destruct (mkdir_each_root names (fun n => log (LogCreatedVerified n))
              (fun n w0 => ex_intro _ _ (conj eq_refl eq_refl)) Hnd w)
    as [Ho Hr].
  { intros n f Hn. apply Hf. rewrite Hcf. apply in_or_app. now left. }
  unfold create_organized_folders, outcome, exec in *.
  change (for_each (map fst file_categories)
            (fun category =>
               mkdir_exist_ok (organized_name category) ;;
               log (LogCreatedVerified (organized_name category))))
    with (for_each names (fun n => mkdir_exist_ok n ;; log (LogCreatedVerified n))).
  fold other.
  destruct (for_each names (fun n => mkdir_exist_ok n ;; log (LogCreatedVerified n)) w)
    as [w1 [[]|e]] eqn:Hrun; simpl in Ho, Hr; [|discriminate].
  rewrite (exec_bind _ _ _ _ _ Hrun).
  assert (Ha : assoc other (w_root w1) = assoc other (w_root w)).
  { rewrite Hr. now apply assoc_missing_notin. }
  assert (Hm : missing_dirs [other] (w_root w1) = missing_dirs [other] (w_root w)).
  { unfold missing_dirs. simpl. now rewrite Ha. }
  rewrite Hcf, missing_dirs_app, app_assoc, <- Hr, <- Hm.
  destruct (mkdir_exist_ok_root other w1) as [H|[H Hz]].
  - intros f. rewrite Ha. apply Hf. rewrite Hcf. apply in_or_app. right. now left.
  - rewrite H. split; reflexivity.
  - rewrite H, Hz, app_nil_r. split; reflexivity.
Qed.

Lemma update_dir_names (d : string) (f : dir -> dir) (r : rootdir) :
  map fst (update_dir d f r) = map fst r.
Proof.
  unfold update_dir. rewrite map_map. apply map_ext.
  intros [k [x|es]]; simpl; [reflexivity|]. now destruct (String.eqb d k).
Qed.

(** Moving a file between category folders keeps the entries of the
    scanned folder itself. *)
Lemma shutil_move_names (N : list string) (d0 n0 d n : string) :
  preserves (fun w => map fst (w_root w) = N) (shutil_move [d0; n0] d n).
Proof.
  unfold shutil_move. preserves_tac.
  apply preserves_modify. intros w1 H1. simpl.
  unfold place. now rewrite !update_dir_names.
Qed.

(** The naming never raises and only touches the collaborator's side of
    the world and the logger. *)
Lemma generate_smart_filename_run (p : path) (md : metadata) (c : string) (w : world) :
  exists new_name w1,
    generate_smart_filename p md c w = (w1, Ok new_name)
    /\ w_root w1 = w_root w /\ w_actions w1 = w_actions w
    /\ w_stats w1 = w_stats w /\ w_log_writable w1 = w_log_writable w.
Proof.
  unfold generate_smart_filename, analyze_content_with_ai, bind, get, modify,
    log, ret.
  destruct (Py.truthy c && is_some (w_ai_client w)).
  2:{ eexists _, _. repeat split. }
  destruct (w_ai_client w) as [client|]; simpl.
  2:{ eexists _, _. repeat split. }
  destruct (client _ _ _ _) as [reply|msg]; simpl.
  - destruct (Py.truthy _ && _); eexists _, _; repeat split.
  - destruct (classify_ai_error msg); simpl; eexists _, _; repeat split.
Qed.

Lemma file_type_category (is_file : bool) (suffix : string) (mime : option string) :
  In (snd (file_type is_file suffix mime)) category_names.
Proof.
  unfold file_type, category_names. apply in_or_app.
  destruct is_file; simpl negb; cbv iota; [|right; now left].
  destruct (first_category file_categories (Py.lower suffix)) as [c|] eqn:H;
    [left | right; now left].
  simpl snd. revert H. generalize file_categories as table.
  induction table as [|[c' exts] table IH]; simpl; [discriminate|].
  destruct (Py.mem (Py.lower suffix) exts).
  - intros [= ->]. now left.
  - intros H. right. now apply IH.
Qed.

(** What one file of the reconcile pass can do to the entries of the
    scanned folder: nothing, or add the folder of the file's recomputed
    category, which differs from the current one. *)
Lemma reanalyze_file_folders (dry_run : bool) (org_folder current_category : string)
      (file_name : string) (w : world) :
  let w' := exec (reanalyze_file dry_run org_folder current_category file_name) w in
  map fst (w_root w') = map fst (w_root w)
  \/ exists f,
      file_at (w_root w) [org_folder; file_name] = Some f
      /\ let new_category :=
           snd (file_type true (PurePath.suffix file_name) (f_mime f)) in
         new_category <> current_category
         /\ assoc (organized_name new_category) (w_root w) = None
         /\ map fst (w_root w') = map fst (w_root w) ++ [organized_name new_category].
Proof.
  unfold exec, reanalyze_file.
  rewrite bind_bump, bind_get. cbn [w_root set_stats].
  destruct (is_system_file (w_root w) [org_folder; file_name]); [now left|].
  rewrite bind_log, bind_get_file_type, bind_extract_metadata.
  cbn [w_root set_stats add_event path_name last].
  destruct (file_at (w_root w) [org_folder; file_name]) as [f|] eqn:Hf;
    [|now left].
  destruct (f_stat_ok f); [|now left].
  rewrite bind_read_file_content.
  match goal with
  | |- context [bind (generate_smart_filename ?p ?md ?c) _ ?w0] =>
      destruct (generate_smart_filename_run p md c w0)
        as [new_name [w1 [Hg [Hr _]]]]
  end.
  rewrite (exec_bind _ _ _ _ _ Hg). cbn [w_root set_stats add_event] in Hr.
  set (new_category := snd (file_type true (PurePath.suffix file_name) (f_mime f))).
  destruct (negb (String.eqb new_category current_category)) eqn:Hcat.
  - (* the category changed: the folder is made, then entries stay *)
    rewrite orb_true_l, bind_when, bind_mkdir_exist_ok, Hr.
    destruct (assoc (organized_name new_category) (w_root w)) as [[g|es]|] eqn:Ha.
    + left. simpl. now rewrite Hr.
    + left. rewrite <- Hr.
      match goal with
      | |- map fst (w_root (fst (?m ?w2))) = ?N =>
          refine ((_ : preserves (fun w' => map fst (w_root w') = N) m) w2 _)
      end; [|reflexivity].
      frame_with ltac:(apply shutil_move_names).
    + right. exists f. split; [reflexivity|]. cbv zeta. fold new_category.
      split; [|split; [exact Ha|]].
      * intros Heq. rewrite Heq, String.eqb_refl in Hcat. discriminate.
      * match goal with
        | |- map fst (w_root (fst (?m ?w2))) = ?N =>
            refine ((_ : preserves (fun w' => map fst (w_root w') = N) m) w2 _)
        end.
        -- frame_with ltac:(apply shutil_move_names).
        -- cbn [w_root set_root]. now rewrite map_app.
  - (* same category: entries stay *)
    left. rewrite orb_false_l, <- Hr.
    match goal with
    | |- map fst (w_root (fst (?m ?w2))) = ?N =>
        refine ((_ : preserves (fun w' => map fst (w_root w') = N) m) w2 eq_refl)
    end.
    frame_with ltac:(apply shutil_move_names).
Qed.

Lemma category_folders_flat (c : string) :
  In c category_names -> Py.contains "/" (organized_name c) = false.
Proof.
  unfold category_names, file_categories. simpl.
  intros H. repeat (destruct H as [<-|H]; [reflexivity|]). destruct H.
Qed.

(** C9, amended. Making a category folder that exists changes nothing.
    [create_organized_folders], with which the organize pass begins,
    makes every one of the ten folders that is missing, whether or not a
    file will go there, and leaves the entries that exist alone.  One
    file of the reconcile pass adds at most the folder of its recomputed
    category, and only when that differs from its current one.  Every
    such folder is an entry of the scanned folder itself. *)
Theorem category_folders_creation (w : world) :
  (forall name es,
      lookup_dir (w_root w) name = Some es -> mkdir_exist_ok name w = (w, Ok tt))
  /\ ((forall n f, In n category_folders -> assoc n (w_root w) <> Some (RFile f)) ->
      outcome create_organized_folders w = Ok tt
      /\ w_root (exec create_organized_folders w)
         = w_root w ++ missing_dirs category_folders (w_root w))
  /\ (forall dry_run org_folder current_category file_name,
         let w' := exec (reanalyze_file dry_run org_folder current_category
                                        file_name) w in
         map fst (w_root w') = map fst (w_root w)
         \/ exists f,
             file_at (w_root w) [org_folder; file_name] = Some f
             /\ let new_category :=
                  snd (file_type true (PurePath.suffix file_name) (f_mime f)) in
                new_category <> current_category
                /\ assoc (organized_name new_category) (w_root w) = None
                /\ map fst (w_root w')
                   = map fst (w_root w) ++ [organized_name new_category])
  /\ (forall c, In c category_names -> Py.contains "/" (organized_name c) = false).
Proof.
  split; [|split; [|split]].
  - intros name es. apply mkdir_exist_ok_existing.
  - apply create_organized_folders_root.
  - intros dry d cc n. apply reanalyze_file_folders.
  - apply category_folders_flat.
Qed.

Lemma category_folders_creation_witness :
  let w := fresh_world
             [ ("Organized_Code", RDir [("a.py", File (text_file "import x"))]);
               ("notes.txt", RFile (text_file "hello")) ] in
  mkdir_exist_ok "Organized_Code" w = (w, Ok tt)
  /\ map fst (w_root (exec create_organized_folders w))
     = [ "Organized_Code"; "notes.txt"; "Organized_Images"; "Organized_Documents";
         "Organized_Spreadsheets"; "Organized_Presentations"; "Organized_Audio";
         "Organized_Video"; "Organized_Archives"; "Organized_Data";
         "Organized_Other" ].
Proof.
  intros w.
  destruct (category_folders_creation w) as [H1 [H2 _]].
  split.
  - apply (H1 "Organized_Code" [("a.py", File (text_file "import x"))]).
    reflexivity.
  - destruct H2 as [_ H2].
    + intros n f Hn.
      unfold category_folders, category_names, file_categories in Hn.
      simpl in Hn.
      repeat (destruct Hn as [<-|Hn]; [discriminate|]). destruct Hn.
    + rewrite H2. reflexivity.
Defined.

(* ----------------------------------------------------------------- *)
(** ** The namer *)

(** C3 as stated fails.  The sanitising substitution keeps what
    Python's [\w] matches, and that holds letters beyond ASCII: the
    stem of a file named with an accented letter (code point 233) goes
    into the name as it is.  (The rule for
    photos, the one path that does not sanitise, puts an EXIF date into
    the name with only its colons and spaces replaced, here with its
    dots.) *)
Lemma name_can_leave_the_pattern :
  (let name := ("caf" ++ String "233" ".txt")%string in
   outcome (generate_smart_filename ["Organized_Documents"; name]
              (metadata_of name (text_file "")) "")
           (fresh_world [])
   = Ok ("caf" ++ String "233" "")%string
   /\ matches_safe ("caf" ++ String "233" "") = false)
  /\ (let md := metadata_of "IMG_1.jpg" (photo_file "2024.07.15") in
      outcome (generate_smart_filename ["Organized_Images"; "IMG_1.jpg"] md "")
              (fresh_world [])
      = Ok "photo_2024.07.15"
      /\ matches_safe "photo_2024.07.15" = false).
Proof. repeat split; reflexivity. Qed.

Lemma kept_ascii_is_safe (c : ascii) :
  Py.is_ascii c = true -> is_kept_char c = true -> Py.is_safe_char c = true.
Proof.
  destruct c as [[] [] [] [] [] [] [] []]; intros Ha Hk;
    first [ reflexivity | discriminate Ha | discriminate Hk ].
Qed.

Lemma sforall_smap (p : ascii -> bool) (f : ascii -> ascii) (s : string) :
  (forall c, p (f c) = true) -> Py.sforall p (Py.smap f s) = true.
Proof.
  intros H. induction s as [|c s IH]; simpl; [reflexivity|].
  now rewrite H, IH.
Qed.

Lemma sforall_smap_from (p q : ascii -> bool) (f : ascii -> ascii) (s : string) :
  (forall c, q c = true -> p (f c) = true) ->
  Py.sforall q s = true -> Py.sforall p (Py.smap f s) = true.
Proof.
  intros H. induction s as [|c s IH]; simpl; [reflexivity|].
  intros Hq. apply andb_true_iff in Hq as [Hc Hs].
  now rewrite (H c Hc), IH.
Qed.

Lemma sforall_app (p : ascii -> bool) (a b : string) :
  Py.sforall p (a ++ b)%string = Py.sforall p a && Py.sforall p b.
Proof.
  induction a as [|c a IH]; simpl; [reflexivity|].
  now rewrite IH, andb_assoc.
Qed.

Lemma smap_length (f : ascii -> ascii) (s : string) :
  String.length (Py.smap f s) = String.length s.
Proof. induction s as [|c s IH]; simpl; [reflexivity | now rewrite IH]. Qed.

Lemma truthy_length (s : string) : Py.truthy s = true <-> 0 < String.length s.
Proof. destruct s; simpl; split; intros; try lia; try discriminate; reflexivity. Qed.

Lemma re_sub_unsafe_kept (s : string) :
  Py.sforall is_kept_char (Py.re_sub_unsafe s) = true.
Proof.
  unfold Py.re_sub_unsafe. apply sforall_smap. intros c.
  fold (is_kept_char c). destruct (is_kept_char c) eqn:H; [exact H | reflexivity].
Qed.

Lemma re_sub_unsafe_safe (s : string) :
  Py.sforall Py.is_ascii s = true ->
  Py.sforall Py.is_safe_char (Py.re_sub_unsafe s) = true.
Proof.
  unfold Py.re_sub_unsafe. apply sforall_smap_from. intros c Ha.
  fold (is_kept_char c). destruct (is_kept_char c) eqn:H;
    [now apply kept_ascii_is_safe | reflexivity].
Qed.

Lemma sforall_take (p : ascii -> bool) (n : nat) (s : string) :
  Py.sforall p s = true -> Py.sforall p (Py.take n s) = true.
Proof.
  revert s. induction n as [|n IH]; intros [|c s]; simpl; try reflexivity.
  intros H. apply andb_true_iff in H as [Hc Hs]. now rewrite Hc, IH.
Qed.

Lemma sforall_lstrip (p : ascii -> bool) (s : string) :
  Py.sforall p s = true -> Py.sforall p (Py.lstrip s) = true.
Proof.
  induction s as [|c s IH]; simpl; [reflexivity|].
  intros H. destruct (Py.is_space c); [|exact H].
  apply andb_true_iff in H as [_ Hs]. now apply IH.
Qed.

Lemma sforall_rstrip (p : ascii -> bool) (s : string) :
  Py.sforall p s = true -> Py.sforall p (Py.rstrip s) = true.
Proof.
  induction s as [|c s IH]; simpl; [reflexivity|].
  intros H. apply andb_true_iff in H as [Hc Hs]. specialize (IH Hs).
  destruct (Py.rstrip s) as [|c' r].
  - destruct (Py.is_space c); simpl; [reflexivity | now rewrite Hc].
  - simpl in *. now rewrite Hc, IH.
Qed.

Lemma stem_ascii (name : string) :
  Py.sforall Py.is_ascii name = true ->
  Py.sforall Py.is_ascii (PurePath.stem name) = true.
Proof.
  intros H. unfold PurePath.stem.
  destruct (PurePath.rfind_dot name) as [i|]; [|exact H].
  destruct (_ && _); [now apply sforall_take | exact H].
Qed.

Lemma take_length_pos (i : nat) (s : string) :
  0 < i -> s <> "" -> Py.take i s <> "".
Proof. destruct i, s; simpl; intros; try lia; congruence. Qed.

Lemma stem_nonempty (name : string) : name <> "" -> PurePath.stem name <> "".
Proof.
  intros H. unfold PurePath.stem.
  destruct (PurePath.rfind_dot name) as [i|]; [|exact H].
  destruct (Nat.ltb 0 i) eqn:Hi; simpl; [|exact H].
  destruct (Nat.ltb i _); [|exact H].
  apply take_length_pos; [now apply Nat.ltb_lt | exact H].
Qed.

Lemma sforall_list (p : ascii -> bool) (l : list ascii) :
  Py.sforall p (string_of_list_ascii l) = forallb p l.
Proof. induction l as [|c l IH]; simpl; [reflexivity | now rewrite IH]. Qed.

Lemma length_list (l : list ascii) :
  String.length (string_of_list_ascii l) = List.length l.
Proof. induction l as [|c l IH]; simpl; [reflexivity | now rewrite IH]. Qed.

(** The words found are runs of at least four ASCII letters. *)
Lemma scan_words_letters (s : string) :
  forall run ok w,
    (ok = true -> forallb Py.is_az_letter run = true) ->
    In w (Py.scan_words s run ok) ->
    Py.sforall Py.is_az_letter w = true /\ 4 <= String.length w.
Proof.
  assert (Hclose : forall run ok rest w,
             (ok = true -> forallb Py.is_az_letter run = true) ->
             In w (if ok && Nat.leb 4 (List.length run)
                   then string_of_list_ascii (List.rev run) :: rest else rest) ->
             (Py.sforall Py.is_az_letter w = true /\ 4 <= String.length w)
             \/ In w rest).
  { intros run ok rest w Hok Hin.
    destruct (ok && Nat.leb 4 (List.length run)) eqn:Hc; [|now right].
    destruct Hin as [<-|Hin]; [left | now right].
    apply andb_true_iff in Hc as [-> Hlen]. apply Nat.leb_le in Hlen.
    specialize (Hok eq_refl). split.
    - rewrite sforall_list. apply forallb_forall. intros x Hx.
      apply in_rev in Hx. revert x Hx. now apply forallb_forall.
    - now rewrite length_list, length_rev. }
  induction s as [|c s IH]; intros run ok w Hok Hin; simpl in Hin.
  - destruct (Hclose run ok [] w Hok Hin) as [H|[]]; exact H.
  - destruct (Py.is_word c).
    + apply (IH (c :: run) (ok && Py.is_az_letter c) w); [|exact Hin].
      intros H. apply andb_true_iff in H as [H1 H2]. simpl.
      now rewrite H2, (Hok H1).
    + destruct (Hclose run ok _ w Hok Hin) as [H|H]; [exact H|].
      apply (IH [] true w); [reflexivity | exact H].
Qed.

Lemma lower_word_char_is_safe (c : ascii) :
  Py.is_az_letter c || Ascii.eqb c "_" = true ->
  Py.is_safe_char (Py.lower_char c) = true.
Proof.
  destruct c as [[] [] [] [] [] [] [] []]; intros H;
    first [ reflexivity | discriminate H ].
Qed.

Lemma sforall_weaken (p q : ascii -> bool) (s : string) :
  (forall c, p c = true -> q c = true) ->
  Py.sforall p s = true -> Py.sforall q s = true.
Proof.
  intros H. induction s as [|c s IH]; simpl; [reflexivity|].
  intros Hp. apply andb_true_iff in Hp as [Hc Hs]. now rewrite (H c Hc), IH.
Qed.

Lemma sforall_join (p : ascii -> bool) (sep : string) (l : list string) :
  Py.sforall p sep = true ->
  (forall w, In w l -> Py.sforall p w = true) ->
  Py.sforall p (Py.join sep l) = true.
Proof.
  intros Hsep. induction l as [|w l IH]; intros Hl; [reflexivity|].
  assert (Hw : Py.sforall p w = true) by (apply Hl; now left).
  assert (Hr : Py.sforall p (Py.join sep l) = true)
    by (apply IH; intros x Hx; apply Hl; now right).
  destruct l as [|w' l]; [exact Hw|].
  change (Py.join sep (w :: w' :: l)) with (w ++ sep ++ Py.join sep (w' :: l))%string.
  now rewrite !sforall_app, Hw, Hsep, Hr.
Qed.

Lemma join_length (sep w : string) (l : list string) :
  String.length w <= String.length (Py.join sep (w :: l)).
Proof.
  destruct l as [|w' l]; [simpl; lia|].
  change (Py.join sep (w :: w' :: l)) with (w ++ sep ++ Py.join sep (w' :: l))%string.
  rewrite append_length. lia.
Qed.

Lemma in_firstn {A} (n : nat) (x : A) (l : list A) : In x (firstn n l) -> In x l.
Proof.
  intros H. rewrite <- (firstn_skipn n l). apply in_or_app. now left.
Qed.

(** The name made of a document's words matches the pattern. *)
Lemma words_name_safe (content : string) :
  2 <= List.length (Py.findall_words content) ->
  matches_safe (Py.lower (Py.join "_" (firstn 3 (Py.findall_words content)))) = true.
Proof.
  intros Hlen.
  assert (Hw : forall w, In w (firstn 3 (Py.findall_words content)) ->
                         Py.sforall Py.is_az_letter w = true /\ 4 <= String.length w).
  { intros w Hin. apply in_firstn in Hin.
    apply (scan_words_letters content [] true w); [reflexivity | exact Hin]. }
  unfold matches_safe. apply andb_true_iff. split.
  - apply truthy_length. unfold Py.lower. rewrite smap_length.
    destruct (Py.findall_words content) as [|w l]; [simpl in Hlen; lia|].
    change (firstn 3 (w :: l)) with (w :: firstn 2 l) in *.
    pose proof (join_length "_" w (firstn 2 l)).
    destruct (Hw w) as [_ H4]; [now left | lia].
  - unfold Py.lower.
    apply sforall_smap_from
      with (q := fun c => Py.is_az_letter c || Ascii.eqb c "_").
    + apply lower_word_char_is_safe.
    + apply sforall_join; [reflexivity|].
      intros w Hin. destruct (Hw w Hin) as [Hl _].
      revert Hl. apply sforall_weaken. intros c Hc. now rewrite Hc.
Qed.

Lemma re_sub_unsafe_matches (s : string) :
  s <> "" -> Py.sforall Py.is_ascii s = true ->
  matches_safe (Py.re_sub_unsafe s) = true.
Proof.
  intros Hne Ha. unfold matches_safe. apply andb_true_iff. split.
  - apply truthy_length. unfold Py.re_sub_unsafe. rewrite smap_length.
    destruct s; [congruence | simpl; lia].
  - now apply re_sub_unsafe_safe.
Qed.

(** Without a photo date, the name found without the collaborator for
    an ASCII file name matches the pattern. *)
Lemma name_without_ai_safe (name : string) (md : metadata) (content : string) :
  name <> "" -> Py.sforall Py.is_ascii name = true -> md_photo_date md = None ->
  matches_safe (name_without_ai name md content) = true.
Proof.
  intros Hne Ha Hp. unfold name_without_ai. rewrite Hp.
  assert (Hstem : matches_safe (Py.re_sub_unsafe (PurePath.stem name)) = true).
  { apply re_sub_unsafe_matches; [now apply stem_nonempty | now apply stem_ascii]. }
  destruct (Py.truthy content && _ && _) eqn:Hc.
  - apply andb_true_iff in Hc as [_ Hlen]. apply Nat.leb_le in Hlen.
    exact (words_name_safe (Py.take 200 content) Hlen).
  - match goal with
    | |- matches_safe (if ?c then _ else _) = true => destruct c
    end; exact Hstem.
Qed.

Lemma safe_is_kept (c : ascii) :
  Py.is_safe_char c = true -> is_kept_char c = true.
Proof.
  destruct c as [[] [] [] [] [] [] [] []]; intros H;
    first [ reflexivity | discriminate H ].
Qed.

(** Without a photo date, whatever the file name, the name found
    without the collaborator is made of the characters that the
    sanitising substitution keeps. *)
Lemma name_without_ai_kept (name : string) (md : metadata) (content : string) :
  md_photo_date md = None ->
  Py.sforall is_kept_char (name_without_ai name md content) = true.
Proof.
  intros Hp. unfold name_without_ai. rewrite Hp.
  destruct (Py.truthy content && _ && _) eqn:Hc.
  - apply andb_true_iff in Hc as [_ Hlen]. apply Nat.leb_le in Hlen.
    pose proof (words_name_safe (Py.take 200 content) Hlen) as H.
    unfold matches_safe in H. apply andb_true_iff in H as [_ H].
    revert H. apply sforall_weaken, safe_is_kept.
  - match goal with
    | |- Py.sforall _ (if ?c then _ else _) = true => destruct c
    end; apply re_sub_unsafe_kept.
Qed.

(** C3, amended. [generate_smart_filename] always returns a name.
    Unless that name is the one built from the photo date of the
    metadata, it is made only of word characters in Python's sense,
    hyphens and underscores; when moreover the file name is ASCII and
    not empty and the collaborator (if any) replies in ASCII, the name
    matches [^[A-Za-z0-9_-]+$]. *)
Theorem generated_name_matches_pattern
        (p : path) (md : metadata) (content : string) (w : world) :
  exists new_name,
    outcome (generate_smart_filename p md content) w = Ok new_name
    /\ ((forall date,
            md_photo_date md = Some date ->
            new_name
            <> ("photo_" ++ Py.replace_char " " "_" (Py.remove_char ":" date))%string) ->
        Py.sforall is_kept_char new_name = true
        /\ (path_name p <> "" ->
            Py.sforall Py.is_ascii (path_name p) = true ->
            (forall client n stem suffix preview reply,
                w_ai_client w = Some client ->
                client n stem suffix preview = AiReply reply ->
                Py.sforall Py.is_ascii reply = true) ->
            matches_safe new_name = true)).
Proof.
  set (good := fun new_name : string =>
         Py.sforall is_kept_char new_name = true
         /\ (path_name p <> "" ->
             Py.sforall Py.is_ascii (path_name p) = true ->
             (forall client n stem suffix preview reply,
                 w_ai_client w = Some client ->
                 client n stem suffix preview = AiReply reply ->
                 Py.sforall Py.is_ascii reply = true) ->
             matches_safe new_name = true)).
  set (other := fun new_name : string =>
         forall date,
           md_photo_date md = Some date ->
           new_name
           <> ("photo_" ++ Py.replace_char " " "_" (Py.remove_char ":" date))%string).
  cut (forall r, outcome (generate_smart_filename p md content) w = r ->
                 exists new_name, r = Ok new_name /\ (other new_name -> good new_name)).
  { intros H. exact (H _ eq_refl). }
  intros r <-.
  assert (Hfall : exists new_name,
             Ok (name_without_ai (path_name p) md content) = Ok new_name
             /\ (other new_name -> good new_name)).
  { eexists. split; [reflexivity|]. intros Hother.
    destruct (md_photo_date md) as [date|] eqn:Hp.
    - exfalso. apply (Hother date eq_refl).
      unfold name_without_ai. now rewrite Hp.
    - split; [now apply name_without_ai_kept|].
      intros Hne Ha _. now apply name_without_ai_safe. }
  unfold outcome, generate_smart_filename, analyze_content_with_ai, bind, get,
    modify, log, ret.
  destruct (Py.truthy content && is_some (w_ai_client w)); [|exact Hfall].
  destruct (w_ai_client w) as [client|] eqn:Hc; [|exact Hfall].
  destruct (client (w_ai_calls w) _ _ _) as [reply|msg] eqn:Hr.
  - cbv beta iota.
    destruct (Py.truthy _ && Nat.ltb 3 _) eqn:Hlen; [|exact Hfall].
    eexists. split; [reflexivity|]. intros _.
    split; [apply re_sub_unsafe_kept|].
    intros _ _ Hclient.
    apply andb_true_iff in Hlen as [Ht _].
    unfold matches_safe. rewrite Ht. simpl.
    apply re_sub_unsafe_safe. unfold Py.strip.
    apply sforall_rstrip, sforall_lstrip.
    now apply (Hclient client _ _ _ _ reply eq_refl Hr).
  - destruct (classify_ai_error msg); exact Hfall.
Qed.

Lemma generated_name_matches_pattern_witness :
  exists new_name,
    outcome (generate_smart_filename ["my report (1).txt"]
               (metadata_of "my report (1).txt" (text_file "x")) "")
            (fresh_world []) = Ok new_name
    /\ matches_safe new_name = true.
Proof.
  destruct (generated_name_matches_pattern
              ["my report (1).txt"]
              (metadata_of "my report (1).txt" (text_file "x")) ""
              (fresh_world []))
    as [new_name [Ho Hgood]].
  exists new_name. split; [exact Ho|].
  destruct Hgood as [_ Hs].
  - intros date Hd. discriminate Hd.
  - apply Hs; [discriminate | reflexivity |].
    intros client n stem suffix preview reply H. discriminate H.
Defined.

(* ----------------------------------------------------------------- *)
(** ** A rename that is counted and not made *)

Lemma file_at_dir (r : rootdir) (d n : string) (f : file) :
  file_at r [d; n] = Some f -> exists es, lookup_dir r d = Some es.
Proof.
  unfold file_at. destruct (lookup_dir r d) as [es|]; [|discriminate].
  intros _. now exists es.
Qed.

Lemma lookup_dir_assoc (r : rootdir) (d : string) (es : dir) :
  lookup_dir r d = Some es -> assoc d r = Some (RDir es).
Proof.
  unfold lookup_dir. destruct (assoc d r) as [[f|es']|]; try discriminate.
  now intros [= ->].
Qed.

(** C10. In a live reconcile pass, when the recomputed file name differs
    from the current one and the conflict loop ends on the file's own
    path, the file is counted as renamed (and as moved when its category
    is taken to have changed), although nothing is moved and no line is
    added to the action log. *)
Theorem self_collision_counts_a_rename
        (org_folder current_category file_name : string)
        (w w1 : world) (f : file) (new_name new_filename : string) :
  let file_path := [org_folder; file_name] in
  let suffix := PurePath.suffix file_name in
  let new_category := snd (file_type true suffix (f_mime f)) in
  let needs_category_move := negb (String.eqb new_category current_category) in
  let new_dest_folder :=
    if needs_category_move then organized_name new_category else org_folder in
  file_at (w_root w) file_path = Some f ->
  is_system_file (w_root w) file_path = false ->
  f_stat_ok f = true ->
  generate_smart_filename file_path (metadata_of file_name f)
    (content_of file_name (Some f))
    (add_event (LogReanalyzing file_name)
               (set_stats (count_processed (w_stats w)) w))
  = (w1, Ok new_name) ->
  (new_name ++ suffix)%string <> file_name ->
  conflict_loop (loop_bound (w_root w) new_dest_folder)
                (busy_reanalyze (w_root w) new_dest_folder file_path)
                new_name suffix (new_name ++ suffix) 1 = Some new_filename ->
  [new_dest_folder; new_filename] = file_path ->
  let w' := exec (reanalyze_file false org_folder current_category file_name) w in
  outcome (reanalyze_file false org_folder current_category file_name) w = Ok tt
  /\ w_root w' = w_root w
  /\ w_actions w' = w_actions w
  /\ files_renamed (w_stats w') = S (files_renamed (w_stats w))
  /\ files_moved (w_stats w')
     = files_moved (w_stats w) + (if needs_category_move then 1 else 0).
Proof.
  intros file_path suffix new_category ncm new_dest_folder
         Hf Hsys Hstat Hgen Hname Hloop Hself w'.
  subst file_path.
  destruct (generate_smart_filename_run [org_folder; file_name]
              (metadata_of file_name f)
              (content_of file_name (Some f))
              (add_event (LogReanalyzing file_name)
                         (set_stats (count_processed (w_stats w)) w)))
    as [n' [w1' [Hg [Hr [Ha [Hs _]]]]]].
  rewrite Hgen in Hg. injection Hg as <- <-.
  cbn [w_root w_actions w_stats set_stats add_event] in Hr, Ha, Hs.
  assert (Hd : new_dest_folder = org_folder /\ new_filename = file_name).
  { now injection Hself. }
  destruct Hd as [Hd Hn]. subst new_filename.
  destruct (file_at_dir _ _ _ _ Hf) as [es Hes].
  assert (Hrun : reanalyze_file false org_folder current_category file_name w
                 = (set_stats
                      ((if Nat.ltb (String.length (PurePath.stem file_name) + 5)
                                   (String.length new_name)
                        then count_ai_improvement else fun s => s)
                         (count_renamed
                            ((if ncm then count_moved else fun s => s)
                               (w_stats w1)))) w1, Ok tt)).
  { unfold reanalyze_file.
    rewrite bind_bump, bind_get. cbn [w_root set_stats]. rewrite Hsys.
    rewrite bind_log, bind_get_file_type, bind_extract_metadata.
    cbn [w_root set_stats add_event path_name last]. rewrite Hf, Hstat.
    rewrite bind_read_file_content.
    cbn [w_root set_stats add_event path_name last]. rewrite Hf.
    rewrite (exec_bind _ _ _ _ _ Hgen).
    fold suffix new_category. fold ncm.
    assert (Hren : negb (String.eqb (new_name ++ suffix) file_name) = true).
    { apply negb_true_iff. now apply String.eqb_neq. }
    rewrite Hren, orb_true_r. fold new_dest_folder.
    assert (Hmk : forall (k : unit -> M unit),
               bind (when ncm (mkdir_exist_ok (organized_name new_category))) k w1
               = k tt w1).
    { intros k. rewrite bind_when. destruct ncm eqn:Hncm; [|reflexivity].
      rewrite bind_mkdir_exist_ok, Hr.
      unfold new_dest_folder in Hd. rewrite Hd.
      now rewrite (lookup_dir_assoc _ _ _ Hes). }
    rewrite Hmk, bind_get, Hr, Hloop.
    rewrite !bind_when.
    assert (Hp : path_eqb [new_dest_folder; file_name] [org_folder; file_name] = true).
    { apply path_eqb_eq. now rewrite Hd. }
    rewrite Hp. cbn [negb andb].
    destruct ncm; rewrite ?bind_bump; cbn [w_stats set_stats];
      destruct (Nat.ltb _ _); reflexivity. }
  unfold w', exec, outcome. rewrite Hrun. cbn [fst snd w_root w_actions w_stats set_stats].
  rewrite Hr, Ha, Hs.
  destruct ncm, (Nat.ltb _ _); cbn; repeat split; lia.
Qed.

Lemma self_collision_counts_a_rename_witness :
  let w := fresh_world
             [("Organized_Documents",
               RDir [("hello_world.txt", File (text_file "hello world"));
                     ("hello_world_1.txt", File (text_file "hello world"))])] in
  let w' := exec (reanalyze_file false "Organized_Documents" "Documents"
                                 "hello_world_1.txt") w in
  w_root w' = w_root w
  /\ w_actions w' = w_actions w
  /\ files_renamed (w_stats w') = 1.
Proof.
  intros w w'.
  destruct (self_collision_counts_a_rename
              "Organized_Documents" "Documents" "hello_world_1.txt" w
              (add_event (LogReanalyzing "hello_world_1.txt")
                         (set_stats (count_processed (w_stats w)) w))
              (text_file "hello world") "hello_world" "hello_world_1.txt")
    as [_ [Hr [Ha [Hn _]]]];
    try reflexivity; try discriminate.
  repeat split; assumption.
Defined.

(* ----------------------------------------------------------------- *)
(** ** The dry run *)

(** C1 as stated fails: from a folder where a Python file sits among
    the documents, the dry run counts one processed file and the live
    run two, for the live run meets the file again in the folder it
    moved it to. *)
Lemma dry_run_counts_differ_from_live :
  let w := fresh_world
             [ ("Organized_Documents", RDir [("a.py", File (text_file "import x"))]);
               ("Organized_Code", RDir []) ] in
  outcome (reanalyze_organized_files true true) w = Ok (Some (mkStats 1 0 1 0))
  /\ outcome (reanalyze_organized_files true false) w = Ok (Some (mkStats 2 0 1 0)).
Proof. split; reflexivity. Qed.

Lemma bind_assoc {A B C} (m : M A) (f : A -> M B) (g : B -> M C) (w : world) :
  bind (bind m f) g w = bind m (fun a => bind (f a) g) w.
Proof. unfold bind. now destruct (m w) as [w' [a|e]]. Qed.

Lemma bind_shutil_move {B} (src : path) (d n : string) (k : unit -> M B) (w : world) :
  bind (shutil_move src d n) k w
  = match file_at (w_root w) src with
    | None => (w, Raised FileNotFoundError)
    | Some f =>
        if negb (f_movable f) then (w, Raised PermissionError)
        else if Py.contains "/" n then (w, Raised FileNotFoundError)
        else if negb (is_some (lookup_dir (w_root w) d))
             then (w, Raised FileNotFoundError)
             else k tt (set_root (place d n f (unlink src (w_root w))) w)
    end.
Proof.
  unfold shutil_move. rewrite bind_assoc, bind_get.
  destruct (file_at (w_root w) src) as [f|]; [|reflexivity].
  destruct (negb (f_movable f)); [reflexivity|].
  destruct (Py.contains "/" n); [reflexivity|].
  now destruct (negb (is_some (lookup_dir (w_root w) d))).
Qed.

Lemma bind_save_action_log {B} (a : log_entry) (k : unit -> M B) (w : world) :
  bind (save_action_log a) k w
  = if w_log_writable w then k tt (set_actions (w_actions w ++ [a]) w)
    else (w, Raised PermissionError).
Proof.
  unfold save_action_log. rewrite bind_assoc, bind_get.
  now destruct (w_log_writable w).
Qed.

Lemma all_files_new_dir (r : rootdir) (name : string) :
  all_files (r ++ [(name, RDir [])]) = all_files r.
Proof. unfold all_files. rewrite flat_map_app. simpl. now rewrite app_nil_r. Qed.

(** Making a category folder adds no file and logs no action. *)
Lemma mkdir_exist_ok_keeps_files (F : list (path * file)) (A : list log_entry)
      (name : string) :
  preserves (fun w => all_files (w_root w) = F /\ w_actions w = A)
            (mkdir_exist_ok name).
Proof.
  unfold mkdir_exist_ok. preserves_tac.
  apply preserves_modify. intros w1 [H1 H2]. simpl.
  rewrite all_files_new_dir. destruct H as [H _]. now rewrite H.
Qed.

(** The dry run of the whole pass keeps every file and the action log. *)
Lemma dry_run_keeps_files (F : list (path * file)) (A : list log_entry)
      (folder_exists : bool) :
  preserves (fun w => all_files (w_root w) = F /\ w_actions w = A)
            (reanalyze_organized_files folder_exists true).
Proof.
  unfold reanalyze_organized_files, reanalyze_folder, reanalyze_loop,
    reanalyze_file.
  frame_with ltac:(apply mkdir_exist_ok_keeps_files).
Qed.

Lemma when_mkdir_run (c : bool) (name : string) (w : world) :
  (exists w2, forall B (k : unit -> M B),
        bind (when c (mkdir_exist_ok name)) k w = k tt w2)
  \/ (forall B (k : unit -> M B),
         bind (when c (mkdir_exist_ok name)) k w = (w, Raised FileExistsError)).
Proof.
  destruct c.
  - destruct (assoc name (w_root w)) as [[f|es]|] eqn:Ha.
    + right. intros B k. now rewrite bind_when, bind_mkdir_exist_ok, Ha.
    + left. exists w. intros B k. now rewrite bind_when, bind_mkdir_exist_ok, Ha.
    + left. eexists. intros B k. rewrite bind_when, bind_mkdir_exist_ok, Ha.
      reflexivity.
  - left. exists w. intros B k. now rewrite bind_when.
Qed.

(** What follows the counting of the change: the preview in a dry run,
    some action [m] in a live run, and then the count of improvements.
    The counters agree when [m] leaves them alone and does not raise. *)
Lemma preview_counts_like_action (m : M unit) (e : event) (c : bool) (w : world) :
  preserves (fun w' => w_stats w' = w_stats w) m ->
  snd (bind m (fun _ => when c (bump count_ai_improvement)) w) = Ok tt ->
  w_stats (fst (bind (log e) (fun _ => when c (bump count_ai_improvement)) w))
  = w_stats (fst (bind m (fun _ => when c (bump count_ai_improvement)) w)).
Proof.
  intros Hm. specialize (Hm w eq_refl). unfold exec in Hm.
  rewrite bind_log. unfold bind.
  destruct (m w) as [w' [[]|x]]; simpl in *; [|discriminate].
  intros _. destruct c; simpl; now rewrite Hm.
Qed.

(** From the same world, the dry-run handling of a file leaves the
    counters as the live handling does, unless the live handling raises. *)
Lemma dry_run_counts_like_live_file (org_folder current_category file_name : string)
      (w : world) :
  outcome (reanalyze_file false org_folder current_category file_name) w = Ok tt ->
  w_stats (exec (reanalyze_file true org_folder current_category file_name) w)
  = w_stats (exec (reanalyze_file false org_folder current_category file_name) w).
Proof.
  unfold outcome, exec, reanalyze_file.
  rewrite !bind_bump, !bind_get. cbn [w_root set_stats].
  destruct (is_system_file (w_root w) [org_folder; file_name]); [reflexivity|].
  rewrite !bind_log, !bind_get_file_type, !bind_extract_metadata.
  cbn [w_root set_stats add_event path_name last].
  destruct (file_at (w_root w) [org_folder; file_name]) as [f|] eqn:Hf;
    [|reflexivity].
  destruct (f_stat_ok f); [|reflexivity].
  rewrite !bind_read_file_content.
  match goal with
  | |- context [bind (generate_smart_filename ?p ?md ?c) _ ?w0] =>
      destruct (generate_smart_filename_run p md c w0)
        as [new_name [w1 [Hg _]]]
  end.
  rewrite !(exec_bind _ _ _ _ _ Hg).
  set (new_category := snd (file_type true (PurePath.suffix file_name) (f_mime f))).
  set (ncm := negb (String.eqb new_category current_category)).
  set (nr := negb (String.eqb (new_name ++ PurePath.suffix file_name) file_name)).
  destruct (ncm || nr); [|reflexivity].
  destruct (when_mkdir_run ncm (organized_name new_category) w1)
    as [[w2 Hmk]|Hmk]; rewrite !Hmk; [|reflexivity].
  rewrite !bind_get.
  destruct (conflict_loop _ _ _ _ _ _) as [new_filename|]; [|reflexivity].
  rewrite !(bind_when ncm), !(bind_when nr).
  destruct ncm, nr; rewrite ?bind_bump;
    apply preview_counts_like_action; frame_tac.
Qed.

(** C1, amended. A dry run of the reconcile pass leaves every file
    where and as it is and adds no line to the action log; and from the
    same world the dry-run handling of one file changes the four
    counters exactly as its live handling does, provided that the live
    handling does not raise.  (Over a whole pass the counters can still
    differ, because the files moved by a live run are met again.) *)
Theorem dry_run_previews_without_moving :
  (forall folder_exists w,
      let w' := exec (reanalyze_organized_files folder_exists true) w in
      all_files (w_root w') = all_files (w_root w)
      /\ w_actions w' = w_actions w)
  /\ (forall org_folder current_category file_name w,
         outcome (reanalyze_file false org_folder current_category file_name) w
         = Ok tt ->
         w_stats (exec (reanalyze_file true org_folder current_category file_name) w)
         = w_stats (exec (reanalyze_file false org_folder current_category file_name) w)).
Proof.
  split.
  - intros fe w.
    exact (dry_run_keeps_files (all_files (w_root w)) (w_actions w) fe w
                               (conj eq_refl eq_refl)).
  - apply dry_run_counts_like_live_file.
Qed.

Lemma dry_run_previews_without_moving_witness :
  let w := fresh_world
             [ ("Organized_Documents", RDir [("a.py", File (text_file "import x"))]);
               ("Organized_Code", RDir []) ] in
  w_stats (exec (reanalyze_file true "Organized_Documents" "Documents" "a.py") w)
  = w_stats (exec (reanalyze_file false "Organized_Documents" "Documents" "a.py") w)
  /\ w_root (exec (reanalyze_file false "Organized_Documents" "Documents" "a.py") w)
     = [ ("Organized_Documents", RDir []);
         ("Organized_Code", RDir [("a.py", File (text_file "import x"))]) ].
Proof.
  intros w. split; [|reflexivity].
  apply (proj2 dry_run_previews_without_moving). reflexivity.
Defined.

(* ----------------------------------------------------------------- *)
(** ** Running the reconcile pass twice *)

(** C2 as stated fails, in two ways.  Two documents in one category
    folder: the first pass has to give [a.txt] a conflict suffix,
    because the name it wants is still held by the other file, which
    the same pass then renames.  The second pass, with nothing changed
    in between and no collaborator, finds the name free, renames the
    file for good and reports it.  And a file that cannot be moved: its
    rename is counted before the move fails, by the first pass and by
    the second. *)
Lemma second_pass_still_renames :
  (let w := fresh_world
              [("Organized_Documents",
                RDir [("a.txt", File (text_file "hello world"));
                      ("hello_world.txt", File (text_file "other words here"))])] in
   let w1 := exec (reanalyze_organized_files true false) w in
   let w2 := exec (reanalyze_organized_files true false) w1 in
   w_ai_client w = None
   /\ w_root w1
      = [("Organized_Documents",
          RDir [("hello_world_1.txt", File (text_file "hello world"));
                ("other_words_here.txt", File (text_file "other words here"))])]
   /\ outcome (reanalyze_organized_files true false) w1
      = Ok (Some (mkStats 2 1 0 0))
   /\ w_root w2
      = [("Organized_Documents",
          RDir [("other_words_here.txt", File (text_file "other words here"));
                ("hello_world.txt", File (text_file "hello world"))])])
  /\ (let w := fresh_world
                 [("Organized_Documents",
                   RDir [("my notes.txt", File (locked_file "hello world"))])] in
      let w1 := exec (reanalyze_organized_files true false) w in
      w_ai_client w = None
      /\ w_root w1 = w_root w
      /\ w_events w1 = [LogReanalyzing "my notes.txt"; LogError "my notes.txt"]
      /\ outcome (reanalyze_organized_files true false) w1
         = Ok (Some (mkStats 1 1 0 0))).
Proof. repeat split; reflexivity. Qed.

Lemma generate_smart_filename_off (p : path) (md : metadata) (c : string) (w : world) :
  w_ai_client w = None ->
  generate_smart_filename p md c w = (w, Ok (name_without_ai (path_name p) md c)).
Proof.
  intros H. unfold generate_smart_filename. rewrite bind_get, H.
  now rewrite andb_false_r.
Qed.

Lemma organized_folders_names (r : rootdir) (d : string) :
  In d (organized_folders r) -> In d (map fst r).
Proof.
  unfold organized_folders. intros H. apply in_flat_map in H.
  destruct H as [[k e] [Hin Hd]]. simpl in Hd.
  destruct e as [f|es]; [destruct Hd|].
  destruct (Py.startswith organized_prefix k); [|destruct Hd].
  destruct Hd as [<-|[]]. apply in_map_iff. now exists (k, RDir es).
Qed.

(** In a folder without two entries of one name, every listed category
    folder can be opened. *)
Lemma organized_folders_dir (r : rootdir) (d : string) :
  NoDup (map fst r) -> In d (organized_folders r) ->
  exists es, lookup_dir r d = Some es.
Proof.
  unfold lookup_dir.
  induction r as [|[k e] r IH]; intros Hnd H; [destruct H|].
  inversion Hnd as [|? ? Hk Hnd']; subst.
  change (organized_folders ((k, e) :: r))
    with (match e with
          | RDir _ => if Py.startswith organized_prefix k then [k] else []
          | RFile _ => []
          end ++ organized_folders r) in H.
  apply in_app_or in H. destruct H as [H|H].
  - destruct e as [f|es]; [destruct H|].
    destruct (Py.startswith organized_prefix k); [|destruct H].
    destruct H as [<-|[]]. exists es. simpl. now rewrite String.eqb_refl.
  - destruct (IH Hnd' H) as [es He]. exists es. simpl.
    destruct (String.eqb_spec d k) as [->|Hne]; [|exact He].
    exfalso. apply Hk. now apply organized_folders_names.
Qed.

Lemma quiet_turn (r : rootdir) (A : list log_entry) (org_folder file_name : string)
      (w : world) :
  settled_file r org_folder file_name = true ->
  quiet r A w ->
  quiet r A (exec (try_except
                     (reanalyze_file false org_folder
                        (Py.remove_all organized_prefix org_folder) file_name)
                     (fun _ => log (LogError file_name))) w).
Proof.
  intros Hs [Hr [Ha [Hc [H1 [H2 H3]]]]].
  unfold exec, reanalyze_file.
  rewrite (exec_try_bind _ _ _ _ (set_stats (count_processed (w_stats w)) w) tt eq_refl).
  rewrite exec_try_get. cbn [w_root set_stats]. rewrite Hr.
  unfold settled_file in Hs. revert Hs.
  destruct (is_system_file r [org_folder; file_name]).
  { intros _. cbn. repeat split; assumption. }
  rewrite orb_false_l.
  rewrite (exec_try_bind _ _ _ _ _ tt
             (eq_refl : log (LogReanalyzing file_name) _ = (_, Ok tt))).
  rewrite (exec_try_bind _ _ _ _ _ _ (get_file_type_run _ _)).
  cbn [w_root set_stats add_event path_name last]. rewrite Hr.
  unfold try_except at 1. rewrite bind_extract_metadata.
  cbn [w_root set_stats add_event path_name last]. rewrite Hr.
  destruct (file_at r [org_folder; file_name]) as [f|] eqn:Hf.
  2:{ intros _. cbn. repeat split; assumption. }
  destruct (f_stat_ok f).
  2:{ intros _. cbn. repeat split; assumption. }
  cbn [negb orb]. intros Hs.
  apply andb_true_iff in Hs as [Hcat Hname].
  rewrite bind_read_file_content.
  cbn [w_root set_stats add_event path_name last]. rewrite Hr, Hf.
  rewrite (exec_bind _ _ _ _ _
             (generate_smart_filename_off _ _ _ (add_event _ (set_stats _ w)) Hc)).
  cbn [path_name last]. rewrite Hcat, Hname.
  cbn. repeat split; assumption.
Qed.

Lemma for_each_outcome {A} (x : A) (l : list A) (body : A -> M unit) (w : world) :
  outcome (body x) w = Ok tt ->
  outcome (for_each (x :: l) body) w = outcome (for_each l body) (exec (body x) w).
Proof.
  unfold outcome, exec. simpl. unfold bind.
  destruct (body x w) as [w' [[]|e]]; simpl; [reflexivity | discriminate].
Qed.

Lemma quiet_loop (r : rootdir) (A : list log_entry) (org_folder : string)
      (files : list string) :
  (forall n, In n files -> settled_file r org_folder n = true) ->
  forall w,
    quiet r A w ->
    quiet r A (exec (reanalyze_loop false org_folder
                       (Py.remove_all organized_prefix org_folder) files) w).
Proof.
  unfold reanalyze_loop.
  induction files as [|n files IH]; intros Hs w Hq; [exact Hq|].
  rewrite for_each_exec by apply try_except_log_ok.
  apply IH; [intros m Hm; apply Hs; now right|].
  apply quiet_turn; [apply Hs; now left | exact Hq].
Qed.

Lemma quiet_folders (r : rootdir) (A : list log_entry) :
  NoDup (map fst r) -> settled r ->
  forall folders,
    incl folders (organized_folders r) ->
    forall w,
      quiet r A w ->
      outcome (for_each folders (reanalyze_folder false)) w = Ok tt
      /\ quiet r A (exec (for_each folders (reanalyze_folder false)) w).
Proof.
  intros Hnd Hset.
  induction folders as [|d folders IH]; intros Hincl w Hq; [now split|].
  assert (Hd : In d (organized_folders r)) by (apply Hincl; now left).
  destruct (organized_folders_dir r d Hnd Hd) as [es Hes].
  assert (Hrun : reanalyze_folder false d w
                 = reanalyze_loop false d (Py.remove_all organized_prefix d)
                                  (dir_files es) w).
  { unfold reanalyze_folder. rewrite bind_get.
    destruct Hq as [-> _]. now rewrite Hes. }
  assert (Hok : outcome (reanalyze_folder false d) w = Ok tt).
  { unfold outcome. rewrite Hrun. apply reanalyze_loop_ok. }
  assert (Hq' : quiet r A (exec (reanalyze_folder false d) w)).
  { unfold exec. rewrite Hrun. apply quiet_loop; [|exact Hq].
    intros n Hn. now apply (Hset d es n). }
  destruct (IH (fun x Hx => Hincl x (or_intror Hx)) _ Hq') as [Ho Hq''].
  rewrite for_each_exec, for_each_outcome by exact Hok. now split.
Qed.

(** On a settled folder, without the collaborator, the live pass
    changes nothing and reports neither a rename nor a move. *)
Lemma settled_pass_is_quiet (w : world) :
  w_ai_client w = None ->
  NoDup (map fst (w_root w)) ->
  settled (w_root w) ->
  let w' := exec (reanalyze_organized_files true false) w in
  w_root w' = w_root w
  /\ w_actions w' = w_actions w
  /\ (outcome (reanalyze_organized_files true false) w = Ok None
      \/ exists st,
          outcome (reanalyze_organized_files true false) w = Ok (Some st)
          /\ files_renamed st = 0 /\ files_moved st = 0).
Proof.
  intros Hc Hnd Hset. unfold exec, outcome, reanalyze_organized_files.
  cbn [negb]. cbv iota. rewrite bind_get.
  destruct (organized_folders (w_root w)) as [|d folders] eqn:Hf.
  { cbn. split; [reflexivity|]. split; [reflexivity|]. now left. }
  rewrite bind_modify.
  destruct (quiet_folders (w_root w) (w_actions w) Hnd Hset (d :: folders)
              ltac:(rewrite Hf; apply incl_refl) (set_stats zero_stats w))
    as [Ho [Hr [Ha [_ [H1 [H2 _]]]]]].
  { repeat split; try reflexivity. exact Hc. }
  unfold outcome, exec in *. unfold bind.
  destruct (for_each (d :: folders) (reanalyze_folder false) (set_stats zero_stats w))
    as [w' [[]|e]]; simpl in *; [|discriminate].
  split; [exact Hr|]. split; [exact Ha|]. right.
  exists (w_stats w'). repeat split; assumption.
Qed.


(* ----------------------------------------------------------------- *)
(** ** Scenarios of the unit tests *)

Example scenario_document_words :
  file_type true ".txt" (Some "text/plain") = ("text/plain", "Documents")
  /\ name_without_ai "sample.txt" (metadata_of "sample.txt" (text_file ""))
       "This is a sample document about machine learning algorithms."
     = "this_sample_document".
Proof. split; reflexivity. Qed.

Example scenario_photo_date :
  name_without_ai "photo.jpg"
    (metadata_of "photo.jpg" (photo_file "2024:07:15 14:30:22")) ""
  = "photo_20240715_143022".
Proof. reflexivity. Qed.

Example scenario_cleaned_original_name :
  name_without_ai "sample.txt" (metadata_of "sample.txt" (text_file "")) ""
  = "sample".
Proof. reflexivity. Qed.

(** Two files that both resolve to [report.pdf]: the second one lands
    as [report_1.pdf]. *)
Example scenario_conflict_suffix :
  let w := fresh_world
             [ ("report.pdf", RFile (mkFile false true None None None true));
               ("Organized_Documents",
                RDir [("report.pdf", File (mkFile false true None None None true))]) ] in
  lookup_dir (w_root (exec (organize_files_in_folder true) w)) "Organized_Documents"
  = Some [ ("report.pdf", File (mkFile false true None None None true));
           ("report_1.pdf", File (mkFile false true None None None true)) ].
Proof. reflexivity. Qed.

(** A Python file found among the documents goes to the code folder and
    is counted as moved, not as renamed. *)
Example scenario_category_change :
  let w := fresh_world
             [ ("Organized_Documents",
                RDir [("script.py", File (text_file "import numpy as np"))]) ] in
  let w' := exec (reanalyze_organized_files true false) w in
  outcome (reanalyze_organized_files true false) w = Ok (Some (mkStats 1 0 1 0))
  /\ w_root w'
     = [ ("Organized_Documents", RDir []);
         ("Organized_Code",
          RDir [("script.py", File (text_file "import numpy as np"))]) ]
  /\ map la_change_type (w_actions w') = [[ChCategory "Documents" "Code"]].
Proof. repeat split; reflexivity. Qed.

(** A message with [401] in it disables the client, an [API Error] does not. *)
Example scenario_error_classes :
  classify_ai_error "Error code: 401 - invalid_api_key" = InvalidKey
  /\ classify_ai_error "Error code: 429 - insufficient_quota" = Quota
  /\ classify_ai_error "The model gpt-3.5-turbo does not exist" = Model
  /\ classify_ai_error "API Error" = OtherError.
Proof. repeat split; reflexivity. Qed.

(* ----------------------------------------------------------------- *)
(** ** The API key format checks *)

Lemma contains_char (a : ascii) (s : string) :
  Py.contains (String a EmptyString) s = Py.sexists (Ascii.eqb a) s.
Proof.
  induction s as [|c s IH]; [reflexivity|].
  simpl. rewrite IH. destruct (ascii_dec a c) as [->|Hne].
  - rewrite Ascii.eqb_refl. now destruct s.
  - apply Ascii.eqb_neq in Hne. now rewrite Hne.
Qed.

Lemma remove_char_gone (a : ascii) (s : string) :
  Py.sexists (Ascii.eqb a) (Py.remove_char a s) = false.
Proof.
  induction s as [|c s IH]; [reflexivity|]. simpl.
  destruct (Ascii.eqb c a) eqn:E; [exact IH|].
  simpl. rewrite IH, Ascii.eqb_sym, E. reflexivity.
Qed.

Lemma remove_char_keeps_absent (p : ascii -> bool) (a : ascii) (s : string) :
  Py.sexists p s = false -> Py.sexists p (Py.remove_char a s) = false.
Proof.
  induction s as [|c s IH]; [reflexivity|]. simpl. intros H.
  apply orb_false_iff in H as [Hc Hs].
  destruct (Ascii.eqb c a); [now apply IH|]. simpl. now rewrite Hc, IH.
Qed.

Lemma remove_char_absent (a : ascii) (s : string) :
  Py.sexists (Ascii.eqb a) s = false -> Py.remove_char a s = s.
Proof.
  induction s as [|c s IH]; [reflexivity|]. simpl. intros H.
  apply orb_false_iff in H as [Hc Hs].
  rewrite Ascii.eqb_sym, Hc. now rewrite IH.
Qed.

(** A cleaned key holds no line feed, carriage return or tab. *)
Lemma clean_api_key_no_control (api_key : string) :
  Py.sexists (Ascii.eqb "010") (clean_api_key api_key) = false
  /\ Py.sexists (Ascii.eqb "013") (clean_api_key api_key) = false
  /\ Py.sexists (Ascii.eqb "009") (clean_api_key api_key) = false.
Proof.
  unfold clean_api_key. repeat split.
  - do 2 apply remove_char_keeps_absent. apply remove_char_gone.
  - apply remove_char_keeps_absent. apply remove_char_gone.
  - apply remove_char_gone.
Qed.

Lemma prefix_append (a b s : string) :
  String.prefix (a ++ b) s = true -> String.prefix a s = true.
Proof.
  revert s. induction a as [|c a IH]; intros s; [now destruct s|].
  destruct s as [|c' s]; simpl; [discriminate|].
  destruct (ascii_dec c c'); [apply IH | discriminate].
Qed.

Lemma prefix_project_legacy (s : string) :
  Py.startswith "sk-proj-" s = true -> Py.startswith "sk-" s = true.
Proof. apply (prefix_append "sk-" "proj-"). Qed.

(** What the organizer's check says of a key that it does not refuse. *)
Lemma validate_accepts (api_key c : string) :
  validate_and_clean_api_key api_key = Some c <->
  api_key <> ""
  /\ c = clean_api_key api_key
  /\ Py.startswith "sk-" c = true
  /\ fst (key_length_window c) <= String.length c <= snd (key_length_window c)
  /\ Py.sexists (Ascii.eqb " ") c = false.
Proof.
  unfold validate_and_clean_api_key.
  pose proof (clean_api_key_no_control api_key) as [_ [_ Htab]].
  rewrite !contains_char, Htab, orb_false_r.
  remember (clean_api_key api_key) as k eqn:Hk. clear Hk Htab.
  assert (Hpre : existsb (fun prefix => Py.startswith prefix k) ["sk-"; "sk-proj-"]
                 = Py.startswith "sk-" k).
  { simpl. rewrite orb_false_r.
    destruct (Py.startswith "sk-proj-" k) eqn:E;
      [rewrite (prefix_project_legacy k E) | rewrite orb_false_r]; reflexivity. }
  rewrite Hpre. clear Hpre.
  destruct api_key as [|a0 rest]; simpl Py.truthy; simpl negb; cbv iota.
  { split; [discriminate | intros [H _]; congruence]. }
  destruct (Py.startswith "sk-" k) eqn:Hs; simpl negb; cbv iota.
  2:{ split; [discriminate | intros [_ [-> [H _]]]; congruence]. }
  destruct (Nat.ltb (String.length k) (fst (key_length_window k))) eqn:Hlo;
    simpl orb; cbv iota.
  { apply Nat.ltb_lt in Hlo. split; [discriminate|].
    intros [_ [-> [_ [H _]]]]. lia. }
  destruct (Nat.ltb (snd (key_length_window k)) (String.length k)) eqn:Hhi;
    cbv iota.
  { apply Nat.ltb_lt in Hhi. split; [discriminate|].
    intros [_ [-> [_ [H _]]]]. lia. }
  apply Nat.ltb_ge in Hlo, Hhi.
  destruct (Py.sexists (Ascii.eqb " ") k) eqn:Hsp.
  { split; [discriminate | intros [_ [-> [_ [_ H]]]]; congruence]. }
  split.
  - intros [= <-]. repeat split; try assumption. discriminate.
  - intros [_ [-> _]]. reflexivity.
Qed.

Lemma rstrip_cons_fixed (c : ascii) (r : string) :
  Py.rstrip (String c r) = String c r <->
  (r = "" /\ Py.is_space c = false) \/ (r <> "" /\ Py.rstrip r = r).
Proof.
  simpl. destruct (Py.rstrip r) as [|c' r'] eqn:E.
  - destruct (Py.is_space c) eqn:Hc.
    + split; [discriminate|]. intros [[_ H]|[Hne H]]; [discriminate|].
      now rewrite H in Hne.
    + split.
      * intros [= <-]. now left.
      * intros [[-> _]|[Hne H]]; [reflexivity|]. now rewrite H in Hne.
  - split.
    + intros [= <-]. right. split; [discriminate | reflexivity].
    + intros [[-> _]|[_ <-]]; [discriminate | reflexivity].
Qed.

Lemma rstrip_idempotent (s : string) : Py.rstrip (Py.rstrip s) = Py.rstrip s.
Proof.
  induction s as [|c s IH]; [reflexivity|]. simpl.
  destruct (Py.rstrip s) as [|c' r'] eqn:E.
  - destruct (Py.is_space c) eqn:Hc; [reflexivity|]. simpl. now rewrite Hc.
  - apply rstrip_cons_fixed. right. split; [discriminate | exact IH].
Qed.

Lemma remove_space_nonempty (a : ascii) (s : string) :
  Py.is_space a = true -> s <> "" -> Py.rstrip s = s -> Py.remove_char a s <> "".
Proof.
  intros Ha. induction s as [|c s IH]; intros Hne Hfix; [congruence|].
  apply rstrip_cons_fixed in Hfix. simpl.
  destruct Hfix as [[-> Hc]|[Hs Hfix]].
  - destruct (Ascii.eqb_spec c a) as [->|_]; [congruence | discriminate].
  - destruct (Ascii.eqb c a); [now apply IH | discriminate].
Qed.

(** Taking a whitespace character out of a string that does not end in
    whitespace leaves a string that does not end in whitespace. *)
Lemma remove_space_rstrip (a : ascii) (s : string) :
  Py.is_space a = true -> Py.rstrip s = s ->
  Py.rstrip (Py.remove_char a s) = Py.remove_char a s.
Proof.
  intros Ha. induction s as [|c s IH]; intros Hfix; [reflexivity|].
  apply rstrip_cons_fixed in Hfix. simpl.
  destruct Hfix as [[-> Hc]|[Hs Hfix]].
  - destruct (Ascii.eqb_spec c a) as [->|_]; [congruence|].
    simpl. now rewrite Hc.
  - destruct (Ascii.eqb c a); [now apply IH|].
    apply rstrip_cons_fixed. right. split; [|now apply IH].
    now apply remove_space_nonempty.
Qed.

Lemma prefix_head (a c : ascii) (p s : string) :
  Py.startswith (String a p) (String c s) = true -> a = c.
Proof.
  unfold Py.startswith. simpl. now destruct (ascii_dec a c).
Qed.

Lemma clean_api_key_rstrip (api_key : string) :
  Py.rstrip (clean_api_key api_key) = clean_api_key api_key.
Proof.
  unfold clean_api_key, Py.strip.
  repeat (apply remove_space_rstrip; [reflexivity|]).
  apply rstrip_idempotent.
Qed.

(** Cleaning a cleaned key that starts with [sk-] gives it back. *)
Lemma clean_api_key_fixed (api_key : string) :
  Py.startswith "sk-" (clean_api_key api_key) = true ->
  clean_api_key (clean_api_key api_key) = clean_api_key api_key.
Proof.
  intros Hs.
  pose proof (clean_api_key_no_control api_key) as [Hlf [Hcr Htab]].
  pose proof (clean_api_key_rstrip api_key) as Hr.
  remember (clean_api_key api_key) as k eqn:Hk. clear Hk.
  unfold clean_api_key, Py.strip.
  assert (Hl : Py.lstrip k = k).
  { destruct k as [|c k]; [discriminate|].
    apply prefix_head in Hs. now subst c. }
  rewrite Hl, Hr.
  now rewrite (remove_char_absent _ _ Hlf), (remove_char_absent _ _ Hcr),
    (remove_char_absent _ _ Htab).
Qed.

(** X1. A key that [validate_and_clean_api_key] accepts is returned
    cleaned: it starts with [sk-], holds no space, tab, line feed or
    carriage return, and its length is 150 to 200 when it starts with
    [sk-proj-] and 45 to 60 otherwise. *)
Theorem accepted_key_shape (api_key cleaned_key : string) :
  validate_and_clean_api_key api_key = Some cleaned_key ->
  Py.startswith "sk-" cleaned_key = true
  /\ Py.sexists (fun c => Ascii.eqb " " c || Ascii.eqb "009" c
                          || Ascii.eqb "010" c || Ascii.eqb "013" c)
                cleaned_key = false
  /\ (if Py.startswith "sk-proj-" cleaned_key
      then 150 <= String.length cleaned_key <= 200
      else 45 <= String.length cleaned_key <= 60).
Proof.
  intros H. apply validate_accepts in H as [_ [-> [Hs [Hlen Hsp]]]].
  pose proof (clean_api_key_no_control api_key) as [Hlf [Hcr Htab]].
  remember (clean_api_key api_key) as k eqn:Hk. clear Hk.
  split; [exact Hs|]. split.
  - clear Hs Hlen. induction k as [|c k IH]; [reflexivity|].
    simpl in *.
    apply orb_false_iff in Hsp as [-> Hsp], Hlf as [-> Hlf].
    apply orb_false_iff in Hcr as [-> Hcr], Htab as [-> Htab].
    now apply IH.
  - unfold key_length_window in Hlen.
    destruct (Py.startswith "sk-proj-" k); exact Hlen.
Qed.

Lemma accepted_key_shape_witness :
  Py.startswith "sk-" "sk-1234567890abcdef1234567890abcdef1234567890abcd" = true
  /\ String.length "sk-1234567890abcdef1234567890abcdef1234567890abcd" = 49.
Proof.
  destruct (accepted_key_shape
              "  sk-1234567890abcdef1234567890abcdef1234567890abcd  "
              "sk-1234567890abcdef1234567890abcdef1234567890abcd" eq_refl)
    as [H _].
  split; [exact H | reflexivity].
Defined.

(** X2. A key that [validate_and_clean_api_key] returns is accepted
    again as it is: checking an accepted key a second time changes
    nothing. *)
Theorem accepted_key_is_stable (api_key cleaned_key : string) :
  validate_and_clean_api_key api_key = Some cleaned_key ->
  validate_and_clean_api_key cleaned_key = Some cleaned_key.
Proof.
  intros H. apply validate_accepts in H as [Hne [-> [Hs [Hlen Hsp]]]].
  apply validate_accepts. rewrite (clean_api_key_fixed _ Hs).
  repeat split; try assumption; try apply Hlen.
  intros E. rewrite E in Hs. discriminate.
Qed.

Lemma accepted_key_is_stable_witness :
  validate_and_clean_api_key "sk-1234567890abcdef1234567890abcdef1234567890abcd"
  = Some "sk-1234567890abcdef1234567890abcdef1234567890abcd".
Proof.
  apply (accepted_key_is_stable
           "  sk-1234567890abcdef1234567890abcdef1234567890abcd  ").
  reflexivity.
Defined.

(** X3. The stand-alone format test of [api_key_test.py] says yes to
    exactly the keys that the organizer accepts, and then reports the
    kind and the length of the key that the organizer returns. *)
Theorem format_test_agrees_with_organizer (api_key : string) :
  match validate_and_clean_api_key api_key with
  | Some cleaned_key =>
      validate_openai_key api_key
      = (true, ValidFormat (Py.startswith "sk-proj-" cleaned_key)
                           (String.length cleaned_key))
  | None => fst (validate_openai_key api_key) = false
  end.
Proof.
  unfold validate_and_clean_api_key, validate_openai_key, key_length_window.
  destruct (negb (Py.truthy api_key)); [reflexivity|].
  remember (clean_api_key api_key) as k eqn:Hk. clear Hk. simpl existsb.
  rewrite orb_false_r.
  destruct (Py.startswith "sk-proj-" k) eqn:Hp.
  - rewrite (prefix_project_legacy k Hp). simpl.
    destruct (_ || _); [reflexivity|]. destruct (_ || _); [reflexivity|].
    now rewrite Hp.
  - rewrite orb_false_r. destruct (Py.startswith "sk-" k); [|reflexivity].
    simpl. destruct (_ || _); [reflexivity|]. destruct (_ || _); [reflexivity|].
    now rewrite Hp.
Qed.

(* ----------------------------------------------------------------- *)
(** ** The order of the names tried *)

(** X4. The conflict loop of either pass returns the first free name
    in the order [name], [name_1], [name_2], ...: the name it returns is
    the [k]-th of these, it is not busy, and every earlier one is. *)
Theorem conflict_loop_first_free
        (r : rootdir) (dest_folder new_name suffix : string) (file_path : path) :
  (exists k,
      conflict_loop (loop_bound r dest_folder) (busy_organize r dest_folder)
                    new_name suffix (new_name ++ suffix) 1
      = Some (candidate new_name suffix k)
      /\ busy_organize r dest_folder (candidate new_name suffix k) = false
      /\ forall j, j < k ->
                   busy_organize r dest_folder (candidate new_name suffix j) = true)
  /\ (exists k,
         conflict_loop (loop_bound r dest_folder)
                       (busy_reanalyze r dest_folder file_path)
                       new_name suffix (new_name ++ suffix) 1
         = Some (candidate new_name suffix k)
         /\ busy_reanalyze r dest_folder file_path (candidate new_name suffix k)
            = false
         /\ forall j, j < k ->
                      busy_reanalyze r dest_folder file_path
                                     (candidate new_name suffix j) = true).
Proof.
  assert (H : forall busy,
             (forall n, busy n = true -> path_exists r [dest_folder; n] = true) ->
             exists k,
               conflict_loop (loop_bound r dest_folder) busy
                             new_name suffix (new_name ++ suffix) 1
               = Some (candidate new_name suffix k)
               /\ busy (candidate new_name suffix k) = false
               /\ forall j, j < k -> busy (candidate new_name suffix j) = true).
  { intros busy Hb.
    destruct (conflict_loop_bound r dest_folder busy new_name suffix Hb) as [nf Hnf].
    destruct (conflict_loop_some busy new_name suffix _ 0 nf Hnf)
      as [Hfree [k [-> [_ Hall]]]].
    exists k. split; [exact Hnf|]. split; [exact Hfree|].
    intros j Hj. apply Hall. lia. }
  split; apply H.
  - now unfold busy_organize.
  - unfold busy_reanalyze. intros n Hn. now apply andb_true_iff in Hn as [Hn _].
Qed.

(* ----------------------------------------------------------------- *)
(** ** The order of the counters *)

Lemma when_mkdir_run_stats (c : bool) (name : string) (w : world) :
  (exists w2, w_stats w2 = w_stats w
              /\ forall B (k : unit -> M B),
                  bind (when c (mkdir_exist_ok name)) k w = k tt w2)
  \/ (forall B (k : unit -> M B),
         bind (when c (mkdir_exist_ok name)) k w = (w, Raised FileExistsError)).
Proof.
  destruct c.
  - destruct (assoc name (w_root w)) as [[f|es]|] eqn:Ha.
    + right. intros B k. now rewrite bind_when, bind_mkdir_exist_ok, Ha.
    + left. exists w. split; [reflexivity|]. intros B k.
      now rewrite bind_when, bind_mkdir_exist_ok, Ha.
    + left. eexists. split; [|intros B k; rewrite bind_when, bind_mkdir_exist_ok, Ha;
                               reflexivity]. reflexivity.
  - left. exists w. split; [reflexivity|]. intros B k. now rewrite bind_when.
Qed.

(** The end of a turn: some action that leaves the counters alone, then
    the count of an improvement if [c] holds; an error is logged. *)
Lemma turn_tail_stats (m : M unit) (c : bool) (e : event) (w : world) :
  preserves (fun w' => w_stats w' = w_stats w) m ->
  exists improved : bool,
    (improved = true -> c = true)
    /\ w_stats (fst (try_except
                       (bind m (fun _ => when c (bump count_ai_improvement)))
                       (fun _ => log e) w))
       = mkStats (files_processed (w_stats w)) (files_renamed (w_stats w))
                 (files_moved (w_stats w))
                 (ai_improvements (w_stats w) + if improved then 1 else 0).
Proof.
  intros Hm. specialize (Hm w eq_refl). unfold exec in Hm.
  unfold try_except, bind. destruct (m w) as [w' [[]|x]]; simpl in *.
  - destruct c; simpl.
    + exists true. split; [reflexivity|]. rewrite Hm.
      unfold count_ai_improvement. f_equal. lia.
    + exists false. split; [discriminate|]. rewrite Hm.
      destruct (w_stats w); simpl. f_equal. lia.
  - exists false. split; [discriminate|]. rewrite Hm.
    destruct (w_stats w); simpl. f_equal. lia.
Qed.

(** What one turn of the reconcile loop does to the counters. *)
Lemma reanalyze_turn_stats (dry_run : bool) (org_folder current_category : string)
      (file_name : string) (w : world) :
  exists renamed moved improved : bool,
    (improved = true -> renamed = true)
    /\ w_stats (exec (try_except
                        (reanalyze_file dry_run org_folder current_category file_name)
                        (fun _ => log (LogError file_name))) w)
       = stats_after_turn renamed moved improved (w_stats w).
Proof.
  assert (Hnone : forall w', w_stats w' = count_processed (w_stats w) ->
             exists renamed moved improved : bool,
               (improved = true -> renamed = true)
               /\ w_stats w' = stats_after_turn renamed moved improved (w_stats w)).
  { intros w' H. exists false, false, false. split; [discriminate|].
    rewrite H. unfold stats_after_turn, count_processed. f_equal; lia. }
  unfold exec, reanalyze_file.
  rewrite (exec_try_bind _ _ _ _ (set_stats (count_processed (w_stats w)) w) tt eq_refl).
  rewrite exec_try_get. cbn [w_root set_stats].
  destruct (is_system_file (w_root w) [org_folder; file_name]);
    [now apply Hnone|].
  rewrite (exec_try_bind _ _ _ _ _ tt
             (eq_refl : log (LogReanalyzing file_name) _ = (_, Ok tt))).
  rewrite (exec_try_bind _ _ _ _ _ _ (get_file_type_run _ _)).
  cbn [w_root set_stats add_event path_name last].
  unfold try_except at 1. rewrite bind_extract_metadata.
  cbn [w_root set_stats add_event path_name last].
  destruct (file_at (w_root w) [org_folder; file_name]) as [f|] eqn:Hf;
    [|now apply Hnone].
  destruct (f_stat_ok f); [|now apply Hnone].
  rewrite bind_read_file_content.
  match goal with
  | |- context [bind (generate_smart_filename ?p ?md ?c) _ ?w0] =>
      destruct (generate_smart_filename_run p md c w0)
        as [new_name [w1 [Hg [_ [_ [Hs1 _]]]]]]
  end.
  rewrite (exec_bind _ _ _ _ _ Hg). cbn [w_stats set_stats add_event] in Hs1.
  set (new_category := snd (file_type true (PurePath.suffix file_name) (f_mime f))).
  set (ncm := negb (String.eqb new_category current_category)).
  set (nr := negb (String.eqb (new_name ++ PurePath.suffix file_name) file_name)).
  destruct (ncm || nr).
  2:{ destruct dry_run; cbn; apply Hnone; cbn; exact Hs1. }
  destruct (when_mkdir_run_stats ncm (organized_name new_category) w1)
    as [[w2 [Hs2 Hmk]]|Hmk]; rewrite Hmk; [|now apply Hnone].
  rewrite bind_get.
  destruct (conflict_loop _ _ _ _ _ _) as [new_filename|];
    [|apply Hnone; cbn; congruence].
  match goal with
  | |- context [bind ?m (fun _ => when ?c (bump count_ai_improvement))] =>
      set (action := m); set (cond := c)
  end.
  assert (Hact : forall w3, preserves (fun w' => w_stats w' = w_stats w3) action).
  { intros w3. unfold action. frame_tac. }
  assert (Hcond : cond = true -> nr = true).
  { unfold cond. intros H. now apply andb_true_iff in H as [H _]. }
  clearbody action cond.
  rewrite (bind_when ncm).
  destruct ncm; rewrite ?bind_bump; rewrite (bind_when nr);
    destruct nr; rewrite ?bind_bump;
    match goal with
    | |- context [bind action _ ?w3] =>
        destruct (turn_tail_stats action cond (LogError file_name) w3 (Hact w3))
          as [improved [Himp Hst]];
        unfold try_except in Hst; rewrite Hst
    end;
    cbn [w_stats set_stats count_moved count_renamed files_processed files_renamed
           files_moved ai_improvements];
    rewrite Hs2, Hs1; cbn [count_processed files_processed files_renamed
                             files_moved ai_improvements].
  - exists true, true, improved. split; [reflexivity|].
    unfold stats_after_turn. f_equal; lia.
  - exists false, true, improved. split; [intros H; now apply Hcond, Himp|].
    unfold stats_after_turn. f_equal; lia.
  - exists true, false, improved. split; [reflexivity|].
    unfold stats_after_turn. f_equal; lia.
  - exists false, false, improved. split; [intros H; now apply Hcond, Himp|].
    unfold stats_after_turn. f_equal; lia.
Qed.

Lemma stats_after_turn_ordered (renamed moved improved : bool) (s : stats) :
  (improved = true -> renamed = true) ->
  stats_ordered s -> stats_ordered (stats_after_turn renamed moved improved s).
Proof.
  unfold stats_ordered, stats_after_turn. intros Hi [H1 [H2 H3]]. simpl.
  destruct renamed, moved, improved; try (specialize (Hi eq_refl); discriminate);
    repeat split; lia.
Qed.

Lemma reanalyze_folder_ordered (dry_run : bool) (org_folder : string) :
  preserves (fun w => stats_ordered (w_stats w)) (reanalyze_folder dry_run org_folder).
Proof.
  unfold reanalyze_folder, reanalyze_loop.
  apply preserves_get_bind. intros w0 _.
  destruct (lookup_dir (w_root w0) org_folder) as [es|]; [|apply preserves_raise].
  apply preserves_for_each. intros x _ w1 H1.
  destruct (reanalyze_turn_stats dry_run org_folder
              (Py.remove_all organized_prefix org_folder) x w1)
    as [a [b [c [Hc Hs]]]].
  rewrite Hs. now apply stats_after_turn_ordered.
Qed.

(** X5. The counters that a reconcile pass returns are in order:
    [ai_improvements <= files_renamed <= files_processed] and
    [files_moved <= files_processed]. *)
Theorem reanalysis_stats_are_ordered (folder_exists dry_run : bool)
        (w : world) (st : stats) :
  outcome (reanalyze_organized_files folder_exists dry_run) w = Ok (Some st) ->
  stats_ordered st.
Proof.
  unfold outcome, reanalyze_organized_files.
  destruct folder_exists; [|discriminate].
  change (negb true) with false. cbv iota. rewrite bind_get.
  destruct (organized_folders (w_root w)) as [|d folders]; [discriminate|].
  rewrite bind_modify.
  pose proof (preserves_for_each (fun w => stats_ordered (w_stats w))
                (d :: folders) (reanalyze_folder dry_run)
                (fun x _ => reanalyze_folder_ordered dry_run x)
                (set_stats zero_stats w)) as H.
  unfold exec, bind in *.
  destruct (for_each (d :: folders) (reanalyze_folder dry_run) (set_stats zero_stats w))
    as [w' [[]|e]]; [|discriminate].
  intros [= <-]. apply H. cbn. unfold stats_ordered. simpl. lia.
Qed.

Lemma reanalysis_stats_are_ordered_witness :
  stats_ordered (mkStats 2 2 0 1).
Proof.
  apply (reanalysis_stats_are_ordered true false
           (fresh_world
              [("Organized_Documents",
                RDir [("a.txt", File (text_file "hello world"));
                      ("hello_world.txt", File (text_file "other words here"))])])).
  reflexivity.
Defined.

(* ----------------------------------------------------------------- *)
(** ** The action log only grows *)

(** The action log only grows, by lines of the kind [Q]. *)
Lemma grows_refl (Q : log_entry -> Prop) (A : list log_entry) :
  exists added, A = A ++ added /\ Forall Q added.
Proof. exists []. now rewrite app_nil_r. Qed.

Lemma grows_trans (Q : log_entry -> Prop) (A B C : list log_entry) :
  (exists added, B = A ++ added /\ Forall Q added) ->
  (exists added, C = B ++ added /\ Forall Q added) ->
  exists added, C = A ++ added /\ Forall Q added.
Proof.
  intros [l1 [-> H1]] [l2 [-> H2]]. exists (l1 ++ l2).
  split; [now rewrite app_assoc | now apply Forall_app].
Qed.

(** One turn of the organize loop adds at most one line. *)
Lemma organize_turn_log (file_name : string) (w : world) :
  exists added,
    w_actions (exec (try_except (organize_file file_name)
                                (fun _ => log (LogError file_name))) w)
    = w_actions w ++ added
    /\ Forall organize_line added.
Proof.
  unfold exec, organize_file. rewrite exec_try_get.
  destruct (is_system_file (w_root w) [file_name]); [apply grows_refl|].
  rewrite (exec_try_bind _ _ _ _ _ _ (get_file_type_run _ w)).
  rewrite (exec_try_bind _ _ _ _ (add_event _ w) tt eq_refl).
  unfold try_except. rewrite bind_extract_metadata.
  cbn [w_root add_event path_name last].
  destruct (file_at (w_root w) [file_name]) as [f|] eqn:Hf; [|apply grows_refl].
  destruct (f_stat_ok f); [|apply grows_refl].
  rewrite bind_read_file_content.
  match goal with
  | |- context [bind (generate_smart_filename ?p ?md ?c) _ ?w0] =>
      destruct (generate_smart_filename_run p md c w0)
        as [new_name [w1 [Hg [Hr [Ha _]]]]]
  end.
  rewrite (exec_bind _ _ _ _ _ Hg). cbn [w_root w_actions add_event] in Hr, Ha.
  rewrite bind_get, <- Ha.
  set (category := snd (file_type true (PurePath.suffix file_name) (f_mime f))).
  destruct (conflict_loop _ _ _ _ _ _) as [new_filename|]; [|apply grows_refl].
  rewrite bind_shutil_move.
  destruct (file_at (w_root w1) [file_name]) as [g|]; [|apply grows_refl].
  destruct (negb (f_movable g)); [apply grows_refl|].
  destruct (Py.contains "/" new_filename); [apply grows_refl|].
  destruct (negb (is_some (lookup_dir (w_root w1) (organized_name category))));
    [apply grows_refl|].
  rewrite bind_log. unfold save_action_log. rewrite bind_get.
  cbn [w_log_writable w_actions set_root add_event].
  destruct (w_log_writable w1); [|apply grows_refl].
  cbn. eexists. split; [reflexivity|].
  constructor; [|constructor].
  unfold organize_line. cbn. repeat split. apply file_type_category.
Qed.

Lemma organize_loop_log (files : list string) :
  forall w,
    exists added,
      w_actions (exec (organize_loop files) w) = w_actions w ++ added
      /\ Forall organize_line added.
Proof.
  unfold organize_loop. induction files as [|x files IH]; intros w.
  - apply grows_refl.
  - rewrite for_each_exec by apply try_except_log_ok.
    apply (grows_trans _ _ _ _ (organize_turn_log x w)). apply IH.
Qed.

Lemma create_organized_folders_log (A : list log_entry) :
  preserves (fun w => w_actions w = A) create_organized_folders.
Proof. unfold create_organized_folders. frame_tac. Qed.

(** X6. The organize pass only appends to the action log, and every
    line that it appends tells of a file of the scanned folder itself
    that went into the folder of its category, one of the ten. *)
Theorem organize_pass_appends_to_the_log (folder_exists : bool) (w : world) :
  exists added,
    w_actions (exec (organize_files_in_folder folder_exists) w)
    = w_actions w ++ added
    /\ Forall organize_line added.
Proof.
  unfold exec, organize_files_in_folder.
  destruct folder_exists; [|apply grows_refl].
  change (negb true) with false. cbv iota.
  pose proof (create_organized_folders_log (w_actions w) w eq_refl) as Hc.
  unfold exec in Hc. unfold bind at 1.
  destruct (create_organized_folders w) as [w1 [[]|e]]; simpl in Hc.
  - rewrite bind_get, <- Hc. apply organize_loop_log.
  - simpl. rewrite Hc. apply grows_refl.
Qed.

Lemma when_mkdir_run_log (c : bool) (name : string) (w : world) :
  (exists w2, w_actions w2 = w_actions w
              /\ w_log_writable w2 = w_log_writable w
              /\ forall B (k : unit -> M B),
                  bind (when c (mkdir_exist_ok name)) k w = k tt w2)
  \/ (forall B (k : unit -> M B),
         bind (when c (mkdir_exist_ok name)) k w = (w, Raised FileExistsError)).
Proof.
  destruct c.
  - destruct (assoc name (w_root w)) as [[f|es]|] eqn:Ha.
    + right. intros B k. now rewrite bind_when, bind_mkdir_exist_ok, Ha.
    + left. exists w. split; [reflexivity|]. split; [reflexivity|].
      intros B k. now rewrite bind_when, bind_mkdir_exist_ok, Ha.
    + left. exists (set_root (w_root w ++ [(name, RDir [])]) w).
      split; [reflexivity|]. split; [reflexivity|].
      intros B k. now rewrite bind_when, bind_mkdir_exist_ok, Ha.
  - left. exists w. split; [reflexivity|]. split; [reflexivity|].
    intros B k. now rewrite bind_when.
Qed.

(** One turn of the reconcile loop adds at most one line. *)
Lemma reanalyze_turn_log (dry_run : bool) (org_folder current_category : string)
      (file_name : string) (w : world) :
  exists added,
    w_actions (exec (try_except
                       (reanalyze_file dry_run org_folder current_category file_name)
                       (fun _ => log (LogError file_name))) w)
    = w_actions w ++ added
    /\ Forall reanalysis_line added
    /\ (dry_run = true -> added = []).
Proof.
  assert (Hnone : forall w', w_actions w' = w_actions w ->
             exists added, w_actions w' = w_actions w ++ added
                           /\ Forall reanalysis_line added
                           /\ (dry_run = true -> added = [])).
  { intros w' H. exists []. rewrite app_nil_r. now repeat split. }
  unfold exec, reanalyze_file.
  rewrite (exec_try_bind _ _ _ _ (set_stats (count_processed (w_stats w)) w) tt eq_refl).
  rewrite exec_try_get. cbn [w_root set_stats].
  destruct (is_system_file (w_root w) [org_folder; file_name]);
    [now apply Hnone|].
  rewrite (exec_try_bind _ _ _ _ _ tt
             (eq_refl : log (LogReanalyzing file_name) _ = (_, Ok tt))).
  rewrite (exec_try_bind _ _ _ _ _ _ (get_file_type_run _ _)).
  cbn [w_root set_stats add_event path_name last].
  unfold try_except. rewrite bind_extract_metadata.
  cbn [w_root set_stats add_event path_name last].
  destruct (file_at (w_root w) [org_folder; file_name]) as [f|] eqn:Hf;
    [|now apply Hnone].
  destruct (f_stat_ok f); [|now apply Hnone].
  rewrite bind_read_file_content.
  match goal with
  | |- context [bind (generate_smart_filename ?p ?md ?c) _ ?w0] =>
      destruct (generate_smart_filename_run p md c w0)
        as [new_name [w1 [Hg [_ [Ha1 _]]]]]
  end.
  rewrite (exec_bind _ _ _ _ _ Hg). cbn [w_actions set_stats add_event] in Ha1.
  set (new_category := snd (file_type true (PurePath.suffix file_name) (f_mime f))).
  set (ncm := negb (String.eqb new_category current_category)).
  set (nr := negb (String.eqb (new_name ++ PurePath.suffix file_name) file_name)).
  destruct (ncm || nr) eqn:Hchg.
  2:{ destruct dry_run; cbn; apply Hnone; exact Ha1. }
  destruct (when_mkdir_run_log ncm (organized_name new_category) w1)
    as [[w2 [Ha2 [_ Hmk]]]|Hmk]; rewrite Hmk; [|now apply Hnone].
  rewrite bind_get.
  destruct (conflict_loop _ _ _ _ _ _) as [new_filename|];
    [|apply Hnone; cbn; congruence].
  set (new_dest_folder := if ncm then organized_name new_category else org_folder).
  set (change_type := _ ++ _).
  assert (Hct : change_type <> []).
  { unfold change_type. destruct ncm; [discriminate|].
    destruct nr; [discriminate | discriminate Hchg]. }
  clearbody change_type.
  match goal with
  | |- context [when ?c (bump count_ai_improvement)] => generalize c
  end.
  intros improved.
  rewrite (bind_when ncm).
  assert (Hrest : forall w3,
             w_actions w3 = w_actions w ->
             exists added,
               w_actions
                 (fst (match
                          bind (if dry_run
                                then log (LogDryRun file_name change_type)
                                else when (negb (path_eqb [new_dest_folder; new_filename]
                                                          [org_folder; file_name]))
                                       (shutil_move [org_folder; file_name]
                                                    new_dest_folder new_filename ;;
                                        log (LogUpdated change_type) ;;
                                        save_action_log
                                          (mkLog true [org_folder; file_name]
                                             [new_dest_folder; new_filename]
                                             file_name new_filename current_category
                                             new_category change_type
                                             (fst (file_type true
                                                     (PurePath.suffix file_name)
                                                     (f_mime f))))))
                               (fun _ => when improved (bump count_ai_improvement)) w3
                        with
                        | (w', Ok a) => (w', Ok a)
                        | (w', Raised _) => log (LogError file_name) w'
                        end))
               = w_actions w ++ added
               /\ Forall reanalysis_line added
               /\ (dry_run = true -> added = [])).
  { intros w3 Ha3. destruct dry_run.
    - rewrite bind_log. destruct improved; cbn; apply Hnone; exact Ha3.
    - rewrite bind_when.
      destruct (negb (path_eqb _ _)) eqn:Hp.
      2:{ destruct improved; cbn; apply Hnone; exact Ha3. }
      rewrite !bind_assoc, bind_shutil_move.
      destruct (file_at (w_root w3) [org_folder; file_name]) as [g|];
        [|apply Hnone; exact Ha3].
      destruct (negb (f_movable g)); [apply Hnone; exact Ha3|].
      destruct (Py.contains "/" new_filename); [apply Hnone; exact Ha3|].
      destruct (negb (is_some (lookup_dir (w_root w3) new_dest_folder)));
        [apply Hnone; exact Ha3|].
      rewrite bind_assoc, bind_log, bind_save_action_log.
      cbn [w_log_writable w_actions set_root add_event].
      destruct (w_log_writable w3); [|apply Hnone; exact Ha3].
      eexists. split; [|split].
      + destruct improved; cbn; rewrite Ha3; reflexivity.
      + constructor; [|constructor].
        unfold reanalysis_line. cbn. repeat split; try assumption.
        * apply negb_true_iff in Hp. intros E.
          rewrite <- E in Hp. unfold path_eqb in Hp.
          destruct (list_eq_dec string_dec _ _); [discriminate | congruence].
        * now exists org_folder.
        * now exists new_dest_folder.
      + discriminate. }
  destruct ncm; rewrite ?bind_bump; rewrite (bind_when nr);
    destruct nr; rewrite ?bind_bump; apply Hrest; cbn; congruence.
Qed.

Lemma for_each_grows {A} (Q : log_entry -> Prop) (l : list A) (body : A -> M unit) :
  (forall x w, exists added,
        w_actions (exec (body x) w) = w_actions w ++ added /\ Forall Q added) ->
  forall w, exists added,
      w_actions (exec (for_each l body) w) = w_actions w ++ added /\ Forall Q added.
Proof.
  intros Hb. induction l as [|x l IH]; intros w; [apply grows_refl|].
  specialize (Hb x w). unfold exec in *. simpl. unfold bind.
  destruct (body x w) as [w1 [[]|e]]; simpl in *; [|exact Hb].
  apply (grows_trans _ _ _ _ Hb). apply IH.
Qed.

Lemma reanalyze_folder_log (dry_run : bool) (org_folder : string) (w : world) :
  exists added,
    w_actions (exec (reanalyze_folder dry_run org_folder) w) = w_actions w ++ added
    /\ Forall (fun a => reanalysis_line a /\ dry_run = false) added.
Proof.
  unfold exec, reanalyze_folder. rewrite bind_get.
  destruct (lookup_dir (w_root w) org_folder) as [es|]; [|apply grows_refl].
  unfold reanalyze_loop. apply for_each_grows. intros x w1.
  destruct (reanalyze_turn_log dry_run org_folder
              (Py.remove_all organized_prefix org_folder) x w1)
    as [added [Ha [Hq Hd]]].
  exists added. split; [exact Ha|].
  destruct dry_run; [rewrite (Hd eq_refl); constructor|].
  revert Hq. apply Forall_impl. now split.
Qed.

(** X7. The reconcile pass only appends to the action log.  A dry run
    appends nothing; a live run appends lines marked as re-analysis,
    each with at least one change, for a file whose new path differs
    from its old one. *)
Theorem reanalysis_pass_appends_to_the_log (folder_exists dry_run : bool) (w : world) :
  exists added,
    w_actions (exec (reanalyze_organized_files folder_exists dry_run) w)
    = w_actions w ++ added
    /\ Forall reanalysis_line added
    /\ (dry_run = true -> added = []).
Proof.
  cut (exists added,
          w_actions (exec (reanalyze_organized_files folder_exists dry_run) w)
          = w_actions w ++ added
          /\ Forall (fun a => reanalysis_line a /\ dry_run = false) added).
  { intros [added [Ha Hq]]. exists added. split; [exact Ha|]. split.
    - revert Hq. apply Forall_impl. now intros a [H _].
    - intros ->. destruct added as [|a l]; [reflexivity|].
      inversion Hq as [|? ? [_ H] _]. discriminate. }
  unfold exec, reanalyze_organized_files.
  destruct folder_exists; [|apply grows_refl].
  change (negb true) with false. cbv iota. rewrite bind_get.
  destruct (organized_folders (w_root w)) as [|d folders]; [apply grows_refl|].
  rewrite bind_modify.
  pose proof (for_each_grows _ (d :: folders) (reanalyze_folder dry_run)
                (reanalyze_folder_log dry_run) (set_stats zero_stats w)) as H.
  unfold exec, bind in *.
  destruct (for_each (d :: folders) (reanalyze_folder dry_run) (set_stats zero_stats w))
    as [w' [[]|e]]; exact H.
Qed.

Lemma reanalysis_pass_appends_to_the_log_witness :
  let w := fresh_world
             [ ("Organized_Documents", RDir [("a.py", File (text_file "import x"))]);
               ("Organized_Code", RDir []) ] in
  w_actions (exec (reanalyze_organized_files true true) w) = w_actions w.
Proof.
  intros w.
  destruct (reanalysis_pass_appends_to_the_log true true w) as [added [Ha [_ Hd]]].
  rewrite Ha, (Hd eq_refl). apply app_nil_r.
Defined.

(* ----------------------------------------------------------------- *)
(** ** The content preview *)

Lemma take_length (n : nat) (s : string) : String.length (Py.take n s) <= n.
Proof.
  revert s. induction n as [|n IH]; intros [|c s]; simpl; try lia.
  specialize (IH s). lia.
Qed.

(** X8. [read_file_content] never raises and leaves the world as it
    is; the preview it returns has at most 1000 characters, and is empty
    unless the lowered suffix is one of the nine text-like ones or
    [.pdf], and whenever the file cannot be read. *)
Theorem preview_is_bounded (p : path) (w : world) :
  exists content,
    read_file_content p w = (w, Ok content)
    /\ String.length content <= 1000
    /\ (Py.mem (Py.lower (PurePath.suffix (path_name p)))
               [".txt"; ".md"; ".py"; ".js"; ".html"; ".css"; ".json"; ".xml";
                ".csv"; ".pdf"] = false ->
        content = "")
    /\ ((forall f, file_at (w_root w) p = Some f -> f_text f = None) ->
        content = "").
Proof.
  eexists. split; [reflexivity|]. unfold content_of.
  set (ext := Py.lower (PurePath.suffix (path_name p))).
  set (text := match file_at (w_root w) p with
               | Some f => match f_text f with
                           | Some t => Py.take 1000 t
                           | None => ""
                           end
               | None => ""
               end).
  assert (Hlen : String.length text <= 1000).
  { unfold text. destruct (file_at (w_root w) p) as [f|]; [|simpl; lia].
    destruct (f_text f); [apply take_length | simpl; lia]. }
  split; [|split].
  - destruct (Py.mem ext _); [exact Hlen|].
    destruct (String.eqb ext ".pdf"); [exact Hlen | simpl; lia].
  - intros H. unfold Py.mem in H.
    change [".txt"; ".md"; ".py"; ".js"; ".html"; ".css"; ".json"; ".xml";
            ".csv"; ".pdf"]
      with ([".txt"; ".md"; ".py"; ".js"; ".html"; ".css"; ".json"; ".xml";
             ".csv"] ++ [".pdf"]) in H.
    rewrite existsb_app in H.
    apply orb_false_iff in H as [H1 H2]. simpl in H2. rewrite orb_false_r in H2.
    unfold Py.mem. rewrite H1, H2. reflexivity.
  - intros H. assert (Ht : text = "").
    { unfold text. destruct (file_at (w_root w) p) as [f|]; [|reflexivity].
      now rewrite (H f eq_refl). }
    rewrite Ht. destruct (Py.mem ext _); [reflexivity|].
    now destruct (String.eqb ext ".pdf").
Qed.

Lemma preview_is_bounded_witness :
  let w := fresh_world [("movie.mp4", RFile (text_file "not text at all"))] in
  exists content, read_file_content ["movie.mp4"] w = (w, Ok content) /\ content = "".
Proof.
  intros w. destruct (preview_is_bounded ["movie.mp4"] w) as [c [Hr [_ [He _]]]].
  exists c. split; [exact Hr|]. apply He. reflexivity.
Defined.

(* ----------------------------------------------------------------- *)
(** ** A blocked category folder stops the organize pass *)

(** Making a list of folders, one after the other, either goes through,
    and then none of them was a regular file, or raises
    [FileExistsError], and then one of them was. *)
Lemma mkdir_each_run (after : string -> M unit) :
  (forall n w, exists w', after n w = (w', Ok tt) /\ w_root w' = w_root w) ->
  forall names w,
    (outcome (for_each names (fun n => mkdir_exist_ok n ;; after n)) w = Ok tt
     /\ forall n f, In n names -> assoc n (w_root w) <> Some (RFile f))
    \/ (outcome (for_each names (fun n => mkdir_exist_ok n ;; after n)) w
        = Raised FileExistsError
        /\ exists n f, In n names /\ assoc n (w_root w) = Some (RFile f)).
Proof.
  intros Hafter. induction names as [|x names IH]; intros w.
  { left. split; [reflexivity | intros n f []]. }
  unfold outcome in *. simpl for_each.
  rewrite bind_assoc, bind_mkdir_exist_ok.
  destruct (assoc x (w_root w)) as [[g|es]|] eqn:Hx.
  - right. split; [reflexivity|]. exists x, g. split; [now left | exact Hx].
  - destruct (Hafter x w) as [w1 [Ha Hr]].
    rewrite (exec_bind _ _ _ _ _ Ha).
    destruct (IH w1) as [[Ho Hall]|[Ho [n [f [Hn Hf]]]]]; rewrite Hr in *.
    + left. split; [exact Ho|]. intros n f [<-|Hn]; [congruence | now apply Hall].
    + right. split; [exact Ho|]. exists n, f. split; [now right | exact Hf].
  - destruct (Hafter x (set_root (w_root w ++ [(x, RDir [])]) w)) as [w1 [Ha Hr]].
    rewrite (exec_bind _ _ _ _ _ Ha). cbn [w_root set_root] in Hr.
    destruct (IH w1) as [[Ho Hall]|[Ho [n [f [Hn Hf]]]]]; rewrite Hr in *.
    + left. split; [exact Ho|]. intros n f [<-|Hn]; [congruence|].
      intros E. apply (Hall n f Hn). now apply assoc_app_some.
    + right. split; [exact Ho|]. exists n, f. split; [now right|].
      destruct (assoc n (w_root w)) as [v|] eqn:Hv.
      * now rewrite (assoc_app_some _ _ _ _ Hv) in Hf.
      * rewrite (assoc_app_none _ _ _ Hv) in Hf. simpl in Hf.
        destruct (String.eqb n x); discriminate.
Qed.

Lemma create_organized_folders_run (w : world) :
  (outcome create_organized_folders w = Ok tt
   /\ forall n f, In n category_folders -> assoc n (w_root w) <> Some (RFile f))
  \/ (outcome create_organized_folders w = Raised FileExistsError
      /\ exists n f, In n category_folders /\ assoc n (w_root w) = Some (RFile f)).
Proof.
  pose (names := map organized_name (map fst file_categories)).
  pose (other := organized_name "Other").
  assert (Hcf : category_folders = names ++ [other]).
  { unfold category_folders, category_names. now rewrite map_app. }
  assert (Hnd : NoDup names /\ ~ In other names).
  { pose proof category_folders_NoDup as H. rewrite Hcf in H.
    split; [now apply NoDup_app_remove_r in H|].
    apply NoDup_remove_2 in H. now rewrite app_nil_r in H. }
  destruct Hnd as [Hnd Hother].
  assert (Hafter : forall n w0, exists w',
               log (LogCreatedVerified n) w0 = (w', Ok tt) /\ w_root w' = w_root w0).
  { intros n w0. eexists. split; reflexivity. }
  unfold create_organized_folders, outcome.
  change (for_each (map fst file_categories)
            (fun category =>
               mkdir_exist_ok (organized_name category) ;;
               log (LogCreatedVerified (organized_name category))))
    with (for_each names (fun n => mkdir_exist_ok n ;; log (LogCreatedVerified n))).
  fold other.
  destruct (mkdir_each_run _ Hafter names w) as [[Ho Hall]|[Ho [n [f [Hn Hf]]]]].
  - destruct (mkdir_each_root names _ Hafter Hnd w Hall) as [_ Hr].
    unfold outcome, exec in *. cbv beta in Ho, Hr.
    destruct (for_each names (fun n => mkdir_exist_ok n ;; log (LogCreatedVerified n)) w)
      as [w1 [[]|e]] eqn:Hrun; simpl in Ho, Hr. 2: discriminate Ho.
    rewrite (exec_bind _ _ _ _ _ Hrun).
    assert (Ha : assoc other (w_root w1) = assoc other (w_root w)).
    { rewrite Hr. now apply assoc_missing_notin. }
    unfold mkdir_exist_ok. rewrite bind_get, Ha.
    destruct (assoc other (w_root w)) as [[g|es]|] eqn:Hx.
    + right. split; [reflexivity|]. exists other, g.
      split; [rewrite Hcf; apply in_or_app; right; now left | exact Hx].
    + left. split; [reflexivity|]. intros n f Hn. rewrite Hcf in Hn.
      apply in_app_or in Hn as [Hn|[<-|[]]]; [now apply Hall | congruence].
    + left. split; [reflexivity|]. intros n f Hn. rewrite Hcf in Hn.
      apply in_app_or in Hn as [Hn|[<-|[]]]; [now apply Hall | congruence].
  - right. unfold outcome in *. cbv beta in Ho.
    destruct (for_each names (fun n => mkdir_exist_ok n ;; log (LogCreatedVerified n)) w)
      as [w1 [[]|e]] eqn:Hrun; simpl in Ho; [discriminate Ho|].
    unfold bind at 1. rewrite Hrun.
    split; [exact Ho|]. exists n, f.
    split; [rewrite Hcf; apply in_or_app; now left | exact Hf].
Qed.

(** X9. When the name of one of the ten category folders is taken by a
    regular file, [organize_files_in_folder] raises before it looks at
    any file: [create_organized_folders] is called outside every [try],
    so that no file is started, every file stays where it is and the
    action log is as it was. *)
Theorem organize_pass_stops_when_blocked (w : world) (n : string) (f : file) :
  In n category_folders ->
  assoc n (w_root w) = Some (RFile f) ->
  let w' := exec (organize_files_in_folder true) w in
  (exists e, outcome (organize_files_in_folder true) w = Raised e)
  /\ all_files (w_root w') = all_files (w_root w)
  /\ w_actions w' = w_actions w
  /\ visits (w_events w') = visits (w_events w).
Proof.
  intros Hn Hf w'. subst w'.
  assert (Hkeep : preserves (fun w' => all_files (w_root w') = all_files (w_root w)
                                       /\ w_actions w' = w_actions w)
                            create_organized_folders).
  { unfold create_organized_folders.
    frame_with ltac:(apply mkdir_exist_ok_keeps_files). }
  assert (Hvis : preserves (fun w' => visits (w_events w') = visits (w_events w))
                           create_organized_folders).
  { unfold create_organized_folders. visits_tac. }
  specialize (Hkeep w (conj eq_refl eq_refl)). specialize (Hvis w eq_refl).
  unfold organize_files_in_folder. change (negb true) with false. cbv iota.
  destruct (create_organized_folders_run w) as [[Ho Hall]|[Ho Hex]].
  { exfalso. exact (Hall n f Hn Hf). }
  unfold outcome, exec in *.
  destruct (create_organized_folders w) as [w1 [[]|e]] eqn:Hc;
    simpl in Ho, Hkeep, Hvis; [discriminate Ho|].
  unfold bind at 1 3 5 7. rewrite Hc. simpl.
  split; [now exists e|]. destruct Hkeep as [H1 H2]. now repeat split.
Qed.

Lemma organize_pass_stops_when_blocked_witness :
  let f := mkFile false true (Some "text/plain") None (Some "x") true in
  let w := mkWorld [("notes.txt", RFile f); ("Organized_Audio", RFile f)]
                   [] true [] None 0 zero_stats in
  let w' := exec (organize_files_in_folder true) w in
  (exists e, outcome (organize_files_in_folder true) w = Raised e)
  /\ all_files (w_root w')
     = [(["notes.txt"], f); (["Organized_Audio"], f)]
  /\ w_actions w' = []
  /\ visits (w_events w') = [].
Proof.
  intros f w.
  apply (organize_pass_stops_when_blocked w "Organized_Audio" f);
    [|reflexivity].
  unfold category_folders, category_names. simpl. tauto.
Defined.

(* ----------------------------------------------------------------- *)
(** ** Directories stay in place *)

Lemma lookup_dir_update_dir (d x : string) (f : dir -> dir) (r : rootdir) :
  is_some (lookup_dir (update_dir d f r) x) = is_some (lookup_dir r x).
Proof.
  unfold lookup_dir, update_dir.
  induction r as [|[k [g|es]] r IH]; simpl; [reflexivity| |].
  - destruct (String.eqb x k); [reflexivity | exact IH].
  - destruct (String.eqb d k); simpl; (destruct (String.eqb x k); [reflexivity | exact IH]).
Qed.

Lemma dirs_stay_mkdir (D : list string) (name : string) :
  preserves (dirs_stay D) (mkdir_exist_ok name).
Proof.
  unfold mkdir_exist_ok. preserves_tac.
  apply preserves_modify. intros w1 _ d Hd.
  match goal with H : dirs_stay D ?w0 |- _ => specialize (H d Hd); rename H into H0 end.
  cbn [w_root set_root]. unfold lookup_dir in *.
  match type of H0 with context [assoc d ?r] =>
    destruct (assoc d r) as [v|] eqn:Hv; [|discriminate] end.
  now rewrite (assoc_app_some _ _ _ _ Hv).
Qed.

Lemma dirs_stay_move (D : list string) (d0 n0 d n : string) :
  preserves (dirs_stay D) (shutil_move [d0; n0] d n).
Proof.
  unfold shutil_move. preserves_tac.
  apply preserves_modify. intros w1 _ x Hx. cbn [w_root set_root].
  unfold place, unlink. rewrite !lookup_dir_update_dir.
  match goal with H : dirs_stay D _ |- _ => now apply H end.
Qed.

Lemma dirs_stay_reanalyze_folder (D : list string) (dry_run : bool) (org_folder : string) :
  preserves (dirs_stay D) (reanalyze_folder dry_run org_folder).
Proof.
  unfold reanalyze_folder, reanalyze_loop, reanalyze_file.
  frame_with ltac:(first [apply dirs_stay_mkdir | apply dirs_stay_move]).
Qed.

(** X10. The reconcile pass removes no directory of the scanned folder
    and puts nothing else in its place: what was a directory before the
    pass is a directory after it, in a dry run as in a live run and
    however the pass ends.  The moves only take regular files, and a
    category folder is only ever added. *)
Theorem reanalysis_pass_keeps_directories
        (folder_exists dry_run : bool) (w : world) (d : string) (es : dir) :
  lookup_dir (w_root w) d = Some es ->
  is_some (lookup_dir
             (w_root (exec (reanalyze_organized_files folder_exists dry_run) w)) d)
  = true.
Proof.
  intros Hd.
  assert (H : preserves (dirs_stay [d])
                        (reanalyze_organized_files folder_exists dry_run)).
  { unfold reanalyze_organized_files.
    frame_with ltac:(apply dirs_stay_reanalyze_folder). }
  apply (H w); [|now left].
  intros d' [<-|[]]. now rewrite Hd.
Qed.

Lemma reanalysis_pass_keeps_directories_witness :
  let f := mkFile false true (Some "text/plain") None (Some "import x") true in
  let w := mkWorld [("Organized_Documents", RDir [("a.py", File f)])]
                   [] true [] None 0 zero_stats in
  is_some (lookup_dir (w_root (exec (reanalyze_organized_files true false) w))
                      "Organized_Documents")
  = true.
Proof.
  intros f w.
  apply (reanalysis_pass_keeps_directories true false w "Organized_Documents"
           [("a.py", File f)]).
  reflexivity.
Defined.

(* ----------------------------------------------------------------- *)
(** ** System files stay where they are *)

Lemma assoc_remove_key_other {A} (n x : string) (l : list (string * A)) :
  n <> x -> assoc n (remove_key x l) = assoc n l.
Proof.
  intros Hn. unfold remove_key.
  induction l as [|[k v] l IH]; simpl; [reflexivity|].
  destruct (String.eqb x k) eqn:Hx; simpl.
  - apply String.eqb_eq in Hx. subst k.
    destruct (String.eqb n x) eqn:E; [apply String.eqb_eq in E; contradiction | exact IH].
  - destruct (String.eqb n k); [reflexivity | exact IH].
Qed.

Lemma assoc_update_dir_file (n d : string) (g : dir -> dir) (r : rootdir) (f : file) :
  assoc n r = Some (RFile f) -> assoc n (update_dir d g r) = Some (RFile f).
Proof.
  unfold update_dir.
  induction r as [|[k [h|es]] r IH]; simpl; [discriminate| |].
  - destruct (String.eqb n k); [trivial | exact IH].
  - destruct (String.eqb d k); simpl; (destruct (String.eqb n k); [discriminate | exact IH]).
Qed.

Lemma root_file_stays_mkdir (n : string) (f : file) (name : string) :
  preserves (fun w => assoc n (w_root w) = Some (RFile f)) (mkdir_exist_ok name).
Proof.
  unfold mkdir_exist_ok. preserves_tac.
  apply preserves_modify. intros w1 _. cbn [w_root set_root].
  now apply assoc_app_some.
Qed.

Lemma root_file_stays_move (n x : string) (f : file) (d name : string) :
  n <> x ->
  preserves (fun w => assoc n (w_root w) = Some (RFile f)) (shutil_move [x] d name).
Proof.
  intros Hn. unfold shutil_move. preserves_tac.
  apply preserves_modify. intros w1 _. cbn [w_root set_root].
  unfold place, unlink. apply assoc_update_dir_file.
  now rewrite assoc_remove_key_other.
Qed.

Lemma root_file_stays_turn (n : string) (f : file) (x : string) :
  is_system_file [(n, RFile f)] [n] = true ->
  preserves (fun w => assoc n (w_root w) = Some (RFile f)) (organize_file x).
Proof.
  intros Hsys. destruct (string_dec n x) as [<-|Hn].
  - unfold organize_file. apply preserves_get_bind. intros w0 H0.
    assert (E : is_system_file (w_root w0) [n] = true).
    { unfold is_system_file, file_at in *. rewrite H0.
      simpl in Hsys. now rewrite String.eqb_refl in Hsys. }
    cbv zeta. rewrite E. frame_tac.
  - unfold organize_file.
    frame_with ltac:(apply root_file_stays_move; exact Hn).
Qed.

(** X11. The organize pass leaves a system file of the scanned folder
    where it is: a file whose name is in the list of system files or
    starts with a dot, or that is a symbolic link, is the same entry of
    the folder after the pass, whatever the pass does with the others. *)
Theorem organize_pass_keeps_system_files
        (folder_exists : bool) (w : world) (n : string) (f : file) :
  assoc n (w_root w) = Some (RFile f) ->
  is_system_file (w_root w) [n] = true ->
  assoc n (w_root (exec (organize_files_in_folder folder_exists) w))
  = Some (RFile f).
Proof.
  intros Hf Hsys.
  assert (Hs : is_system_file [(n, RFile f)] [n] = true).
  { unfold is_system_file, file_at in *. rewrite Hf in Hsys.
    simpl. now rewrite String.eqb_refl. }
  refine ((_ : preserves (fun w => assoc n (w_root w) = Some (RFile f))
                         (organize_files_in_folder folder_exists)) w Hf).
  unfold organize_files_in_folder, create_organized_folders, organize_loop.
  frame_with ltac:(first [apply root_file_stays_mkdir
                         | apply root_file_stays_turn; exact Hs]).
Qed.

Lemma organize_pass_keeps_system_files_witness :
  let f := mkFile false true (Some "text/plain") None (Some "x") true in
  let w := mkWorld [(".DS_Store", RFile f); ("notes.txt", RFile f)]
                   [] true [] None 0 zero_stats in
  assoc ".DS_Store" (w_root (exec (organize_files_in_folder true) w))
  = Some (RFile f).
Proof.
  intros f w.
  apply (organize_pass_keeps_system_files true w ".DS_Store" f); reflexivity.
Defined.

(* ----------------------------------------------------------------- *)
(** ** No file is lost or overwritten *)

Lemma contents_all_files (r : rootdir) : contents r = map snd (all_files r).
Proof.
  unfold contents, all_files.
  induction r as [|[k [f|es]] r IH]; simpl; [reflexivity | now rewrite IH |].
  rewrite map_app, IH. f_equal.
  unfold dir_contents. induction es as [|[n [f|]] es IHes]; simpl;
    [reflexivity | now rewrite IHes | exact IHes].
Qed.

Lemma contents_app (a b : rootdir) : contents (a ++ b) = contents a ++ contents b.
Proof. apply flat_map_app. Qed.

Lemma dir_contents_app (a b : dir) :
  dir_contents (a ++ b) = dir_contents a ++ dir_contents b.
Proof. apply flat_map_app. Qed.

Lemma assoc_split {A} (k : string) (l : list (string * A)) (v : A) :
  NoDup (map fst l) -> assoc k l = Some v ->
  exists a b, l = a ++ (k, v) :: b
              /\ ~ In k (map fst a) /\ ~ In k (map fst b).
Proof.
  induction l as [|[k' v'] l IH]; simpl; intros Hnd H; [discriminate|].
  inversion Hnd as [|? ? Hk Hnd']; subst.
  destruct (String.eqb k k') eqn:E.
  - apply String.eqb_eq in E. subst k'. injection H as <-.
    exists [], l. split; [reflexivity|]. split; [intros [] | exact Hk].
  - destruct (IH Hnd' H) as [a [b [-> [Ha Hb]]]].
    exists ((k', v') :: a), b. split; [reflexivity|]. split; [|exact Hb].
    intros [<-|Hin]; [now rewrite String.eqb_refl in E | now apply Ha].
Qed.

Lemma remove_key_notin {A} (k : string) (l : list (string * A)) :
  ~ In k (map fst l) -> remove_key k l = l.
Proof.
  unfold remove_key. induction l as [|[k' v] l IH]; simpl; intros H; [reflexivity|].
  destruct (String.eqb k k') eqn:E; simpl.
  - apply String.eqb_eq in E. subst k'. exfalso. apply H. now left.
  - f_equal. apply IH. intros Hin. apply H. now right.
Qed.

Lemma remove_key_app {A} (k : string) (a b : list (string * A)) :
  remove_key k (a ++ b) = remove_key k a ++ remove_key k b.
Proof. apply filter_app. Qed.

Lemma remove_key_split {A} (k : string) (l : list (string * A)) (v : A) :
  NoDup (map fst l) -> assoc k l = Some v ->
  exists a b, l = a ++ (k, v) :: b /\ remove_key k l = a ++ b.
Proof.
  intros Hnd H. destruct (assoc_split k l v Hnd H) as [a [b [-> [Ha Hb]]]].
  exists a, b. split; [reflexivity|].
  rewrite remove_key_app, (remove_key_notin k a Ha).
  unfold remove_key at 1. simpl. rewrite String.eqb_refl. simpl.
  fold (remove_key k b). now rewrite (remove_key_notin k b Hb).
Qed.

Lemma update_dir_notin (d : string) (g : dir -> dir) (r : rootdir) :
  ~ In d (map fst r) -> update_dir d g r = r.
Proof.
  unfold update_dir. induction r as [|[k [f|es]] r IH]; simpl; intros H;
    [reflexivity| |].
  - f_equal. apply IH. intros Hin. apply H. now right.
  - destruct (String.eqb d k) eqn:E.
    + apply String.eqb_eq in E. subst k. exfalso. apply H. now left.
    + f_equal. apply IH. intros Hin. apply H. now right.
Qed.

Lemma update_dir_split (d : string) (r : rootdir) (es : dir) :
  NoDup (map fst r) -> lookup_dir r d = Some es ->
  exists a b, r = a ++ (d, RDir es) :: b
              /\ forall g, update_dir d g r = a ++ (d, RDir (g es)) :: b.
Proof.
  intros Hnd H. unfold lookup_dir in H.
  destruct (assoc d r) as [[f|es']|] eqn:Ha; try discriminate.
  injection H as ->.
  destruct (assoc_split d r _ Hnd Ha) as [a [b [-> [Hna Hnb]]]].
  exists a, b. split; [reflexivity|]. intros g.
  unfold update_dir. rewrite map_app. simpl. rewrite String.eqb_refl.
  fold (update_dir d g a). fold (update_dir d g b).
  now rewrite (update_dir_notin d g a Hna), (update_dir_notin d g b Hnb).
Qed.

Lemma perm_inside (f : file) (X Y ca cb : list file) :
  Permutation (f :: X) Y ->
  Permutation (f :: ca ++ X ++ cb) (ca ++ Y ++ cb).
Proof.
  intros H. etransitivity; [apply Permutation_middle|].
  apply Permutation_app_head.
  change (f :: X ++ cb) with ((f :: X) ++ cb).
  now apply Permutation_app_tail.
Qed.

(** Changing one directory changes the files of the folder as it
    changes the files of that directory. *)
Lemma contents_update_dir (d : string) (g : dir -> dir) (r : rootdir) (es : dir)
      (f : file) :
  NoDup (map fst r) -> lookup_dir r d = Some es ->
  (Permutation (f :: dir_contents (g es)) (dir_contents es) ->
   Permutation (f :: contents (update_dir d g r)) (contents r))
  /\ (Permutation (f :: dir_contents es) (dir_contents (g es)) ->
      Permutation (f :: contents r) (contents (update_dir d g r))).
Proof.
  intros Hnd H. destruct (update_dir_split d r es Hnd H) as [a [b [-> Hu]]].
  rewrite Hu, !contents_app. cbn [contents flat_map snd].
  fold (contents b). split; intros Hp; now apply perm_inside.
Qed.

Lemma dir_contents_remove (x : string) (es : dir) (f : file) :
  NoDup (map fst es) -> assoc x es = Some (File f) ->
  Permutation (f :: dir_contents (remove_key x es)) (dir_contents es).
Proof.
  intros Hnd H. destruct (remove_key_split x es _ Hnd H) as [a [b [-> ->]]].
  rewrite !dir_contents_app. apply Permutation_middle.
Qed.

Lemma contents_remove (x : string) (r : rootdir) (f : file) :
  NoDup (map fst r) -> assoc x r = Some (RFile f) ->
  Permutation (f :: contents (remove_key x r)) (contents r).
Proof.
  intros Hnd H. destruct (remove_key_split x r _ Hnd H) as [a [b [-> ->]]].
  rewrite !contents_app. apply Permutation_middle.
Qed.

Lemma remove_key_names {A} (k : string) (l : list (string * A)) :
  map fst (remove_key k l) = filter (fun n => negb (String.eqb k n)) (map fst l).
Proof.
  unfold remove_key. induction l as [|[k' v] l IH]; simpl; [reflexivity|].
  destruct (String.eqb k k'); simpl; now rewrite IH.
Qed.

Lemma remove_key_NoDup {A} (k : string) (l : list (string * A)) :
  NoDup (map fst l) -> NoDup (map fst (remove_key k l)).
Proof. intros H. rewrite remove_key_names. now apply NoDup_filter. Qed.

Lemma remove_key_gone {A} (k : string) (l : list (string * A)) :
  ~ In k (map fst (remove_key k l)).
Proof.
  rewrite remove_key_names. intros H. apply filter_In in H as [_ H].
  now rewrite String.eqb_refl in H.
Qed.

Lemma remove_key_In {A} (k : string) (l : list (string * A)) (e : string * A) :
  In e (remove_key k l) -> In e l.
Proof. unfold remove_key. intros H. now apply filter_In in H as [H _]. Qed.

Lemma placed_NoDup (n : string) (f : file) (es : dir) :
  NoDup (map fst es) ->
  NoDup (map fst (match assoc n es with
                  | Some SubDir => es
                  | _ => remove_key n es ++ [(n, File f)]
                  end)).
Proof.
  intros Hnd.
  assert (H : NoDup (map fst (remove_key n es ++ [(n, File f)]))).
  { rewrite map_app. simpl. apply NoDup_app.
    - now apply remove_key_NoDup.
    - constructor; [intros [] | constructor].
    - intros k Hk [<-|[]]. now apply remove_key_gone in Hk. }
  destruct (assoc n es) as [[g|]|]; assumption.
Qed.

Lemma update_dir_In (d : string) (g : dir -> dir) (r : rootdir) (k : string)
      (es' : dir) :
  In (k, RDir es') (update_dir d g r) ->
  exists es, In (k, RDir es) r /\ (es' = es \/ es' = g es).
Proof.
  unfold update_dir. intros H. apply in_map_iff in H as [[k0 [f|es]] [E Hin]];
    simpl in E.
  - discriminate.
  - destruct (String.eqb d k0); injection E as <- <-; exists es;
      (split; [exact Hin|]); [now right | now left].
Qed.

Lemma well_formed_update_dir (d : string) (g : dir -> dir) (r : rootdir) :
  (forall es, NoDup (map fst es) -> NoDup (map fst (g es))) ->
  well_formed r -> well_formed (update_dir d g r).
Proof.
  intros Hg [Hnd Hdirs]. split; [now rewrite update_dir_names|].
  intros k es' Hin. apply update_dir_In in Hin as [es [Hin [->| ->]]].
  - now apply (Hdirs k).
  - apply Hg. now apply (Hdirs k).
Qed.

Lemma well_formed_remove_key (x : string) (r : rootdir) :
  well_formed r -> well_formed (remove_key x r).
Proof.
  intros [Hnd Hdirs]. split; [now apply remove_key_NoDup|].
  intros k es Hin. apply remove_key_In in Hin. now apply (Hdirs k).
Qed.

Lemma assoc_None_notin {A} (k : string) (l : list (string * A)) :
  assoc k l = None -> In k (map fst l) <-> False.
Proof.
  induction l as [|[k' v] l IH]; simpl; intros H; [tauto|].
  destruct (String.eqb_spec k k') as [->|Hne]; [discriminate|].
  specialize (IH H). split; [intros [E|Hin]; [congruence | tauto] | tauto].
Qed.

Lemma well_formed_new_dir (name : string) (r : rootdir) :
  assoc name r = None -> well_formed r -> well_formed (r ++ [(name, RDir [])]).
Proof.
  intros Ha [Hnd Hdirs]. split.
  - rewrite map_app. simpl. apply NoDup_app.
    + exact Hnd.
    + constructor; [intros [] | constructor].
    + intros k Hk [<-|[]]. now rewrite (assoc_None_notin _ _ Ha) in Hk.
  - intros k es Hin. apply in_app_or in Hin as [Hin|[E|[]]].
    + now apply (Hdirs k).
    + injection E as <- <-. constructor.
Qed.

Lemma lookup_dir_In (r : rootdir) (d : string) (es : dir) :
  lookup_dir r d = Some es -> In (d, RDir es) r.
Proof.
  unfold lookup_dir. induction r as [|[k v] r IH]; simpl; [discriminate|].
  destruct (String.eqb_spec d k) as [->|Hne].
  - destruct v as [f|es']; [discriminate|]. intros H. injection H as ->. now left.
  - intros H. right. now apply IH.
Qed.

Lemma lookup_dir_remove_key (x d : string) (r : rootdir) :
  d <> x -> lookup_dir (remove_key x r) d = lookup_dir r d.
Proof. intros H. unfold lookup_dir. now rewrite assoc_remove_key_other. Qed.

Lemma lookup_dir_update (d0 d : string) (g : dir -> dir) (r : rootdir) :
  lookup_dir (update_dir d0 g r) d
  = if String.eqb d0 d then option_map g (lookup_dir r d) else lookup_dir r d.
Proof.
  unfold lookup_dir, update_dir.
  induction r as [|[k [f|es]] r IH]; simpl.
  - now destruct (String.eqb d0 d).
  - destruct (String.eqb d k); [now destruct (String.eqb d0 d) | exact IH].
  - destruct (String.eqb_spec d0 k) as [->|H0]; simpl;
      destruct (String.eqb_spec d k) as [->|H1]; try exact IH.
    + now rewrite String.eqb_refl.
    + destruct (String.eqb_spec d0 k) as [->|H2]; [contradiction | reflexivity].
Qed.

Lemma assoc_remove_key_none {A} (n x : string) (l : list (string * A)) :
  assoc n l = None -> assoc n (remove_key x l) = None.
Proof.
  intros H. apply assoc_notin. intros Hin.
  apply (assoc_None_notin _ _ H).
  apply in_map_iff in Hin as [e [E He]]. apply remove_key_In in He.
  apply in_map_iff. now exists e.
Qed.

(** Putting a file under a free name of a directory adds that file to
    the files of the folder, and nothing else. *)
Lemma place_conserves (r : rootdir) (d n : string) (f : file) (es : dir) :
  well_formed r -> lookup_dir r d = Some es -> assoc n es = None ->
  well_formed (place d n f r)
  /\ Permutation (f :: contents r) (contents (place d n f r)).
Proof.
  intros Hwf Hd Hn. unfold place. split.
  - apply well_formed_update_dir; [|exact Hwf]. intros es'. apply placed_NoDup.
  - apply (contents_update_dir d _ r es f (proj1 Hwf) Hd).
    rewrite Hn, remove_key_notin by (now rewrite (assoc_None_notin _ _ Hn)).
    rewrite dir_contents_app. simpl. apply Permutation_cons_append.
Qed.

Lemma path_free (r : rootdir) (d n : string) (es : dir) :
  path_exists r [d; n] = false -> lookup_dir r d = Some es -> assoc n es = None.
Proof.
  unfold path_exists. intros H Hd. rewrite Hd in H.
  now destruct (assoc n es).
Qed.

(** Moving a file of the scanned folder to a free name of one of its
    directories keeps the files of the folder. *)
Lemma move_root_conserves (r : rootdir) (x d n : string) (f : file) :
  well_formed r -> file_at r [x] = Some f ->
  is_some (lookup_dir r d) = true -> path_exists r [d; n] = false ->
  well_formed (place d n f (unlink [x] r))
  /\ Permutation (contents (place d n f (unlink [x] r))) (contents r).
Proof.
  intros Hwf Hx Hd Hfree. cbn [unlink].
  unfold file_at in Hx.
  destruct (assoc x r) as [[f'|]|] eqn:Hax; try discriminate. injection Hx as ->.
  destruct (lookup_dir r d) as [es|] eqn:Hld; [|discriminate].
  assert (Hne : d <> x).
  { intros ->. unfold lookup_dir in Hld. now rewrite Hax in Hld. }
  destruct (place_conserves (remove_key x r) d n f es) as [H1 H2].
  - now apply well_formed_remove_key.
  - now rewrite lookup_dir_remove_key.
  - now apply (path_free r d).
  - split; [exact H1|]. symmetry. etransitivity; [|exact H2].
    symmetry. apply contents_remove; [apply Hwf | exact Hax].
Qed.

(** Moving a file of a directory to a free name of the same or another
    directory keeps the files of the folder. *)
Lemma move_dir_conserves (r : rootdir) (d0 x d n : string) (f : file) :
  well_formed r -> file_at r [d0; x] = Some f ->
  is_some (lookup_dir r d) = true -> path_exists r [d; n] = false ->
  well_formed (place d n f (unlink [d0; x] r))
  /\ Permutation (contents (place d n f (unlink [d0; x] r))) (contents r).
Proof.
  intros Hwf Hx Hd Hfree. cbn [unlink].
  unfold file_at in Hx.
  destruct (lookup_dir r d0) as [es0|] eqn:Hd0; [|discriminate].
  destruct (assoc x es0) as [[f'|]|] eqn:Hax; try discriminate. injection Hx as ->.
  destruct (lookup_dir r d) as [es|] eqn:Hld; [|discriminate].
  pose proof (path_free r d n es Hfree Hld) as Hn.
  assert (Hwf1 : well_formed (update_dir d0 (remove_key x) r)).
  { apply well_formed_update_dir; [|exact Hwf]. intros es'. apply remove_key_NoDup. }
  assert (Hp1 : Permutation (f :: contents (update_dir d0 (remove_key x) r))
                            (contents r)).
  { apply (contents_update_dir d0 _ r es0 f (proj1 Hwf) Hd0).
    apply dir_contents_remove; [|exact Hax].
    apply (proj2 Hwf d0). now apply lookup_dir_In. }
  assert (Hd1 : exists es1, lookup_dir (update_dir d0 (remove_key x) r) d = Some es1
                            /\ assoc n es1 = None).
  { rewrite lookup_dir_update, Hld. destruct (String.eqb d0 d).
    - eexists. split; [reflexivity|]. now apply assoc_remove_key_none.
    - now exists es. }
  destruct Hd1 as [es1 [Hd1 Hn1]].
  destruct (place_conserves _ d n f es1 Hwf1 Hd1 Hn1) as [H1 H2].
  split; [exact H1|]. symmetry. etransitivity; [|exact H2]. now symmetry.
Qed.

Lemma conserved_mkdir (C : list file) (name : string) :
  preserves (conserved C) (mkdir_exist_ok name).
Proof.
  intros w [Hwf Hp]. unfold exec, mkdir_exist_ok. rewrite bind_get.
  destruct (assoc name (w_root w)) as [[f|es]|] eqn:Ha; [now split | now split |].
  split; cbn [fst modify w_root set_root].
  - now apply well_formed_new_dir.
  - rewrite contents_app. simpl. now rewrite app_nil_r.
Qed.

Lemma conflict_loop_free (fuel : nat) (busy : string -> bool)
      (new_name suffix new_filename : string) :
  conflict_loop fuel busy new_name suffix (new_name ++ suffix)%string 1
  = Some new_filename ->
  busy new_filename = false.
Proof.
  intros H. now apply (conflict_loop_some busy new_name suffix fuel 0) in H.
Qed.

(** One turn of the organize loop keeps the files of the folder. *)
Lemma organize_turn_conserves (C : list file) (file_name : string) :
  preserves (conserved C)
            (try_except (organize_file file_name)
                        (fun _ => log (LogError file_name))).
Proof.
  intros w Hw.
  assert (Hnone : forall w', w_root w' = w_root w -> conserved C w').
  { intros w' H. unfold conserved. now rewrite H. }
  unfold exec, organize_file. rewrite exec_try_get.
  destruct (is_system_file (w_root w) [file_name]); [now apply Hnone|].
  rewrite (exec_try_bind _ _ _ _ _ _ (get_file_type_run _ w)).
  rewrite (exec_try_bind _ _ _ _ (add_event _ w) tt eq_refl).
  unfold try_except. rewrite bind_extract_metadata.
  cbn [w_root add_event path_name last].
  destruct (file_at (w_root w) [file_name]) as [f|] eqn:Hf; [|now apply Hnone].
  destruct (f_stat_ok f); [|now apply Hnone].
  rewrite bind_read_file_content.
  match goal with
  | |- context [bind (generate_smart_filename ?p ?md ?c) _ ?w0] =>
      destruct (generate_smart_filename_run p md c w0)
        as [new_name [w1 [Hg [Hr _]]]]
  end.
  rewrite (exec_bind _ _ _ _ _ Hg). cbn [w_root add_event] in Hr.
  rewrite bind_get.
  set (category := snd (file_type true (PurePath.suffix file_name) (f_mime f))).
  destruct (conflict_loop _ _ _ _ _ _) as [new_filename|] eqn:Hcl;
    [|now apply Hnone].
  apply conflict_loop_free in Hcl. unfold busy_organize in Hcl.
  rewrite bind_shutil_move. rewrite Hr in *. rewrite Hf.
  destruct (negb (f_movable f)); [now apply Hnone|].
  destruct (Py.contains "/" new_filename); [now apply Hnone|].
  destruct (is_some (lookup_dir (w_root w) (organized_name category))) eqn:Hd;
    cbn [negb]; [|now apply Hnone].
  destruct Hw as [Hwf Hp].
  destruct (move_root_conserves _ _ _ _ _ Hwf Hf Hd Hcl) as [H1 H2].
  assert (Hmoved : forall w',
             w_root w' = place (organized_name category) new_filename f
                               (unlink [file_name] (w_root w)) ->
             conserved C w').
  { intros w' H. unfold conserved. rewrite H. split; [exact H1|].
    now rewrite H2. }
  rewrite bind_log. unfold save_action_log. rewrite bind_get.
  cbn [w_log_writable set_root add_event].
  destruct (w_log_writable w1); apply Hmoved; reflexivity.
Qed.

Lemma organize_pass_conserved (C : list file) (folder_exists : bool) :
  preserves (conserved C) (organize_files_in_folder folder_exists).
Proof.
  unfold organize_files_in_folder, create_organized_folders, organize_loop.
  frame_with ltac:(first [apply conserved_mkdir | apply organize_turn_conserves]).
Qed.

(** X12. When no move fails half-way, the organize pass loses no file
    and overwrites none.  On a folder in which no two entries of the
    folder or of one of its directories share a name, and all of whose
    files [shutil.move] can move, the regular files below the folder
    after the pass are the files that were there before it, each one
    once, and the folder is again without shared names: every move goes
    to a name that the conflict loop has found free. *)
Theorem organize_pass_conserves_files (folder_exists : bool) (w : world) :
  well_formed (w_root w) ->
  (forall f, In f (contents (w_root w)) -> f_movable f = true) ->
  well_formed (w_root (exec (organize_files_in_folder folder_exists) w))
  /\ Permutation (contents (w_root (exec (organize_files_in_folder folder_exists) w)))
                 (contents (w_root w)).
Proof.
  intros Hwf _.
  exact (organize_pass_conserved (contents (w_root w)) folder_exists w
           (conj Hwf (Permutation_refl _))).
Qed.

Lemma organize_pass_conserves_files_witness :
  let f := mkFile false true (Some "text/plain") None (Some "x") true in
  let w := mkWorld [("notes.txt", RFile f); ("Organized_Documents", RDir [("notes.txt", File f)])]
                   [] true [] None 0 zero_stats in
  well_formed (w_root (exec (organize_files_in_folder true) w))
  /\ Permutation (contents (w_root (exec (organize_files_in_folder true) w)))
                 [f; f].
Proof.
  intros f w.
  apply (organize_pass_conserves_files true w).
  - split.
    + simpl. constructor; [intros [E|[]]; discriminate E|].
      constructor; [intros [] | constructor].
    + intros d es [E|[E|[]]]; [discriminate E|]. injection E as <- <-.
      simpl. constructor; [intros [] | constructor].
  - intros g [<-|[<-|[]]]; reflexivity.
Defined.

Lemma when_mkdir_run_inv (P : world -> Prop) (c : bool) (name : string) (w : world) :
  preserves P (mkdir_exist_ok name) -> P w ->
  (exists w2, P w2 /\ w_stats w2 = w_stats w
              /\ forall B (k : unit -> M B),
                  bind (when c (mkdir_exist_ok name)) k w = k tt w2)
  \/ (forall B (k : unit -> M B),
         bind (when c (mkdir_exist_ok name)) k w = (w, Raised FileExistsError)).
Proof.
  intros Hp Hw. specialize (Hp w Hw). unfold exec in Hp.
  destruct c.
  - unfold mkdir_exist_ok in Hp. rewrite bind_get in Hp.
    destruct (assoc name (w_root w)) as [[f|es]|] eqn:Ha.
    + right. intros B k. now rewrite bind_when, bind_mkdir_exist_ok, Ha.
    + left. exists w. split; [exact Hw|]. split; [reflexivity|].
      intros B k. now rewrite bind_when, bind_mkdir_exist_ok, Ha.
    + left. exists (set_root (w_root w ++ [(name, RDir [])]) w).
      split; [exact Hp|]. split; [reflexivity|].
      intros B k. now rewrite bind_when, bind_mkdir_exist_ok, Ha.
  - left. exists w. split; [exact Hw|]. split; [reflexivity|].
    intros B k. now rewrite bind_when.
Qed.

(** One turn of the reconcile loop keeps the files of the folder. *)
Lemma reanalyze_turn_conserves (C : list file) (dry_run : bool)
      (org_folder current_category file_name : string) :
  preserves (conserved C)
            (try_except
               (reanalyze_file dry_run org_folder current_category file_name)
               (fun _ => log (LogError file_name))).
Proof.
  intros w Hw.
  assert (Hsame : forall w0 w', conserved C w0 -> w_root w' = w_root w0 ->
                                conserved C w').
  { intros w0 w' H0 H. unfold conserved. now rewrite H. }
  assert (Hnone : forall w', w_root w' = w_root w -> conserved C w').
  { intros w'. now apply Hsame. }
  unfold exec, reanalyze_file.
  rewrite (exec_try_bind _ _ _ _ (set_stats (count_processed (w_stats w)) w) tt eq_refl).
  rewrite exec_try_get. cbn [w_root set_stats].
  destruct (is_system_file (w_root w) [org_folder; file_name]);
    [now apply Hnone|].
  rewrite (exec_try_bind _ _ _ _ _ tt
             (eq_refl : log (LogReanalyzing file_name) _ = (_, Ok tt))).
  rewrite (exec_try_bind _ _ _ _ _ _ (get_file_type_run _ _)).
  cbn [w_root set_stats add_event path_name last].
  unfold try_except. rewrite bind_extract_metadata.
  cbn [w_root set_stats add_event path_name last].
  destruct (file_at (w_root w) [org_folder; file_name]) as [f|] eqn:Hf;
    [|now apply Hnone].
  destruct (f_stat_ok f); [|now apply Hnone].
  rewrite bind_read_file_content.
  match goal with
  | |- context [bind (generate_smart_filename ?p ?md ?c) _ ?w0] =>
      destruct (generate_smart_filename_run p md c w0)
        as [new_name [w1 [Hg [Hr1 _]]]]
  end.
  rewrite (exec_bind _ _ _ _ _ Hg). cbn [w_root set_stats add_event] in Hr1.
  set (new_category := snd (file_type true (PurePath.suffix file_name) (f_mime f))).
  set (ncm := negb (String.eqb new_category current_category)).
  set (nr := negb (String.eqb (new_name ++ PurePath.suffix file_name) file_name)).
  destruct (ncm || nr).
  2:{ destruct dry_run; cbn; apply Hnone; exact Hr1. }
  assert (Hw1 : conserved C w1) by (now apply (Hsame w)).
  destruct (when_mkdir_run_inv (conserved C) ncm (organized_name new_category) w1
              (conserved_mkdir C _) Hw1)
    as [[w2 [Hw2 [_ Hmk]]]|Hmk]; rewrite Hmk; [|exact Hw1].
  rewrite bind_get.
  set (new_dest_folder := if ncm then organized_name new_category else org_folder).
  destruct (conflict_loop _ _ _ _ _ _) as [new_filename|] eqn:Hcl;
    [|exact Hw2].
  apply conflict_loop_free in Hcl. unfold busy_reanalyze in Hcl.
  match goal with
  | |- context [when ?c (bump count_ai_improvement)] => generalize c
  end.
  intros improved.
  match goal with
  | |- context [mkLog true _ _ _ _ _ _ ?ct _] => generalize ct
  end.
  intros change_type.
  rewrite (bind_when ncm).
  assert (Hrest : forall w3,
             w_root w3 = w_root w2 ->
             conserved C
                 (fst (match
                          bind (if dry_run
                                then log (LogDryRun file_name change_type)
                                else when (negb (path_eqb [new_dest_folder; new_filename]
                                                          [org_folder; file_name]))
                                       (shutil_move [org_folder; file_name]
                                                    new_dest_folder new_filename ;;
                                        log (LogUpdated change_type) ;;
                                        save_action_log
                                          (mkLog true [org_folder; file_name]
                                             [new_dest_folder; new_filename]
                                             file_name new_filename current_category
                                             new_category change_type
                                             (fst (file_type true
                                                     (PurePath.suffix file_name)
                                                     (f_mime f))))))
                               (fun _ => when improved (bump count_ai_improvement)) w3
                        with
                        | (w', Ok a) => (w', Ok a)
                        | (w', Raised _) => log (LogError file_name) w'
                        end))).
  { intros w3 Hr3.
    assert (Hkeep : forall w', w_root w' = w_root w3 -> conserved C w').
    { intros w' H. apply (Hsame w2 w' Hw2). congruence. }
    destruct dry_run.
    - rewrite bind_log. destruct improved; cbn; apply Hkeep; reflexivity.
    - rewrite bind_when.
      destruct (negb (path_eqb _ _)) eqn:Hp.
      2:{ destruct improved; cbn; apply Hkeep; reflexivity. }
      rewrite andb_true_r in Hcl.
      rewrite !bind_assoc, bind_shutil_move.
      destruct (file_at (w_root w3) [org_folder; file_name]) as [g|] eqn:Hg3;
        [|now apply Hkeep].
      destruct (negb (f_movable g)); [now apply Hkeep|].
      destruct (Py.contains "/" new_filename); [now apply Hkeep|].
      destruct (is_some (lookup_dir (w_root w3) new_dest_folder)) eqn:Hd;
        cbn [negb]; [|now apply Hkeep].
      rewrite Hr3 in *. destruct Hw2 as [Hwf2 Hp2].
      destruct (move_dir_conserves _ _ _ _ _ _ Hwf2 Hg3 Hd Hcl) as [H1 H2].
      assert (Hmoved : forall w',
                 w_root w' = place new_dest_folder new_filename g
                                   (unlink [org_folder; file_name] (w_root w2)) ->
                 conserved C w').
      { intros w' H. unfold conserved. rewrite H. split; [exact H1|].
        now rewrite H2. }
      rewrite bind_assoc, bind_log, bind_save_action_log.
      cbn [w_log_writable set_root add_event].
      destruct (w_log_writable w3); [|now apply Hmoved].
      destruct improved; cbn; apply Hmoved; reflexivity. }
  destruct ncm; rewrite ?bind_bump; rewrite (bind_when nr);
    destruct nr; rewrite ?bind_bump; apply Hrest; reflexivity.
Qed.

Lemma reanalysis_pass_conserved (C : list file) (folder_exists dry_run : bool) :
  preserves (conserved C) (reanalyze_organized_files folder_exists dry_run).
Proof.
  unfold reanalyze_organized_files, reanalyze_folder, reanalyze_loop.
  frame_with ltac:(apply reanalyze_turn_conserves).
Qed.

(** X13. When no move fails half-way, the reconcile pass loses no file
    and overwrites none: on a folder without shared names, all of
    whose files [shutil.move] can move, the regular files below the
    folder after the pass are the files that were there before it, each
    one once, whether or not the pass is a dry run, and the folder is
    again without shared names. *)
Theorem reanalysis_pass_conserves_files (folder_exists dry_run : bool) (w : world) :
  well_formed (w_root w) ->
  (forall f, In f (contents (w_root w)) -> f_movable f = true) ->
  well_formed (w_root (exec (reanalyze_organized_files folder_exists dry_run) w))
  /\ Permutation
       (contents (w_root (exec (reanalyze_organized_files folder_exists dry_run) w)))
       (contents (w_root w)).
Proof.
  intros Hwf _.
  exact (reanalysis_pass_conserved (contents (w_root w)) folder_exists dry_run w
           (conj Hwf (Permutation_refl _))).
Qed.

Lemma reanalysis_pass_conserves_files_witness :
  let f := mkFile false true (Some "text/plain") None (Some "x") true in
  let w := mkWorld [("Organized_Images", RDir [("notes.txt", File f)])]
                   [] true [] None 0 zero_stats in
  well_formed (w_root (exec (reanalyze_organized_files true false) w))
  /\ Permutation (contents (w_root (exec (reanalyze_organized_files true false) w)))
                 [f].
Proof.
  intros f w.
  apply (reanalysis_pass_conserves_files true false w).
  - split.
    + simpl. constructor; [intros [] | constructor].
    + intros d es [E|[]]. injection E as <- <-.
      simpl. constructor; [intros [] | constructor].
  - intros g [<-|[]]. reflexivity.
Defined.

(* ----------------------------------------------------------------- *)
(** ** At most one request per file *)

Lemma calls_within_frame {A} (m : M A) :
  (forall n, preserves (fun w => w_ai_calls w = n) m) -> calls_within 0 m.
Proof. intros H w. rewrite (H _ w eq_refl). lia. Qed.

Lemma calls_within_weaken {A} (a b : nat) (m : M A) :
  a <= b -> calls_within a m -> calls_within b m.
Proof. intros Hab H w. specialize (H w). lia. Qed.

Lemma calls_within_bind {A B} (a b : nat) (m : M A) (k : A -> M B) :
  calls_within a m -> (forall x, calls_within b (k x)) ->
  calls_within (a + b) (bind m k).
Proof.
  intros Hm Hk w. specialize (Hm w). unfold exec, bind in *.
  destruct (m w) as [w1 [x|e]]; simpl in *; [|lia].
  specialize (Hk x w1). unfold exec in Hk. lia.
Qed.

Lemma calls_within_try {A} (a : nat) (m : M A) (h : exn -> M A) :
  calls_within a m -> (forall e, calls_within 0 (h e)) ->
  calls_within a (try_except m h).
Proof.
  intros Hm Hh w. specialize (Hm w). unfold exec, try_except in *.
  destruct (m w) as [w1 [x|e]]; simpl in *; [lia|].
  specialize (Hh e w1). unfold exec in Hh. lia.
Qed.

Lemma calls_within_for_each {A} (l : list A) (body : A -> M unit) :
  (forall x, calls_within 1 (body x)) ->
  calls_within (List.length l) (for_each l body).
Proof.
  intros Hb. induction l as [|x l IH]; simpl.
  - intros w. unfold exec. cbn. lia.
  - apply (calls_within_bind 1 (List.length l)); [apply Hb | intros _; exact IH].
Qed.

Lemma calls_within_analyze (p : path) (c : string) :
  calls_within 1 (analyze_content_with_ai p c).
Proof.
  intros w. unfold exec, analyze_content_with_ai, bind, get, modify, log, ret.
  destruct (w_ai_client w) as [client|]; cbn; [|lia].
  destruct (client _ _ _ _) as [content|msg]; cbn; [lia|].
  destruct (classify_ai_error msg); cbn; lia.
Qed.

Lemma calls_within_generate (p : path) (md : metadata) (c : string) :
  calls_within 1 (generate_smart_filename p md c).
Proof.
  unfold generate_smart_filename.
  apply (calls_within_bind 0 1); [apply calls_within_frame; intros n; frame_tac|].
  intros w0. destruct (_ && _).
  - apply (calls_within_bind 1 0); [apply calls_within_analyze|].
    intros s. apply calls_within_frame. intros n. frame_tac.
  - apply (calls_within_weaken 0); [lia|].
    apply calls_within_frame. intros n. frame_tac.
Qed.

(** Steps over a part of a method that sends no request. *)
Ltac calls_skip :=
  apply (calls_within_bind 0 1);
  [apply calls_within_frame; intros ?; frame_tac | intros ?].

Ltac calls_none :=
  apply (calls_within_weaken 0); [lia|];
  apply calls_within_frame; intros ?; frame_tac.

Lemma calls_within_organize_turn (file_name : string) :
  calls_within 1 (try_except (organize_file file_name)
                             (fun _ => log (LogError file_name))).
Proof.
  apply calls_within_try; [|intros e; apply calls_within_frame; intros n; frame_tac].
  unfold organize_file. calls_skip.
  destruct (is_system_file _ _); [calls_none|].
  calls_skip. calls_skip. calls_skip. calls_skip.
  apply (calls_within_bind 1 0); [apply calls_within_generate|].
  intros new_name. apply calls_within_frame. intros n. frame_tac.
Qed.

Lemma root_files_new_dir (r : rootdir) (name : string) :
  root_files (r ++ [(name, RDir [])]) = root_files r.
Proof. unfold root_files. rewrite flat_map_app. simpl. now rewrite app_nil_r. Qed.

Lemma create_organized_folders_listing (R : list string) (n : nat) :
  preserves (fun w => root_files (w_root w) = R /\ w_ai_calls w = n)
            create_organized_folders.
Proof.
  assert (Hmk : forall name,
             preserves (fun w => root_files (w_root w) = R /\ w_ai_calls w = n)
                       (mkdir_exist_ok name)).
  { intros name w [H1 H2]. unfold exec, mkdir_exist_ok. rewrite bind_get.
    destruct (assoc name (w_root w)) as [[f|es]|]; [now split | now split |].
    cbn [fst modify w_root set_root w_ai_calls].
    now rewrite root_files_new_dir. }
  unfold create_organized_folders. frame_with ltac:(apply Hmk).
Qed.

(** X14. The organize pass sends at most one request to the
    collaborator for each file that the scanned folder lists. *)
Theorem organize_pass_requests_bounded (folder_exists : bool) (w : world) :
  w_ai_calls (exec (organize_files_in_folder folder_exists) w)
  <= w_ai_calls w + List.length (root_files (w_root w)).
Proof.
  unfold organize_files_in_folder. destruct folder_exists; cbn [negb].
  2:{ cbn. lia. }
  pose proof (create_organized_folders_listing _ _ w (conj eq_refl eq_refl))
    as [Hr Hc].
  unfold exec in *. unfold bind at 1.
  destruct (create_organized_folders w) as [w1 [[]|e]]; cbn [fst] in *; [|lia].
  rewrite bind_get, <- Hr, <- Hc.
  apply (calls_within_for_each (root_files (w_root w1))).
  intros x. apply calls_within_organize_turn.
Qed.

Lemma balanced_frame {A} (m : M A) :
  (forall n k, preserves (fun w => w_ai_calls w = n
                                   /\ files_processed (w_stats w) = k) m) ->
  balanced m.
Proof.
  intros H w. destruct (H _ _ w (conj eq_refl eq_refl)) as [-> ->]. lia.
Qed.

Lemma balanced_bind {A B} (m : M A) (k : A -> M B) :
  balanced m -> (forall x, balanced (k x)) -> balanced (bind m k).
Proof.
  intros Hm Hk w. specialize (Hm w). unfold exec, bind in *.
  destruct (m w) as [w1 [x|e]]; simpl in *; [|lia].
  specialize (Hk x w1). unfold exec in Hk. lia.
Qed.

Lemma balanced_for_each {A} (l : list A) (body : A -> M unit) :
  (forall x, balanced (body x)) -> balanced (for_each l body).
Proof.
  intros Hb. induction l as [|x l IH]; simpl.
  - intros w. unfold exec. cbn. lia.
  - apply balanced_bind; [apply Hb | intros _; exact IH].
Qed.

(** A turn that first adds one to [files_processed] and then sends at
    most one request is balanced. *)
Lemma balanced_turn (k : unit -> M unit) (h : exn -> M unit) :
  calls_within 1 (try_except (k tt) h) ->
  (forall n, preserves (fun w => files_processed (w_stats w) = n)
                       (try_except (k tt) h)) ->
  balanced (try_except (bind (bump count_processed) k) h).
Proof.
  intros Hc Hp w. unfold exec.
  rewrite (exec_try_bind _ _ _ _ (set_stats (count_processed (w_stats w)) w) tt eq_refl).
  specialize (Hc (set_stats (count_processed (w_stats w)) w)).
  specialize (Hp _ (set_stats (count_processed (w_stats w)) w) eq_refl).
  unfold exec in *. rewrite Hp. cbn in *. lia.
Qed.

Lemma balanced_reanalyze_turn (dry_run : bool)
      (org_folder current_category file_name : string) :
  balanced (try_except
              (reanalyze_file dry_run org_folder current_category file_name)
              (fun _ => log (LogError file_name))).
Proof.
  unfold reanalyze_file. apply balanced_turn.
  - apply calls_within_try;
      [|intros e; apply calls_within_frame; intros n; frame_tac].
    calls_skip. destruct (is_system_file _ _); [calls_none|].
    calls_skip. calls_skip. calls_skip. calls_skip.
    apply (calls_within_bind 1 0); [apply calls_within_generate|].
    intros new_name. apply calls_within_frame. intros n. frame_tac.
  - intros n. frame_tac.
Qed.

Lemma balanced_reanalyze_folder (dry_run : bool) (org_folder : string) :
  balanced (reanalyze_folder dry_run org_folder).
Proof.
  unfold reanalyze_folder, reanalyze_loop.
  apply balanced_bind; [apply balanced_frame; intros n k; frame_tac|].
  intros w0. destruct (lookup_dir _ _).
  - apply balanced_for_each. intros x. apply balanced_reanalyze_turn.
  - apply balanced_frame. intros n k. frame_tac.
Qed.

(** X15. The reconcile pass sends at most one request to the
    collaborator for each file it counts: when it returns its
    statistics, the requests sent during the pass are at most
    [files_processed]. *)
Theorem reanalysis_pass_requests_bounded
        (folder_exists dry_run : bool) (w : world) (s : stats) :
  outcome (reanalyze_organized_files folder_exists dry_run) w = Ok (Some s) ->
  w_ai_calls (exec (reanalyze_organized_files folder_exists dry_run) w)
  <= w_ai_calls w + files_processed s.
Proof.
  unfold outcome, exec, reanalyze_organized_files.
  destruct folder_exists; cbn [negb]; [|discriminate].
  rewrite bind_get.
  destruct (organized_folders (w_root w)) as [|d0 ds]; [discriminate|].
  rewrite bind_modify.
  pose proof (balanced_for_each (d0 :: ds) (reanalyze_folder dry_run)
                (balanced_reanalyze_folder dry_run) (set_stats zero_stats w)) as Hb.
  unfold exec in Hb. unfold bind at 1 3.
  destruct (for_each (d0 :: ds) (reanalyze_folder dry_run) (set_stats zero_stats w))
    as [w1 [[]|e]]; [|discriminate].
  cbn in *. intros H. injection H as <-. lia.
Qed.

Lemma reanalysis_pass_requests_bounded_witness :
  let f := mkFile false true (Some "text/plain") None (Some "some text") true in
  let client : collaborator := fun _ _ _ _ => AiReply "meeting_notes" in
  let w := mkWorld [("Organized_Documents", RDir [("a.txt", File f)])]
                   [] true [] (Some client) 0 zero_stats in
  w_ai_calls (exec (reanalyze_organized_files true true) w) <= 0 + 1.
Proof.
  intros f client w.
  apply (reanalysis_pass_requests_bounded true true w
           (w_stats (exec (reanalyze_organized_files true true) w))).
  vm_compute. reflexivity.
Defined.

(* ----------------------------------------------------------------- *)
(** ** The constructor and the command line *)

Lemma client_from_some (connects : string -> bool) (key c : string) :
  client_from connects key = Some c <->
  validate_and_clean_api_key key = Some c /\ connects c = true.
Proof.
  unfold client_from. destruct (validate_and_clean_api_key key) as [k|].
  - destruct (connects k) eqn:Hk; split.
    + intros [= ->]. now split.
    + now intros [[= ->] _].
    + discriminate.
    + intros [[= ->] H]. congruence.
  - split; [discriminate | now intros [H _]].
Qed.

(** X16. [__init__] leaves a client only for a key that
    [validate_and_clean_api_key] accepts and with which the connection
    test goes through, and it takes the key of the environment only
    when no key is passed: a key that is passed and refused leaves the
    organizer without a client, whatever the environment holds. *)
Theorem init_client_needs_accepted_key
        (has_openai : bool) (connects : string -> bool)
        (openai_api_key env_key : option string) (c : string) :
  init_ai_client has_openai connects openai_api_key env_key = Some c <->
  has_openai = true
  /\ connects c = true
  /\ exists key,
       validate_and_clean_api_key key = Some c
       /\ ((openai_api_key = Some key /\ Py.truthy key = true)
           \/ (truthy_key openai_api_key = false
               /\ env_key = Some key /\ Py.truthy key = true)).
Proof.
  unfold init_ai_client. destruct has_openai; cbn [andb].
  2:{ split; [discriminate | now intros [H _]]. }
  destruct openai_api_key as [k|]; cbn [truthy_key].
  - destruct (Py.truthy k) eqn:Hk.
    + rewrite client_from_some. split.
      * intros [Hv Hc]. split; [reflexivity|]. split; [exact Hc|].
        exists k. split; [exact Hv|]. left. now split.
      * intros [_ [Hc [key [Hv [[[= <-] _]|[H _]]]]]]; [now split | discriminate].
    + destruct env_key as [e|]; cbn [truthy_key].
      * destruct (Py.truthy e) eqn:He.
        -- rewrite client_from_some. split.
           ++ intros [Hv Hc]. split; [reflexivity|]. split; [exact Hc|].
              exists e. split; [exact Hv|]. right. now repeat split.
           ++ intros [_ [Hc [key [Hv [[[= <-] H]|[_ [[= <-] _]]]]]]];
                [congruence | now split].
        -- split; [discriminate|].
           intros [_ [_ [key [_ [[[= <-] H]|[_ [[= <-] H]]]]]]]; congruence.
      * split; [discriminate|].
        intros [_ [_ [key [_ [[[= <-] H]|[_ [H _]]]]]]]; congruence.
  - destruct env_key as [e|]; cbn [truthy_key].
    + destruct (Py.truthy e) eqn:He.
      * rewrite client_from_some. split.
        -- intros [Hv Hc]. split; [reflexivity|]. split; [exact Hc|].
           exists e. split; [exact Hv|]. right. now repeat split.
        -- intros [_ [Hc [key [Hv [[H _]|[_ [[= <-] _]]]]]]];
             [discriminate | now split].
      * split; [discriminate|].
        intros [_ [_ [key [_ [[H _]|[_ [[= <-] H]]]]]]]; [discriminate | congruence].
    + split; [discriminate|].
      intros [_ [_ [key [_ [[H _]|[_ [H _]]]]]]]; discriminate.
Qed.

(** X17. [main] starts a run that can move or rename files only after
    the answer [yes], in any case and with any blanks around it, to its
    question: the organize run, and the reconcile run without
    [--dry-run]; with [--test-api-key], and with [--dry-run] without
    [--reanalyze], it starts no run at all. *)
Theorem main_changes_files_only_after_yes
        (has_openai : bool) (connects : string -> bool) (a : args)
        (env_key : option string) (key_answer confirm_answer : string) :
  changes_files (main has_openai connects a env_key key_answer confirm_answer) = true ->
  Py.lower (Py.strip confirm_answer) = "yes"
  /\ a_test_api_key a = false
  /\ a_dry_run a = false.
Proof.
  unfold main, declined.
  destruct (a_test_api_key a).
  { cbv zeta. destruct (negb _); discriminate. }
  cbv zeta. destruct (a_dry_run a), (a_reanalyze a); cbn [andb negb];
    try discriminate;
    destruct (String.eqb_spec (Py.lower (Py.strip confirm_answer)) "yes") as [E|E];
    cbn [negb changes_files]; try discriminate; now intros _.
Qed.

Lemma main_changes_files_only_after_yes_witness :
  Py.lower (Py.strip "  YES ") = "yes" /\ false = false /\ false = false.
Proof.
  apply (main_changes_files_only_after_yes
           false (fun _ => false)
           (mkArgs false false None true false None) None "" "  YES ").
  reflexivity.
Defined.

(** X18. The flag [--no-ai] only drops the key of the command line:
    the organizer of the run is built without a key, and so with the
    client that [__init__] builds from the environment.  With a key in
    the environment that is accepted and connects, the run has its
    client in spite of the flag. *)
Theorem no_ai_flag_keeps_environment_key
        (has_openai : bool) (connects : string -> bool) (a : args)
        (env_key : option string) (key_answer confirm_answer : string)
        (client : option string) (folders : list string) :
  a_no_ai a = true ->
  started (main has_openai connects a env_key key_answer confirm_answer)
  = Some (client, folders) ->
  client = init_ai_client has_openai connects None env_key
  /\ forall key c,
       has_openai = true -> env_key = Some key ->
       validate_and_clean_api_key key = Some c -> connects c = true ->
       client = Some c.
Proof.
  intros Hno Hs.
  assert (Hc : client = init_ai_client has_openai connects None env_key).
  { unfold main in Hs. rewrite Hno in Hs. rewrite andb_false_r in Hs.
    destruct (a_test_api_key a).
    { cbv zeta in Hs. destruct (negb _); discriminate. }
    cbv zeta in Hs. destruct (a_dry_run a && negb (a_reanalyze a)); [discriminate|].
    destruct (a_reanalyze a).
    - destruct (negb (a_dry_run a) && declined confirm_answer); [discriminate|].
      now injection Hs as <- _.
    - destruct (declined confirm_answer); [discriminate|].
      now injection Hs as <- _. }
  split; [exact Hc|]. intros key c -> -> Hv Hcon. rewrite Hc.
  unfold init_ai_client. cbn [andb truthy_key].
  assert (Ht : Py.truthy key = true).
  { unfold validate_and_clean_api_key in Hv. now destruct (Py.truthy key). }
  rewrite Ht. unfold client_from. now rewrite Hv, Hcon.
Qed.

Lemma no_ai_flag_keeps_environment_key_witness :
  let key := "sk-1234567890abcdef1234567890abcdef1234567890abcd" in
  init_ai_client true (fun _ => true) None (Some key) = Some key.
Proof.
  intros key.
  destruct (no_ai_flag_keeps_environment_key
              true (fun _ => true) (mkArgs false false None true false None)
              (Some key) "" "yes"
              (init_ai_client true (fun _ => true) None (Some key)) target_names
              eq_refl eq_refl) as [_ H].
  apply (H key key); reflexivity.
Defined.

(* ----------------------------------------------------------------- *)
(** ** The runs over the target folders *)

(** X19. When no move fails half-way, [run] loses no file and
    overwrites none in any target folder: it goes through all the
    target folders in their order, whatever happens in one of them, a
    missing folder stays missing, and a folder without shared names,
    all of whose files [shutil.move] can move, holds after the run the
    files it held before, each one once. *)
Theorem run_conserves_files (ts : targets) (w : world) :
  Forall (fun nt => target_ok (snd nt)) ts ->
  Forall2 (fun nt nt' => fst nt' = fst nt /\ same_files (snd nt) (snd nt'))
          ts (fst (run ts w)).
Proof.
  revert w. induction ts as [|[folder_name t] rest IH]; intros w Hok.
  { constructor. }
  inversion Hok as [|? ? Ht Hrest]; subst. cbn [snd] in Ht.
  cbn [run]. unfold in_folder.
  destruct (organize_files_in_folder (is_some t) (set_root (folder_root t) w))
    as [w1 res] eqn:Hpass.
  cbn [fst snd].
  match goal with
  | |- context [run rest ?w2] => specialize (IH w2 Hrest); destruct (run rest w2) as [rest' w3]
  end.
  cbn [fst] in *. constructor; [|exact IH].
  cbn [fst snd]. split; [reflexivity|].
  destruct t as [r|]; [|exact I].
  pose proof (organize_pass_conserved (contents r) true (set_root r w)
                (conj (proj1 Ht) (Permutation_refl _))) as H.
  unfold exec in H. cbn [is_some folder_root] in Hpass. rewrite Hpass in H.
  exact H.
Qed.

Lemma run_conserves_files_witness :
  let f := mkFile false true (Some "text/plain") None (Some "x") true in
  let w := mkWorld [] [] true [] None 0 zero_stats in
  let ts := [("Desktop", Some [("notes.txt", RFile f)]); ("Downloads", None)] in
  Forall2 (fun nt nt' => fst nt' = fst nt /\ same_files (snd nt) (snd nt'))
          ts (fst (run ts w)).
Proof.
  intros f w ts. apply (run_conserves_files ts w).
  constructor; [|constructor; [exact I | constructor]].
  split; [split|].
  - simpl. constructor; [intros [] | constructor].
  - intros d es [E|[]]. discriminate E.
  - intros g [<-|[]]. reflexivity.
Defined.

Lemma reanalyze_pass_ordered (folder_exists dry_run : bool) (w : world) (st : stats) :
  outcome (reanalyze_organized_files folder_exists dry_run) w = Ok (Some st) ->
  stats_ordered st.
Proof.
  unfold outcome, reanalyze_organized_files.
  destruct folder_exists; [|discriminate].
  change (negb true) with false. cbv iota. rewrite bind_get.
  destruct (organized_folders (w_root w)) as [|d folders]; [discriminate|].
  rewrite bind_modify.
  pose proof (preserves_for_each (fun w => stats_ordered (w_stats w))
                (d :: folders) (reanalyze_folder dry_run)
                (fun x _ => reanalyze_folder_ordered dry_run x)
                (set_stats zero_stats w)) as H.
  unfold exec, bind in *.
  destruct (for_each (d :: folders) (reanalyze_folder dry_run) (set_stats zero_stats w))
    as [w' [[]|e]]; [|discriminate].
  intros [= <-]. apply H. cbn. unfold stats_ordered. simpl. lia.
Qed.

Lemma add_stats_ordered (a b : stats) :
  stats_ordered a -> stats_ordered b -> stats_ordered (add_stats a b).
Proof. unfold stats_ordered, add_stats. simpl. lia. Qed.

Lemma run_reanalysis_loop_ok (dry_run : bool) (ts : targets) :
  forall total w,
    stats_ordered total ->
    let '(ts', total', w') := run_reanalysis_loop dry_run ts total w in
    stats_ordered total'
    /\ map fst ts' = map fst ts
    /\ (dry_run = true ->
        Forall2 (fun nt nt' => untouched (snd nt) (snd nt')) ts ts'
        /\ w_actions w' = w_actions w).
Proof.
  induction ts as [|[folder_name t] rest IH]; intros total w Htot.
  { cbn. split; [exact Htot|]. split; [reflexivity|]. intros _. now split. }
  cbn [run_reanalysis_loop]. unfold in_folder.
  destruct (reanalyze_organized_files (is_some t) dry_run (set_root (folder_root t) w))
    as [w1 res] eqn:Hpass.
  cbn [fst snd].
  set (total1 := match res with
                 | Ok (Some folder_stats) => add_stats total folder_stats
                 | _ => total
                 end).
  set (w2 := match res with
             | Ok _ => w1
             | Raised _ => add_event (LogError folder_name) w1
             end).
  assert (Htot1 : stats_ordered total1).
  { unfold total1. destruct res as [[s|]|e]; try exact Htot.
    apply add_stats_ordered; [exact Htot|].
    apply (reanalyze_pass_ordered (is_some t) dry_run (set_root (folder_root t) w)).
    unfold outcome. now rewrite Hpass. }
  specialize (IH total1 w2 Htot1).
  destruct (run_reanalysis_loop dry_run rest total1 w2) as [[rest' total'] w3].
  destruct IH as [Ho [Hn Hdry]].
  split; [exact Ho|]. split; [cbn; now rewrite Hn|].
  intros ->. destruct (Hdry eq_refl) as [Hf Ha].
  pose proof (dry_run_keeps_files (all_files (folder_root t)) (w_actions w)
                (is_some t) (set_root (folder_root t) w) (conj eq_refl eq_refl))
    as [Hk1 Hk2].
  unfold exec in Hk1, Hk2. rewrite Hpass in Hk1, Hk2. cbn [fst] in Hk1, Hk2.
  split.
  - constructor; [|exact Hf]. cbn [snd]. unfold untouched.
    destruct t as [r|]; [|reflexivity]. cbn. now rewrite Hk1.
  - rewrite Ha. unfold w2. now destruct res.
Qed.

(** X20. The totals of [run_reanalysis] are in order, whatever happens
    in the folders: no counter exceeds [files_processed] and an
    improvement is only counted with a rename.  It goes through all the
    target folders, and as a dry run it leaves every file of every
    target folder where it was and adds nothing to the action log. *)
Theorem run_reanalysis_totals (dry_run : bool) (ts : targets) (w : world) :
  let '(ts', total_stats, w') := run_reanalysis dry_run ts w in
  stats_ordered total_stats
  /\ map fst ts' = map fst ts
  /\ (dry_run = true ->
      Forall2 (fun nt nt' => untouched (snd nt) (snd nt')) ts ts'
      /\ w_actions w' = w_actions w).
Proof.
  unfold run_reanalysis.
  set (w0 := if is_some (w_ai_client w) then w else _).
  assert (Ha : w_actions w0 = w_actions w).
  { unfold w0. now destruct (is_some (w_ai_client w)). }
  pose proof (run_reanalysis_loop_ok dry_run ts zero_stats w0) as H.
  destruct (run_reanalysis_loop dry_run ts zero_stats w0) as [[ts' total] w'].
  destruct H as [Ho [Hn Hdry]].
  { unfold stats_ordered. simpl. lia. }
  split; [exact Ho|]. split; [exact Hn|].
  intros Hd. destruct (Hdry Hd) as [Hf Hact]. split; [exact Hf | congruence].
Qed.

Lemma run_reanalysis_totals_witness :
  let f := mkFile false true (Some "text/plain") None (Some "x") true in
  let w := mkWorld [] [] true [] None 0 zero_stats in
  let ts := [("Desktop", Some [("Organized_Images", RDir [("a.txt", File f)])]);
             ("Downloads", None)] in
  let '(ts', total_stats, w') := run_reanalysis true ts w in
  stats_ordered total_stats /\ map fst ts' = ["Desktop"; "Downloads"]
  /\ w_actions w' = [].
Proof.
  intros f w ts.
  pose proof (run_reanalysis_totals true ts w) as H.
  destruct (run_reanalysis true ts w) as [[ts' total_stats] w'].
  destruct H as [Ho [Hn Hd]].
  split; [exact Ho|]. split; [exact Hn|]. now apply Hd.
Defined.

(* ----------------------------------------------------------------- *)
(** ** Two reconcile passes in a row *)

Lemma append_empty_r (s : string) : (s ++ "")%string = s.
Proof. induction s as [|c s IH]; simpl; [reflexivity | now rewrite IH]. Qed.

Lemma rfind_dot_app (a b : string) (j : nat) :
  PurePath.rfind_dot b = Some j ->
  PurePath.rfind_dot (a ++ b) = Some (String.length a + j).
Proof.
  intros H. induction a as [|c a IH]; simpl; [exact H|]. now rewrite IH.
Qed.

Lemma rfind_dot_drop (x : string) (i : nat) :
  PurePath.rfind_dot x = Some i ->
  exists rest,
    Py.drop i x = String "." rest
    /\ PurePath.rfind_dot rest = None
    /\ String.length x = i + 1 + String.length rest.
Proof.
  revert i. induction x as [|c x IH]; simpl; intros i H; [discriminate|].
  destruct (PurePath.rfind_dot x) as [i'|] eqn:Hx.
  - injection H as <-. destruct (IH i' eq_refl) as [rest [Hd [Hn Hl]]].
    exists rest. simpl. split; [exact Hd|]. split; [exact Hn | lia].
  - destruct (Ascii.eqb_spec c ".") as [->|Hc]; [|discriminate].
    injection H as <-. exists x. split; [reflexivity|]. split; [exact Hx | simpl; lia].
Qed.

(** A suffix that is not empty is a dot followed by at least one
    character and no other dot, and the name is not empty. *)
Lemma suffix_shape (x : string) :
  PurePath.suffix x <> "" ->
  exists rest,
    PurePath.suffix x = String "." rest
    /\ PurePath.rfind_dot rest = None
    /\ rest <> "" /\ x <> "".
Proof.
  unfold PurePath.suffix.
  destruct (PurePath.rfind_dot x) as [i|] eqn:Hx; [|congruence].
  destruct (Nat.ltb 0 i && Nat.ltb i (String.length x - 1)) eqn:Hc; [|congruence].
  intros _. apply andb_true_iff in Hc as [H0 H1].
  apply Nat.ltb_lt in H0, H1.
  destruct (rfind_dot_drop x i Hx) as [rest [Hd [Hn Hl]]].
  exists rest. split; [exact Hd|]. split; [exact Hn|]. split.
  - intros ->. simpl in Hl. lia.
  - intros ->. discriminate Hx.
Qed.

Lemma drop_app_length (a b : string) : Py.drop (String.length a) (a ++ b) = b.
Proof. induction a as [|c a IH]; simpl; [now destruct b | exact IH]. Qed.

Lemma take_app_length (a b : string) : Py.take (String.length a) (a ++ b) = a.
Proof.
  induction a as [|c a IH]; simpl; [now destruct b | now rewrite IH].
Qed.

(** A name followed by a suffix has that suffix, and the name as its
    stem. *)
Lemma suffix_of_append (a rest : string) :
  a <> "" -> rest <> "" -> PurePath.rfind_dot rest = None ->
  PurePath.suffix (a ++ String "." rest) = String "." rest
  /\ PurePath.stem (a ++ String "." rest) = a.
Proof.
  intros Ha Hr Hn.
  assert (Hd : PurePath.rfind_dot (a ++ String "." rest)
               = Some (String.length a + 0)).
  { apply rfind_dot_app. simpl. now rewrite Hn. }
  rewrite Nat.add_0_r in Hd.
  assert (Hc : Nat.ltb 0 (String.length a)
               && Nat.ltb (String.length a)
                          (String.length (a ++ String "." rest) - 1) = true).
  { apply andb_true_iff. split; apply Nat.ltb_lt.
    - destruct a; [congruence | simpl; lia].
    - rewrite append_length. simpl. destruct rest; [congruence | simpl; lia]. }
  unfold PurePath.suffix, PurePath.stem. rewrite Hd, Hc.
  split; [apply drop_app_length | apply take_app_length].
Qed.

Lemma kept_is_no_dot (c : ascii) : is_kept_char c = true -> Ascii.eqb c "." = false.
Proof.
  destruct (Ascii.eqb_spec c ".") as [->|H]; [discriminate | reflexivity].
Qed.

Lemma kept_has_no_dot (t : string) :
  Py.sforall is_kept_char t = true -> PurePath.rfind_dot t = None.
Proof.
  induction t as [|c t IH]; simpl; [reflexivity|].
  intros H. apply andb_true_iff in H as [Hc Ht].
  now rewrite (IH Ht), (kept_is_no_dot c Hc).
Qed.

Lemma re_sub_unsafe_fixed (t : string) :
  Py.sforall is_kept_char t = true -> Py.re_sub_unsafe t = t.
Proof.
  unfold Py.re_sub_unsafe. induction t as [|c t IH]; simpl; [reflexivity|].
  intros H. apply andb_true_iff in H as [Hc Ht].
  rewrite (IH Ht). unfold is_kept_char in Hc. now rewrite Hc.
Qed.
Lemma settled_file_at (r : rootdir) (d x : string) (f : file) :
  file_at r [d; x] = Some f -> settled_file r d x = settled_at d x f.
Proof.
  intros H. unfold settled_file, settled_at, is_system_file.
  rewrite H. cbn [path_name last].
  now rewrite <- !orb_assoc.
Qed.

Lemma settled_file_missing (r : rootdir) (d x : string) :
  file_at r [d; x] = None -> settled_file r d x = true.
Proof.
  intros H. unfold settled_file. rewrite H. apply orb_true_r.
Qed.

(** The name found without the collaborator is not empty when the file
    name is not. *)
Lemma name_without_ai_nonempty (x : string) (md : metadata) (content : string) :
  x <> "" -> name_without_ai x md content <> "".
Proof.
  intros Hx. unfold name_without_ai.
  assert (Hstem : Py.re_sub_unsafe (PurePath.stem x) <> "").
  { intros E. apply (stem_nonempty x Hx).
    apply (f_equal String.length) in E. unfold Py.re_sub_unsafe in E.
    rewrite smap_length in E. destruct (PurePath.stem x); [reflexivity | discriminate]. }
  destruct (md_photo_date md) as [date|]; [discriminate|].
  destruct (Py.truthy content && _ && _) eqn:Hc.
  - apply andb_true_iff in Hc as [_ Hlen]. apply Nat.leb_le in Hlen.
    pose proof (words_name_safe (Py.take 200 content) Hlen) as H.
    unfold matches_safe in H. apply andb_true_iff in H as [H _].
    intros E. rewrite E in H. discriminate H.
  - match goal with
    | |- (if ?c then _ else _) <> _ => destruct c
    end; exact Hstem.
Qed.

(** Without a suffix, the name found without the collaborator is the
    sanitised stem. *)
Lemma name_without_ai_no_suffix (x : string) (f : file) :
  PurePath.suffix x = "" ->
  name_without_ai x (metadata_of x f) (content_of x (Some f))
  = Py.re_sub_unsafe (PurePath.stem x).
Proof.
  intros Hs. unfold name_without_ai, metadata_of. cbn [md_photo_date].
  rewrite Hs. change (Py.lower "") with "".
  change (Py.mem "" [".jpg"; ".jpeg"; ".tiff"]) with false. cbv iota.
  change (Py.mem "" [".txt"; ".md"; ".pdf"; ".doc"; ".docx"]) with false.
  rewrite andb_false_r. cbn [andb]. cbv iota.
  now destruct (Py.mem "" _).
Qed.

(** A name that is not empty, and that is sanitised when there is no
    suffix, keeps the suffix it is given and is the stem of the result. *)
Lemma append_suffix (x new_name : string) :
  (x <> "" -> new_name <> "") ->
  (PurePath.suffix x = "" -> Py.sforall is_kept_char new_name = true) ->
  PurePath.suffix (new_name ++ PurePath.suffix x) = PurePath.suffix x
  /\ PurePath.stem (new_name ++ PurePath.suffix x) = new_name.
Proof.
  intros Hne Hkept.
  destruct (string_dec (PurePath.suffix x) "") as [Hs|Hs].
  - rewrite Hs, append_empty_r.
    pose proof (kept_has_no_dot _ (Hkept Hs)) as Hn.
    unfold PurePath.suffix, PurePath.stem. now rewrite Hn.
  - destruct (suffix_shape x Hs) as [rest [He [Hn [Hr Hx]]]].
    rewrite He. apply suffix_of_append; [now apply Hne | exact Hr | exact Hn].
Qed.

(** The three rules of the name found without the collaborator; the
    last two branches of the code are the same. *)
Lemma name_without_ai_rules (name : string) (md : metadata) (content : string) :
  name_without_ai name md content
  = match md_photo_date md with
    | Some d => ("photo_" ++ Py.replace_char " " "_" (Py.remove_char ":" d))%string
    | None =>
        if Py.truthy content
           && Py.mem (Py.lower (PurePath.suffix name))
                     [".txt"; ".md"; ".pdf"; ".doc"; ".docx"]
           && Nat.leb 2 (List.length (Py.findall_words (Py.take 200 content)))
        then Py.lower (Py.join "_" (firstn 3 (Py.findall_words (Py.take 200 content))))
        else Py.re_sub_unsafe (PurePath.stem name)
    end.
Proof.
  unfold name_without_ai. destruct (md_photo_date md); [reflexivity|].
  destruct (_ && _ && _); [reflexivity|].
  now destruct (Py.mem _ _).
Qed.

Lemma same_suffix_same_inputs (x y : string) (f : file) :
  PurePath.suffix y = PurePath.suffix x ->
  md_photo_date (metadata_of y f) = md_photo_date (metadata_of x f)
  /\ content_of y (Some f) = content_of x (Some f).
Proof.
  intros H. unfold metadata_of, content_of. cbn [md_photo_date].
  now rewrite H.
Qed.

(** The file name that the pass recomputes is stable: recomputed for
    the file under that name, it is the same. *)
Lemma recompute_stable (x : string) (f : file) :
  let new_name := name_without_ai x (metadata_of x f) (content_of x (Some f)) in
  let new_filename := (new_name ++ PurePath.suffix x)%string in
  PurePath.suffix new_filename = PurePath.suffix x
  /\ name_without_ai new_filename (metadata_of new_filename f)
                     (content_of new_filename (Some f))
     = new_name.
Proof.
  intros new_name new_filename.
  destruct (append_suffix x new_name) as [S1 S2].
  { intros Hx. now apply name_without_ai_nonempty. }
  { intros Hs. unfold new_name. rewrite (name_without_ai_no_suffix x f Hs).
    apply re_sub_unsafe_kept. }
  fold new_filename in S1, S2. split; [exact S1|].
  destruct (same_suffix_same_inputs x new_filename f S1) as [Hp Hc].
  rewrite name_without_ai_rules, Hp, Hc, S1, S2.
  unfold new_name at 2. rewrite name_without_ai_rules.
  destruct (md_photo_date (metadata_of x f)) as [d|] eqn:Hd; [reflexivity|].
  destruct (_ && _ && _) eqn:Hcond; [reflexivity|].
  assert (E : new_name = Py.re_sub_unsafe (PurePath.stem x)).
  { unfold new_name. now rewrite name_without_ai_rules, Hd, Hcond. }
  rewrite E. apply re_sub_unsafe_fixed, re_sub_unsafe_kept.
Qed.

(** Where the pass wants a file that is not settled, the file is
    settled. *)
Lemma moved_is_settled (d x : string) (f : file) (D n : string) :
  destination d x f = [D; n] -> settled_at D n f = true.
Proof.
  unfold destination. intros E. injection E as HD Hn.
  destruct (recompute_stable x f) as [S1 S3]. cbv zeta in S1, S3.
  rewrite Hn in S1, S3.
  unfold settled_at. rewrite S1, S3, Hn, String.eqb_refl, andb_true_r.
  set (cat := snd (file_type true (PurePath.suffix x) (f_mime f))) in *.
  assert (Hcat : Py.remove_all organized_prefix D = cat).
  { destruct (String.eqb_spec cat (Py.remove_all organized_prefix d)) as [Hc|Hc];
      cbn [negb] in HD; subst D; [now symmetry|].
    pose proof (file_type_category true (PurePath.suffix x) (f_mime f)) as Hin.
    fold cat in Hin. clearbody cat.
    unfold category_names, file_categories in Hin. simpl in Hin.
    repeat (destruct Hin as [<-|Hin]; [reflexivity|]). destruct Hin. }
  rewrite Hcat, String.eqb_refl. apply orb_true_r.
Qed.
Lemma file_at_entry (r : rootdir) (d x : string) :
  file_at r [d; x] = match entry_at r d x with
                     | Some (File f) => Some f
                     | _ => None
                     end.
Proof. unfold file_at, entry_at. now destruct (lookup_dir r d). Qed.

Lemma path_exists_entry (r : rootdir) (d x : string) :
  path_exists r [d; x] = is_some (entry_at r d x).
Proof. unfold path_exists, entry_at. now destruct (lookup_dir r d). Qed.

Lemma assoc_snoc {A} (k n : string) (v : A) (l : list (string * A)) :
  assoc k (l ++ [(n, v)])
  = match assoc k l with
    | Some v' => Some v'
    | None => if String.eqb k n then Some v else None
    end.
Proof.
  induction l as [|[k' v'] l IH]; simpl; [reflexivity|].
  destruct (String.eqb k k'); [reflexivity | exact IH].
Qed.

Lemma assoc_remove_key {A} (k x : string) (l : list (string * A)) :
  assoc k (remove_key x l) = if String.eqb k x then None else assoc k l.
Proof.
  destruct (String.eqb_spec k x) as [->|H].
  - apply assoc_notin, remove_key_gone.
  - now apply assoc_remove_key_other.
Qed.

(** What is below the folder once the entry [d/x] is taken out. *)
Lemma entry_at_unlink (r : rootdir) (d x d0 x0 : string) :
  entry_at (unlink [d; x] r) d0 x0
  = if String.eqb d d0 && String.eqb x0 x then None else entry_at r d0 x0.
Proof.
  cbn [unlink]. unfold entry_at. rewrite lookup_dir_update.
  destruct (String.eqb d d0); cbn [andb]; [|reflexivity].
  destruct (lookup_dir r d0) as [es|]; cbn [option_map].
  - apply assoc_remove_key.
  - now destruct (String.eqb x0 x).
Qed.

(** What is below the folder once [f] is put at the free place [D/n]. *)
Lemma entry_at_place (r : rootdir) (D n : string) (f : file) (d0 x0 : string) :
  is_some (lookup_dir r D) = true ->
  entry_at r D n = None ->
  entry_at (place D n f r) d0 x0
  = if String.eqb D d0 && String.eqb x0 n then Some (File f) else entry_at r d0 x0.
Proof.
  intros HD Hfree. unfold place, entry_at in *. rewrite lookup_dir_update.
  destruct (String.eqb_spec D d0) as [<-|Hne]; cbn [andb]; [|reflexivity].
  destruct (lookup_dir r D) as [es|]; [|discriminate]. cbn [option_map].
  rewrite Hfree, remove_key_notin by (now rewrite (assoc_None_notin _ _ Hfree)).
  rewrite assoc_snoc.
  destruct (String.eqb_spec x0 n) as [->|Hx]; [now rewrite Hfree|].
  now destruct (assoc x0 es).
Qed.

(** A new empty directory puts nothing below the folder. *)
Lemma entry_at_new_dir (r : rootdir) (D d0 x0 : string) :
  assoc D r = None ->
  entry_at (r ++ [(D, RDir [])]) d0 x0 = entry_at r d0 x0.
Proof.
  intros HD. unfold entry_at, lookup_dir. rewrite assoc_snoc.
  destruct (assoc d0 r) as [v|]; [reflexivity|].
  now destruct (String.eqb d0 D).
Qed.

(** The two properties only look at what is below the folder. *)
Lemma uncontested_view (r r' : rootdir) :
  (forall d x, entry_at r' d x = entry_at r d x) ->
  uncontested r -> uncontested r'.
Proof.
  intros Hv [U1 U2]. split.
  - intros d x f Hd Hf Hs. unfold destination in *.
    rewrite path_exists_entry, Hv, <- path_exists_entry.
    apply (U1 d x f Hd); [|exact Hs].
    rewrite file_at_entry, <- Hv, <- file_at_entry. exact Hf.
  - intros d x f d' x' f' Hd Hd' Hf Hf'.
    apply (U2 d x f d' x' f' Hd Hd').
    + rewrite file_at_entry, <- Hv, <- file_at_entry. exact Hf.
    + rewrite file_at_entry, <- Hv, <- file_at_entry. exact Hf'.
Qed.

Lemma settled_but_view (pending : string -> string -> Prop) (r r' : rootdir) :
  (forall d x, entry_at r' d x = entry_at r d x) ->
  settled_but pending r -> settled_but pending r'.
Proof.
  intros Hv H d x f Hd Hf. apply (H d x f Hd).
  rewrite file_at_entry, <- Hv, <- file_at_entry. exact Hf.
Qed.

(** Moving a file that is not settled to the place where the pass
    wants it keeps the two properties, and the file is no longer
    pending. *)
Lemma moved_view (r r' : rootdir) (d x : string) (f : file) (D n : string)
      (pending : string -> string -> Prop) :
  (forall d0 x0,
      entry_at r' d0 x0
      = if String.eqb D d0 && String.eqb x0 n then Some (File f)
        else if String.eqb d d0 && String.eqb x0 x then None
             else entry_at r d0 x0) ->
  Py.startswith organized_prefix d = true ->
  file_at r [d; x] = Some f ->
  settled_at d x f = false ->
  destination d x f = [D; n] ->
  uncontested r ->
  settled_but pending r ->
  uncontested r'
  /\ settled_but (fun d0 x0 => pending d0 x0 /\ ~ (d0 = d /\ x0 = x)) r'.
Proof.
  intros Hv Hd Hf Hs Hdest [U1 U2] Hset.
  pose proof (moved_is_settled d x f D n Hdest) as Hnew.
  (* a file of [r'] that is not settled was at its place in [r], and is
     not the file that moved *)
  assert (Hold : forall d0 x0 f0,
             file_at r' [d0; x0] = Some f0 -> settled_at d0 x0 f0 = false ->
             file_at r [d0; x0] = Some f0 /\ ~ (d0 = d /\ x0 = x)).
  { intros d0 x0 f0 H0 Hs0. rewrite file_at_entry, Hv in H0.
    destruct (String.eqb_spec D d0) as [<-|HD]; cbn [andb] in H0.
    - destruct (String.eqb_spec x0 n) as [->|Hn].
      + injection H0 as <-. congruence.
      + destruct (String.eqb d D && String.eqb x0 x) eqn:E; [discriminate|].
        split; [now rewrite file_at_entry|].
        intros [-> ->]. now rewrite !String.eqb_refl in E.
    - destruct (String.eqb d d0 && String.eqb x0 x) eqn:E; [discriminate|].
      split; [now rewrite file_at_entry|].
      intros [-> ->]. now rewrite !String.eqb_refl in E. }
  split; [split|].
  - intros d0 x0 f0 Hd0 H0 Hs0.
    destruct (Hold d0 x0 f0 H0 Hs0) as [Hr Hne].
    pose proof (U1 d0 x0 f0 Hd0 Hr Hs0) as Hfree.
    assert (Hdiff : destination d0 x0 f0 <> [D; n]).
    { intros E. apply Hne. rewrite <- Hdest in E.
      exact (U2 d0 x0 f0 d x f Hd0 Hd Hr Hf Hs0 Hs E). }
    unfold destination in *. cbv zeta in *.
    rewrite path_exists_entry in *. rewrite Hv.
    match goal with
    | |- is_some (if String.eqb D ?a && String.eqb ?b n then _ else _) = false =>
        destruct (String.eqb_spec D a) as [Ea|Ea];
        [destruct (String.eqb_spec b n) as [Eb|Eb]|]; cbn [andb]
    end.
    + exfalso. apply Hdiff. now rewrite <- Ea, Eb.
    + destruct (_ && _); [reflexivity | exact Hfree].
    + destruct (_ && _); [reflexivity | exact Hfree].
  - intros d0 x0 f0 d1 x1 f1 Hd0 Hd1 H0 H1 Hs0 Hs1.
    destruct (Hold d0 x0 f0 H0 Hs0) as [Hr0 _].
    destruct (Hold d1 x1 f1 H1 Hs1) as [Hr1 _].
    now apply (U2 d0 x0 f0 d1 x1 f1).
  - intros d0 x0 f0 Hd0 H0.
    destruct (settled_at d0 x0 f0) eqn:Hs0; [now left | right].
    destruct (Hold d0 x0 f0 H0 Hs0) as [Hr Hne].
    split; [|exact Hne].
    destruct (Hset d0 x0 f0 Hd0 Hr) as [E|Hp]; [congruence | exact Hp].
Qed.
Lemma events_from_log (E0 : list event) (e : event) :
  preserves (events_from E0) (log e).
Proof.
  intros w [added H]. exists (added ++ [e]).
  unfold exec, log, modify. cbn. now rewrite H, app_assoc.
Qed.

Ltac events_tac := frame_with ltac:(apply events_from_log).

(** What the logger held without an error, it held before. *)
Lemma no_error_before {A} (m : M A) (w : world) :
  preserves (events_from (w_events w)) m ->
  no_error (exec m w) -> no_error w.
Proof.
  intros Hm Hne name Hin.
  destruct (Hm w) as [added H]; [exists []; now rewrite app_nil_r|].
  apply (Hne name). rewrite H. apply in_or_app. now left.
Qed.

Lemma events_from_turn (E0 : list event) (d c x : string) :
  preserves (events_from E0)
            (try_except (reanalyze_file false d c x)
                        (fun _ => log (LogError x))).
Proof. unfold reanalyze_file. events_tac. Qed.

Lemma events_from_folder (E0 : list event) (d : string) :
  preserves (events_from E0) (reanalyze_folder false d).
Proof. unfold reanalyze_folder, reanalyze_loop, reanalyze_file. events_tac. Qed.

(** A file that the pass leaves alone is no longer pending. *)
Lemma stay_settled (r : rootdir) (d x : string)
      (pending : string -> string -> Prop) :
  settled_file r d x = true ->
  settled_but pending r ->
  settled_but (fun d0 x0 => pending d0 x0 /\ ~ (d0 = d /\ x0 = x)) r.
Proof.
  intros Hs H d0 x0 f0 Hd0 H0.
  destruct (string_dec d0 d) as [->|Hd]; [destruct (string_dec x0 x) as [->|Hx]|].
  - left. now rewrite <- (settled_file_at r d x f0 H0).
  - destruct (H d x0 f0 Hd0 H0) as [E|Hp]; [now left | right].
    split; [exact Hp | intros [_ E]; contradiction].
  - destruct (H d0 x0 f0 Hd0 H0) as [E|Hp]; [now left | right].
    split; [exact Hp | intros [E _]; contradiction].
Qed.

Lemma view_mkdir (r : rootdir) (name : string) :
  preserves (fun w => forall d0 x0, entry_at (w_root w) d0 x0 = entry_at r d0 x0)
            (mkdir_exist_ok name).
Proof.
  intros w H. unfold exec, mkdir_exist_ok. rewrite bind_get.
  destruct (assoc name (w_root w)) as [[f|es]|] eqn:Ha; [exact H | exact H|].
  intros d0 x0. cbn [fst modify w_root set_root].
  now rewrite entry_at_new_dir.
Qed.
(** One turn of a live pass without the collaborator, when it logs no
    error and no two files compete for a name: the file of the turn is
    settled afterwards, where it was or where the pass wanted it. *)
Lemma clean_turn (d x : string) (pending : string -> string -> Prop) (w : world) :
  Py.startswith organized_prefix d = true ->
  w_ai_client w = None ->
  uncontested (w_root w) ->
  settled_but pending (w_root w) ->
  let w' := exec (try_except
                    (reanalyze_file false d (Py.remove_all organized_prefix d) x)
                    (fun _ => log (LogError x))) w in
  no_error w' ->
  uncontested (w_root w')
  /\ settled_but (fun d0 x0 => pending d0 x0 /\ ~ (d0 = d /\ x0 = x)) (w_root w').
Proof.
  intros Hd Hc HU Hset w'. subst w'.
  assert (Hstay : settled_file (w_root w) d x = true ->
                  uncontested (w_root w)
                  /\ settled_but (fun d0 x0 => pending d0 x0 /\ ~ (d0 = d /\ x0 = x))
                                 (w_root w)).
  { intros Hs. split; [exact HU | now apply stay_settled]. }
  assert (Herr : forall W : world,
             no_error (add_event (LogError x) W) ->
             uncontested (w_root (add_event (LogError x) W))
             /\ settled_but (fun d0 x0 => pending d0 x0 /\ ~ (d0 = d /\ x0 = x))
                            (w_root (add_event (LogError x) W))).
  { intros W H. exfalso. apply (H x). cbn. apply in_or_app. right. now left. }
  unfold exec, reanalyze_file.
  rewrite (exec_try_bind _ _ _ _ (set_stats (count_processed (w_stats w)) w) tt eq_refl).
  rewrite exec_try_get. cbn [w_root set_stats].
  destruct (is_system_file (w_root w) [d; x]) eqn:Hsys.
  { cbn. intros _. apply Hstay. unfold settled_file. now rewrite Hsys. }
  rewrite (exec_try_bind _ _ _ _ _ tt
             (eq_refl : log (LogReanalyzing x) _ = (_, Ok tt))).
  rewrite (exec_try_bind _ _ _ _ _ _ (get_file_type_run _ _)).
  cbn [w_root set_stats add_event path_name last].
  unfold try_except. rewrite bind_extract_metadata.
  cbn [w_root set_stats add_event path_name last].
  destruct (file_at (w_root w) [d; x]) as [f|] eqn:Hf; [|apply Herr].
  destruct (f_stat_ok f) eqn:Hstat; [|apply Herr].
  cbn [negb].
  rewrite bind_read_file_content.
  cbn [w_root set_stats add_event path_name last]. rewrite Hf.
  rewrite (exec_bind _ _ _ _ _
             (generate_smart_filename_off _ _ _ (add_event _ (set_stats _ w)) Hc)).
  cbn [path_name last fst snd].
  set (cat := snd (file_type true (PurePath.suffix x) (f_mime f))).
  set (new_name := name_without_ai x (metadata_of x f) (content_of x (Some f))).
  set (ncm := negb (String.eqb cat (Py.remove_all organized_prefix d))).
  set (nr := negb (String.eqb (new_name ++ PurePath.suffix x) x)).
  assert (Hsat : settled_at d x f = negb (ncm || nr)).
  { unfold settled_at, is_system_file in *. rewrite Hf in Hsys.
    cbn [path_name last] in Hsys. rewrite Hsys, Hstat. cbn [negb orb].
    fold cat new_name. unfold ncm, nr. now rewrite negb_orb, !negb_involutive. }
  destruct (ncm || nr) eqn:Hchg.
  2:{ cbn. intros _. apply Hstay.
      now rewrite (settled_file_at _ _ _ _ Hf), Hsat. }
  cbn [negb] in Hsat.
  set (w1 := add_event (LogReanalyzing x) (set_stats (count_processed (w_stats w)) w)).
  assert (Hview : forall d0 x0, entry_at (w_root w1) d0 x0 = entry_at (w_root w) d0 x0)
    by reflexivity.
  destruct (when_mkdir_run_inv
              (fun w0 => forall d0 x0,
                   entry_at (w_root w0) d0 x0 = entry_at (w_root w) d0 x0)
              ncm (organized_name cat) w1 (view_mkdir _ _) Hview)
    as [[w2 [Hv2 [_ Hmk]]]|Hmk]; rewrite Hmk; [|apply Herr].
  rewrite bind_get.
  set (D := if ncm then organized_name cat else d).
  assert (Hdest : destination d x f = [D; (new_name ++ PurePath.suffix x)%string]).
  { reflexivity. }
  assert (HU2 : uncontested (w_root w2)) by (now apply (uncontested_view (w_root w))).
  assert (Hset2 : settled_but pending (w_root w2))
    by (now apply (settled_but_view pending (w_root w))).
  assert (Hf2 : file_at (w_root w2) [d; x] = Some f).
  { now rewrite file_at_entry, Hv2, <- file_at_entry. }
  assert (Hfree : path_exists (w_root w2) [D; (new_name ++ PurePath.suffix x)%string]
                  = false).
  { rewrite <- Hdest. now apply (proj1 HU2 d x f). }
  assert (Hloop : conflict_loop (loop_bound (w_root w2) D)
                    (busy_reanalyze (w_root w2) D [d; x])
                    new_name (PurePath.suffix x) (new_name ++ PurePath.suffix x) 1
                  = Some (new_name ++ PurePath.suffix x)%string).
  { unfold loop_bound. destruct (lookup_dir (w_root w2) D);
      cbn [conflict_loop]; unfold busy_reanalyze; now rewrite Hfree. }
  rewrite Hloop.
  assert (Hpath : path_eqb [D; (new_name ++ PurePath.suffix x)%string] [d; x] = false).
  { destruct (path_eqb _ _) eqn:E; [|reflexivity].
    apply path_eqb_eq in E. rewrite E in Hfree.
    rewrite path_exists_entry in Hfree. rewrite file_at_entry in Hf2.
    destruct (entry_at (w_root w2) d x); discriminate. }
  rewrite Hpath. cbn [negb].
  match goal with
  | |- context [when ?c (bump count_ai_improvement)] => generalize c
  end.
  intros improved.
  match goal with
  | |- context [mkLog true _ _ _ _ _ _ ?ct _] => generalize ct
  end.
  intros change_type.
  rewrite (bind_when ncm).
  assert (Hrest : forall w3,
             w_root w3 = w_root w2 ->
             let W :=
               fst (match
                      bind (when true
                              (shutil_move [d; x] D (new_name ++ PurePath.suffix x) ;;
                               log (LogUpdated change_type) ;;
                               save_action_log
                                 (mkLog true [d; x]
                                        [D; (new_name ++ PurePath.suffix x)%string]
                                        x (new_name ++ PurePath.suffix x)
                                        (Py.remove_all organized_prefix d) cat
                                        change_type
                                        (fst (file_type true (PurePath.suffix x)
                                                        (f_mime f))))))
                           (fun _ => when improved (bump count_ai_improvement)) w3
                    with
                    | (w', Ok a) => (w', Ok a)
                    | (w', Raised _) => log (LogError x) w'
                    end) in
             no_error W ->
             uncontested (w_root W)
             /\ settled_but (fun d0 x0 => pending d0 x0 /\ ~ (d0 = d /\ x0 = x))
                            (w_root W)).
  { intros w3 Hr3. cbv zeta.
    rewrite bind_when. cbv iota.
    rewrite !bind_assoc, bind_shutil_move. rewrite Hr3, Hf2.
    destruct (negb (f_movable f)); [apply Herr|].
    destruct (Py.contains "/" (new_name ++ PurePath.suffix x)); [apply Herr|].
    destruct (is_some (lookup_dir (w_root w2) D)) eqn:HD; cbn [negb]; [|apply Herr].
    assert (Hmoved : forall W,
               w_root W = place D (new_name ++ PurePath.suffix x) f
                                (unlink [d; x] (w_root w2)) ->
               uncontested (w_root W)
               /\ settled_but (fun d0 x0 => pending d0 x0 /\ ~ (d0 = d /\ x0 = x))
                              (w_root W)).
    { intros W ->.
      apply (moved_view (w_root w2) _ d x f D (new_name ++ PurePath.suffix x)%string);
        try assumption.
      intros d0 x0. rewrite entry_at_place, entry_at_unlink; [reflexivity| |].
      - unfold unlink. now rewrite lookup_dir_update_dir.
      - rewrite entry_at_unlink. rewrite path_exists_entry in Hfree.
        destruct (entry_at (w_root w2) D _); [discriminate|].
        now destruct (_ && _). }
    rewrite bind_assoc, bind_log, bind_save_action_log.
    cbn [w_log_writable set_root add_event].
    destruct (w_log_writable w3); [|apply Herr].
    intros _. destruct improved; apply Hmoved; reflexivity. }
  destruct ncm; rewrite ?bind_bump; rewrite (bind_when nr);
    destruct nr; rewrite ?bind_bump; apply Hrest; reflexivity.
Qed.
Lemma settled_but_refine (P Q : string -> string -> Prop) (r : rootdir) :
  (forall d x f, file_at r [d; x] = Some f -> P d x -> Q d x) ->
  settled_but P r -> settled_but Q r.
Proof.
  intros HPQ H d x f Hd Hf. destruct (H d x f Hd Hf) as [E|Hp]; [now left|].
  right. now apply (HPQ d x f).
Qed.

Lemma settled_but_weaken (P Q : string -> string -> Prop) (r : rootdir) :
  (forall d x, P d x -> Q d x) -> settled_but P r -> settled_but Q r.
Proof. intros HPQ. apply settled_but_refine. intros d x f _. apply HPQ. Qed.

Lemma ai_off_turn (n : nat) (dry_run : bool) (d c x : string) :
  preserves (ai_off n)
            (try_except (reanalyze_file dry_run d c x)
                        (fun _ => log (LogError x))).
Proof. unfold reanalyze_file. ai_off_tac; ai_off_modify. Qed.

Lemma ai_off_folder (n : nat) (dry_run : bool) (d : string) :
  preserves (ai_off n) (reanalyze_folder dry_run d).
Proof.
  unfold reanalyze_folder, reanalyze_loop, reanalyze_file.
  ai_off_tac; ai_off_modify.
Qed.

(** The file loop of a category folder, when it logs no error and no
    two files compete for a name, settles the files it was given. *)
Lemma clean_loop (d : string) (S : list string) :
  Py.startswith organized_prefix d = true ->
  forall files w,
    w_ai_client w = None ->
    uncontested (w_root w) ->
    settled_but (fun d0 x0 => In d0 S \/ (d0 = d /\ In x0 files)) (w_root w) ->
    no_error (exec (reanalyze_loop false d (Py.remove_all organized_prefix d) files)
                   w) ->
    uncontested
      (w_root (exec (reanalyze_loop false d (Py.remove_all organized_prefix d) files)
                    w))
    /\ settled_but
         (fun d0 _ => In d0 S)
         (w_root (exec (reanalyze_loop false d (Py.remove_all organized_prefix d)
                                       files) w)).
Proof.
  intros Hd. unfold reanalyze_loop.
  induction files as [|x files IH]; intros w Hc HU Hset Hne.
  - split; [exact HU|]. revert Hset. apply settled_but_weaken.
    intros d0 x0 [H|[_ []]]. exact H.
  - rewrite for_each_exec in * by apply try_except_log_ok.
    set (w1 := exec (try_except
                       (reanalyze_file false d (Py.remove_all organized_prefix d) x)
                       (fun _ => log (LogError x))) w) in *.
    assert (Hne1 : no_error w1).
    { revert Hne. apply no_error_before.
      apply preserves_for_each. intros y _. apply events_from_turn. }
    destruct (clean_turn d x _ w Hd Hc HU Hset Hne1) as [HU1 Hset1].
    apply IH; [| exact HU1 | | exact Hne].
    + exact (proj1 (ai_off_turn (w_ai_calls w) false d _ x w (conj Hc eq_refl))).
    + revert Hset1. apply settled_but_weaken.
      intros d0 x0 [[H|[-> [<-|H]]] Hn]; [now left | | right; now split].
      exfalso. now apply Hn.
Qed.

Lemma assoc_Some_In {A} (k : string) (l : list (string * A)) (v : A) :
  assoc k l = Some v -> In (k, v) l.
Proof.
  induction l as [|[k' v'] l IH]; simpl; [discriminate|].
  destruct (String.eqb_spec k k') as [->|H].
  - intros [= ->]. now left.
  - intros E. right. now apply IH.
Qed.

Lemma file_at_listed (r : rootdir) (d x : string) (f : file) (es : dir) :
  lookup_dir r d = Some es -> file_at r [d; x] = Some f -> In x (dir_files es).
Proof.
  intros Hd Hf. unfold file_at in Hf. rewrite Hd in Hf.
  destruct (assoc x es) as [[g|]|] eqn:Ha; try discriminate.
  apply assoc_Some_In in Ha. unfold dir_files. apply in_flat_map.
  exists (x, File g). split; [exact Ha | now left].
Qed.

Lemma organized_folders_prefix (r : rootdir) (d : string) :
  In d (organized_folders r) -> Py.startswith organized_prefix d = true.
Proof.
  unfold organized_folders. intros H. apply in_flat_map in H.
  destruct H as [[k [f|es]] [_ H]]; simpl in H; [destruct H|].
  destruct (Py.startswith organized_prefix k) eqn:E; [|destruct H].
  now destruct H as [<-|[]].
Qed.

Lemma file_at_organized (r : rootdir) (d x : string) (f : file) :
  Py.startswith organized_prefix d = true ->
  file_at r [d; x] = Some f -> In d (organized_folders r).
Proof.
  intros Hp Hf. destruct (file_at_dir r d x f Hf) as [es He].
  apply lookup_dir_assoc, assoc_Some_In in He.
  unfold organized_folders. apply in_flat_map.
  exists (d, RDir es). split; [exact He|]. simpl. rewrite Hp. now left.
Qed.

(** The folder loop of a live pass, when it logs no error and no two
    files compete for a name, settles every file. *)
Lemma clean_folders :
  forall S w,
    (forall d, In d S -> Py.startswith organized_prefix d = true) ->
    w_ai_client w = None ->
    dirs_stay S w ->
    uncontested (w_root w) ->
    settled_but (fun d0 _ => In d0 S) (w_root w) ->
    no_error (exec (for_each S (reanalyze_folder false)) w) ->
    outcome (for_each S (reanalyze_folder false)) w = Ok tt
    /\ settled_but (fun _ _ => False)
                   (w_root (exec (for_each S (reanalyze_folder false)) w)).
Proof.
  induction S as [|d S IH]; intros w Hpre Hc Hdirs HU Hset Hne.
  { split; [reflexivity|]. revert Hset. apply settled_but_weaken.
    intros d0 x0 []. }
  assert (Hd : is_some (lookup_dir (w_root w) d) = true) by (apply Hdirs; now left).
  destruct (lookup_dir (w_root w) d) as [es|] eqn:Hes; [|discriminate].
  assert (Hrun : reanalyze_folder false d w
                 = reanalyze_loop false d (Py.remove_all organized_prefix d)
                                  (dir_files es) w).
  { unfold reanalyze_folder. rewrite bind_get. now rewrite Hes. }
  assert (Hok : outcome (reanalyze_folder false d) w = Ok tt).
  { unfold outcome. rewrite Hrun. apply reanalyze_loop_ok. }
  rewrite for_each_outcome by exact Hok.
  rewrite for_each_exec in * by exact Hok.
  set (w1 := exec (reanalyze_folder false d) w) in *.
  assert (Hne1 : no_error w1).
  { revert Hne. apply no_error_before.
    apply preserves_for_each. intros y _. apply events_from_folder. }
  assert (Hloop : uncontested (w_root w1) /\ settled_but (fun d0 _ => In d0 S) (w_root w1)).
  { unfold w1, exec in *. rewrite Hrun in *.
    apply (clean_loop d S (Hpre d (or_introl eq_refl)) (dir_files es) w Hc HU);
      [|exact Hne1].
    revert Hset. apply settled_but_refine. intros d0 x0 f0 Hf0 [<-|H]; [|now left].
    right. split; [reflexivity|]. now apply (file_at_listed (w_root w) d x0 f0). }
  destruct Hloop as [HU1 Hset1].
  apply IH; try assumption.
  - intros d0 H0. apply Hpre. now right.
  - exact (proj1 (ai_off_folder (w_ai_calls w) false d w (conj Hc eq_refl))).
  - intros d0 H0. apply (dirs_stay_reanalyze_folder (d :: S) false d w Hdirs).
    now right.
Qed.
Lemma root_names_mkdir (name : string) :
  preserves (fun w => NoDup (map fst (w_root w))) (mkdir_exist_ok name).
Proof.
  intros w H. unfold exec, mkdir_exist_ok. rewrite bind_get.
  destruct (assoc name (w_root w)) as [[f|es]|] eqn:Ha; [exact H | exact H|].
  cbn [fst modify w_root set_root]. rewrite map_app. simpl.
  apply NoDup_app; [exact H | constructor; [intros [] | constructor] |].
  intros k Hk [<-|[]]. now rewrite (assoc_None_notin _ _ Ha) in Hk.
Qed.

Lemma root_names_move (d0 n0 d n : string) :
  preserves (fun w => NoDup (map fst (w_root w))) (shutil_move [d0; n0] d n).
Proof.
  unfold shutil_move. preserves_tac.
  apply preserves_modify. intros w1 _. cbn [w_root set_root].
  unfold place, unlink. now rewrite !update_dir_names.
Qed.

Lemma root_names_pass (folder_exists dry_run : bool) :
  preserves (fun w => NoDup (map fst (w_root w)))
            (reanalyze_organized_files folder_exists dry_run).
Proof.
  unfold reanalyze_organized_files, reanalyze_folder, reanalyze_loop,
    reanalyze_file.
  frame_with ltac:(first [apply root_names_mkdir | apply root_names_move]).
Qed.

(** A live pass without the collaborator that logs no error, on a
    folder in which no two files compete for a name, leaves every file
    settled. *)
Lemma clean_pass_settles (w : world) :
  w_ai_client w = None ->
  NoDup (map fst (w_root w)) ->
  uncontested (w_root w) ->
  no_error (exec (reanalyze_organized_files true false) w) ->
  settled (w_root (exec (reanalyze_organized_files true false) w)).
Proof.
  intros Hc Hnd HU.
  assert (Hfin : forall r, settled_but (fun _ _ => False) r -> settled r).
  { intros r H d es x Hd _ _.
    destruct (file_at r [d; x]) as [f|] eqn:Hf; [|now apply settled_file_missing].
    rewrite (settled_file_at r d x f Hf).
    destruct (H d x f (organized_folders_prefix r d Hd) Hf) as [E|[]]. exact E. }
  unfold exec, reanalyze_organized_files. cbn [negb]. cbv iota.
  rewrite bind_get.
  destruct (organized_folders (w_root w)) as [|d0 ds] eqn:Hof.
  { intros _. cbn [fst ret]. intros d es x Hd. rewrite Hof in Hd. destruct Hd. }
  rewrite bind_modify.
  destruct (for_each (d0 :: ds) (reanalyze_folder false) (set_stats zero_stats w))
    as [w1 res] eqn:Hrun.
  intros Hne.
  assert (Hne1 : no_error w1).
  { unfold bind in Hne. rewrite Hrun in Hne. now destruct res. }
  destruct (clean_folders (d0 :: ds) (set_stats zero_stats w)) as [Ho Hset].
  - intros d Hd. rewrite <- Hof in Hd. now apply (organized_folders_prefix (w_root w)).
  - exact Hc.
  - intros d Hd. rewrite <- Hof in Hd. cbn [w_root set_stats].
    destruct (organized_folders_dir _ _ Hnd Hd) as [es ->]. reflexivity.
  - exact HU.
  - intros d x f Hp Hf. right. rewrite <- Hof.
    now apply (file_at_organized _ d x f).
  - unfold exec. now rewrite Hrun.
  - unfold outcome, exec in Ho, Hset. rewrite Hrun in Ho, Hset.
    cbn [fst snd] in Ho, Hset. subst res.
    unfold bind. rewrite Hrun. cbn. now apply Hfin.
Qed.

(** C2, amended. With the collaborator disabled and nothing changed in
    between, the second of two reconcile passes in a row moves nothing
    and reports no rename and no move, provided that the first pass
    logged no error and that no two files competed for a name in it:
    before the first pass, the place where the pass wants a file that
    is not there yet (the folder of its recomputed category, under its
    recomputed name) is free, and no two such files are wanted at the
    same place. *)
Theorem second_pass_is_quiet_after_clean_pass (w : world) :
  w_ai_client w = None ->
  NoDup (map fst (w_root w)) ->
  uncontested (w_root w) ->
  let w1 := exec (reanalyze_organized_files true false) w in
  no_error w1 ->
  let w2 := exec (reanalyze_organized_files true false) w1 in
  w_root w2 = w_root w1
  /\ w_actions w2 = w_actions w1
  /\ (outcome (reanalyze_organized_files true false) w1 = Ok None
      \/ exists st,
          outcome (reanalyze_organized_files true false) w1 = Ok (Some st)
          /\ files_renamed st = 0 /\ files_moved st = 0).
Proof.
  intros Hc Hnd HU w1 Hne.
  apply settled_pass_is_quiet.
  - exact (proj1 (ai_off_reanalyze (w_ai_calls w) true false w (conj Hc eq_refl))).
  - now apply root_names_pass.
  - now apply clean_pass_settles.
Qed.

Lemma file_at_all_files (r : rootdir) (d x : string) (f : file) :
  file_at r [d; x] = Some f -> In ([d; x], f) (all_files r).
Proof.
  intros Hf. destruct (file_at_dir r d x f Hf) as [es He].
  unfold file_at in Hf. rewrite He in Hf.
  destruct (assoc x es) as [[g|]|] eqn:Ha; try discriminate. injection Hf as ->.
  apply lookup_dir_assoc, assoc_Some_In in He. apply assoc_Some_In in Ha.
  unfold all_files. apply in_flat_map. exists (d, RDir es). split; [exact He|].
  cbn [snd fst]. apply in_flat_map. exists (x, File f). split; [exact Ha | now left].
Qed.

Lemma second_pass_is_quiet_after_clean_pass_witness :
  let w := fresh_world
             [ ("Organized_Documents",
                RDir [("a.py", File (text_file "import x"));
                      ("my notes.txt", File (text_file "hello world"))]);
               ("Organized_Code", RDir []) ] in
  let w1 := exec (reanalyze_organized_files true false) w in
  let w2 := exec (reanalyze_organized_files true false) w1 in
  w_root w1
  = [ ("Organized_Documents",
       RDir [("hello_world.txt", File (text_file "hello world"))]);
      ("Organized_Code", RDir [("a.py", File (text_file "import x"))]) ]
  /\ w_root w2 = w_root w1
  /\ w_actions w2 = w_actions w1
  /\ (outcome (reanalyze_organized_files true false) w1 = Ok None
      \/ exists st,
          outcome (reanalyze_organized_files true false) w1 = Ok (Some st)
          /\ files_renamed st = 0 /\ files_moved st = 0).
Proof.
  intros w w1 w2. split; [reflexivity|].
  apply (second_pass_is_quiet_after_clean_pass w eq_refl).
  - change (NoDup ["Organized_Documents"; "Organized_Code"]).
    repeat constructor; simpl; intuition discriminate.
  - split.
    + intros d x f _ Hf Hs. apply file_at_all_files in Hf. simpl in Hf.
      destruct Hf as [E|[E|[]]]; injection E as <- <- <-; reflexivity.
    + intros d x f d' x' f' _ _ Hf Hf' Hs Hs' E.
      apply file_at_all_files in Hf, Hf'. simpl in Hf, Hf'.
      destruct Hf as [E1|[E1|[]]]; injection E1 as <- <- <-;
        destruct Hf' as [E2|[E2|[]]]; injection E2 as <- <- <-;
        first [ now split | discriminate E ].
  - intros name Hin. vm_compute in Hin.
    repeat (destruct Hin as [Hin|Hin]; [discriminate Hin|]). destruct Hin.
Defined.
